(** * A shallow embedding of the getAir REST client ([src/api.py])

    The client authenticates against a cloud backend in two steps, lists the
    devices bound to an account and keeps, per device, a local mirror of two
    attribute groups (System and Zone) together with the set of locally
    modified keys that a later [push] sends back.

    The embedding follows the Python source method by method.  Python values
    are a small inductive type, dictionaries are finite maps, the [requests]
    transport is an oracle that answers every request from the history of
    requests it has seen, and methods are computations in a state-and-exception
    monad so that the exceptions the source lets escape stay visible.

    Scope of the model.  Strings are ASCII text.  A response carries a body
    that [response.json()] decodes.  The credentials file, when it is JSON,
    is an object with string values.  There is one [API] object, and every
    [Device] is built with [api=self].  The log keeps one record per call
    of a logger method or of [print], whatever level is configured. *)

From Stdlib Require Import ZArith Lia Floats Ascii String HexadecimalString.
From stdpp Require Import gmap strings list fin_maps pretty.

Set Warnings "-register-all".
Local Open Scope string_scope.

(** ** Exceptions and the method monad *)

(** The exception classes that the modelled code can raise.  Only
    [RequestException] is caught by the request layer; [fetch] and [push]
    catch every [Exception]. *)
Inductive exn :=
| KeyError | AttributeError | TypeError | ValueError | RecursionError
| RequestException.

Inductive result (A : Type) :=
| Ret (a : A)
| Raise (e : exn).
Arguments Ret {A} a.
Arguments Raise {A} e.

(** A method body: it reads and writes a state [S] and either returns or
    raises.  The state survives a raise, as object mutations do in Python. *)
Definition M (S A : Type) : Type := S -> result A * S.

Definition ret {S A} (a : A) : M S A := fun s => (Ret a, s).
Definition raise {S A} (e : exn) : M S A := fun s => (Raise e, s).
Definition bind {S A B} (m : M S A) (k : A -> M S B) : M S B :=
  fun s => match m s with
           | (Ret a, s') => k a s'
           | (Raise e, s') => (Raise e, s')
           end.
Definition lift_result {S A} (r : result A) : M S A := fun s => (r, s).
Definition gets {S A} (f : S -> A) : M S A := fun s => (Ret (f s), s).
Definition modify {S} (f : S -> S) : M S unit := fun s => (Ret tt, f s).

(** [try: m  except <classes accepted by catches>: h] *)
Definition try_except {S A} (m : M S A) (catches : exn -> bool)
    (h : exn -> M S A) : M S A :=
  fun s => match m s with
           | (Ret a, s') => (Ret a, s')
           | (Raise e, s') => if catches e then h e s' else (Raise e, s')
           end.

Declare Scope py_scope.
Delimit Scope py_scope with py.
Notation "x <- m ;; k" := (bind m (fun x => k))
  (at level 100, m at next level, right associativity) : py_scope.
Notation "m ;;; k" := (bind m (fun _ => k))
  (at level 100, right associativity) : py_scope.
Local Open Scope py_scope.

(** A [for] loop whose body may [return]: the body yields [Some r] to return
    [r] from the enclosing method and [None] to go on with the next item. *)
Fixpoint for_each {S A R} (items : list A) (body : A -> M S (option R))
    : M S (option R) :=
  match items with
  | [] => ret None
  | x :: rest =>
      r <- body x ;;
      match r with
      | Some v => ret (Some v)
      | None => for_each rest body
      end
  end.

Definition is_RequestException (e : exn) : bool :=
  match e with RequestException => true | _ => false end.

(** [except Exception] accepts every class above. *)
Definition is_Exception (e : exn) : bool := true.

(** ** Python values *)

(** What [json.loads] produces and [json.dumps] accepts: [None], booleans,
    integers, floats, strings (ASCII text), lists and string-keyed
    dictionaries. *)
Inductive value :=
| VNone
| VBool (b : bool)
| VInt (z : Z)
| VFloat (f : PrimFloat.float)
| VStr (s : string)
| VList (l : list value)
| VDict (m : gmap string value).

(** [bool(v)] *)
Definition truthy (v : value) : bool :=
  match v with
  | VNone => false
  | VBool b => b
  | VInt z => negb (z =? 0)%Z
  | VFloat f => negb (PrimFloat.eqb f 0%float)
  | VStr s => negb (String.eqb s "")
  | VList l => match l with [] => false | _ => true end
  | VDict m => negb (bool_decide (size m = 0))
  end.

(** [len(v)] *)
Definition len_value (v : value) : result nat :=
  match v with
  | VStr s => Ret (String.length s)
  | VList l => Ret (length l)
  | VDict m => Ret (size m)
  | _ => Raise TypeError
  end.

(** The objects the source applies [len] to: decoded values and, in
    [set_time_profile_data], the builtin class [list] itself. *)
Inductive pyobj :=
| Obj (v : value)
| Builtin_list.

Definition len (o : pyobj) : result nat :=
  match o with
  | Obj v => len_value v
  | Builtin_list => Raise TypeError
  end.

(** [v.get(key, default)]: only dictionaries have the method. *)
Definition py_get (v : value) (key : string) (default : value) : result value :=
  match v with
  | VDict m => Ret (match m !! key with Some x => x | None => default end)
  | _ => Raise AttributeError
  end.

(** [v[key]] for a string key. *)
Definition py_getitem (v : value) (key : string) : result value :=
  match v with
  | VDict m => match m !! key with Some x => Ret x | None => Raise KeyError end
  | _ => Raise TypeError
  end.

Definition is_str (key : string) (v : value) : bool :=
  match v with VStr s => String.eqb s key | _ => false end.

Definition is_substring (key s : string) : bool :=
  match String.index 0 key s with Some _ => true | None => false end.

(** [key in v] for a string key: key membership in a dictionary, element
    membership in a list, substring test in a string. *)
Definition py_contains (v : value) (key : string) : result bool :=
  match v with
  | VDict m => Ret (bool_decide (is_Some (m !! key)))
  | VList l => Ret (existsb (is_str key) l)
  | VStr s => Ret (is_substring key s)
  | _ => Raise TypeError
  end.

Fixpoint chars (s : string) : list string :=
  match s with
  | EmptyString => []
  | String c rest => String c EmptyString :: chars rest
  end.

(** [for x in v]: the items a loop over [v] visits. *)
Definition py_iter (v : value) : result (list value) :=
  match v with
  | VList l => Ret l
  | VStr s => Ret (VStr <$> chars s)
  | VDict m => Ret ((VStr ∘ fst) <$> map_to_list m)
  | _ => Raise TypeError
  end.

(** ** Strings *)

Fixpoint map_string (f : Ascii.ascii -> string) (s : string) : string :=
  match s with
  | EmptyString => EmptyString
  | String c rest => f c +:+ map_string f rest
  end.

(** [s.replace(old, new)] for a one-character [old]. *)
Definition replace (old : Ascii.ascii) (new : string) (s : string) : string :=
  map_string (fun c => if Ascii.eqb c old then new else String c EmptyString) s.

Definition upper_char (c : Ascii.ascii) : ascii :=
  let n := nat_of_ascii c in
  if (97 <=? n)%nat && (n <=? 122)%nat then ascii_of_nat (n - 32) else c.

(** [s.upper()] *)
Definition upper (s : string) : string :=
  map_string (fun c => String (upper_char c) EmptyString) s.

(** [f"{x}"] where [x] is a string or [None]. *)
Definition fmt (x : option string) : string :=
  match x with Some s => s | None => "None" end.

Definition hex_digit (c : Ascii.ascii) : option Z :=
  let n := Z.of_nat (nat_of_ascii c) in
  if (48 <=? n)%Z && (n <=? 57)%Z then Some (n - 48)%Z
  else if (65 <=? n)%Z && (n <=? 70)%Z then Some (n - 55)%Z
  else if (97 <=? n)%Z && (n <=? 102)%Z then Some (n - 87)%Z
  else None.

(** The ASCII characters [int] strips around a literal. *)
Definition is_space (c : Ascii.ascii) : bool :=
  let n := nat_of_ascii c in
  ((9 <=? n)%nat && (n <=? 13)%nat) || ((28 <=? n)%nat && (n <=? 32)%nat).

(** [int(s, 16)] on the slices [device_id[i:i+2]], which have one or two
    characters: two digits, or one digit with a sign in front or a blank on
    either side.  Prefixes and digit separators need three characters. *)
Definition int16 (s : string) : result Z :=
  match s with
  | String a EmptyString =>
      match hex_digit a with Some x => Ret x | None => Raise ValueError end
  | String a (String b EmptyString) =>
      match hex_digit a, hex_digit b with
      | Some x, Some y => Ret (16 * x + y)%Z
      | Some x, None => if is_space b then Ret x else Raise ValueError
      | None, Some y =>
          if is_space a then Ret y
          else if Ascii.eqb a "+" then Ret y
          else if Ascii.eqb a "-" then Ret (- y)%Z
          else Raise ValueError
      | None, None => Raise ValueError
      end
  | _ => Raise ValueError
  end.

(** [[s[i:i+2] for i in range(0, len(s), 2)]] *)
Fixpoint slices2 (s : string) : list string :=
  match s with
  | EmptyString => []
  | String a EmptyString => [String a EmptyString]
  | String a (String b rest) => String a (String b EmptyString) :: slices2 rest
  end.

Definition hex_of_N (n : N) : string := NilZero.string_of_uint (N.to_hex_uint n).

(** [f'{b:02x}']: integers (and booleans, which are integers) print in
    lower-case hex, zero-padded to two characters, the sign counting as one;
    every other value rejects the format code. *)
Definition format_02x (b : value) : result string :=
  let of_Z (z : Z) :=
    if (z <? 0)%Z then "-" +:+ hex_of_N (Z.to_N (- z))
    else if (z <? 16)%Z then "0" +:+ hex_of_N (Z.to_N z)
    else hex_of_N (Z.to_N z) in
  match b with
  | VInt z => Ret (of_Z z)
  | VBool true => Ret (of_Z 1%Z)
  | VBool false => Ret (of_Z 0%Z)
  | VFloat _ | VStr _ => Raise ValueError
  | VNone | VList _ | VDict _ => Raise TypeError
  end.

(** [''.join(f'{b:02x}' for b in items)] *)
Fixpoint join_02x (items : list value) : result string :=
  match items with
  | [] => Ret ""
  | b :: rest =>
      match format_02x b with
      | Raise e => Raise e
      | Ret h => match join_02x rest with
                 | Raise e => Raise e
                 | Ret t => Ret (h +:+ t)
                 end
      end
  end.

Example replace_ex : replace "_" "-" "time_profile_3_name" = "time-profile-3-name".
Proof. reflexivity. Qed.
Example upper_ex : upper (replace ":" "" "00:1a:2b:3c:4d:5e") = "001A2B3C4D5E".
Proof. reflexivity. Qed.
Example join_ex : join_02x [VInt 0; VInt 26; VInt 43; VInt 255] = Ret "001a2bff".
Proof. reflexivity. Qed.
Example len_ex : len Builtin_list = Raise TypeError.
Proof. reflexivity. Qed.

(** ** The transport and the world around the client *)

Module ResponseCode.
Definition OK : Z := 200.
Definition NO_CONTENT : Z := 204.
Definition BAD_REQUEST : Z := 400.
Definition UNAUTHORIZED : Z := 401.
Definition NOT_FOUND : Z := 404.
Definition TOO_MANY_REQUESTS : Z := 429.
Definition INTERNAL_SERVER_ERROR : Z := 500.
Definition SERVICE_UNAVAILABLE : Z := 503.

Definition description (code : Z) : string :=
  if (code =? OK)%Z then "The request was successfully processed."
  else if (code =? NO_CONTENT)%Z then
    "The request was successful, but there is no content to return."
  else if (code =? BAD_REQUEST)%Z then
    "The request contains errors or invalid parameters."
  else if (code =? UNAUTHORIZED)%Z then
    "Authentication is required or has failed."
  else if (code =? NOT_FOUND)%Z then
    "The requested resource could not be found."
  else if (code =? TOO_MANY_REQUESTS)%Z then
    "The client has sent too many requests (rate limiting)."
  else if (code =? INTERNAL_SERVER_ERROR)%Z then
    "The server encountered an unexpected condition."
  else if (code =? SERVICE_UNAVAILABLE)%Z then
    "The server is temporarily unable to process the request."
  else "Unknown status code.".
End ResponseCode.

Inductive Method := POST | GET | PUT.

(** A call of [requests.post], [requests.get] or [requests.put].  [bearer]
    is the token interpolated into the [Authorization: Bearer ...] header
    ([None] when the call sends no such header) and [data] the object that
    was passed through [json.dumps]. *)
Record Request := {
  method : Method;
  url : string;
  params : gmap string value;
  bearer : option value;
  data : option value
}.

Record Response := {
  status_code : Z;
  json : value          (* what [response.json()] decodes *)
}.

(** The transport either delivers a response or raises a
    [requests.RequestException]. *)
Inductive Reply :=
| Answer (r : Response)
| Unreachable.

Inductive Level := DEBUG | INFO | WARNING | ERROR.

(** Output of the logger and of [print]; interpolated values are left out of
    the message. *)
Inductive LogRecord :=
| Log (level : Level) (msg : string)
| Print (msg : string).

(** The file at [_credentials_path]: absent, not JSON, or a JSON object
    with string values. *)
Inductive CredFile :=
| NoFile
| NotJson
| Credentials (c : gmap string string).

(** ** The data model *)

(** A device mirror.  [_system] and [_zone] are the [__dict__] of the
    [_System] and [_Zone] objects, [_system_changed] and [_zone_changed] the
    two ChangeSets.  [oid] is the identity of the Python object. *)
Record Device := {
  oid : nat;
  AUTOSET : bool;
  _system : gmap string value;
  _zone : gmap string value;
  _system_changed : gmap string value;
  _zone_changed : gmap string value
}.

Record API := {
  AUTO_RECONNECT : bool;
  _session_token : value;
  _api_token : value;
  _auth_url : option string;
  _api_url : option string;
  _devices : list Device
}.

(** Everything a method can read or change: the client object, the
    credentials file, the backend (which answers a request knowing the
    requests issued before it), the requests issued so far, the log, and the
    number of [Device] objects created so far. *)
Record World := {
  api : API;
  credentials_file : CredFile;
  backend : list Request -> Request -> Reply;
  sent : list Request;
  log : list LogRecord;
  allocated : nat
}.

Definition set_api (f : API -> API) (w : World) : World :=
  {| api := f (api w); credentials_file := credentials_file w;
     backend := backend w; sent := sent w; log := log w;
     allocated := allocated w |}.

Definition add_sent (r : Request) (w : World) : World :=
  {| api := api w; credentials_file := credentials_file w;
     backend := backend w; sent := sent w ++ [r]; log := log w;
     allocated := allocated w |}.

Definition add_log (r : LogRecord) (w : World) : World :=
  {| api := api w; credentials_file := credentials_file w;
     backend := backend w; sent := sent w; log := log w ++ [r];
     allocated := allocated w |}.

Definition set_allocated (n : nat) (w : World) : World :=
  {| api := api w; credentials_file := credentials_file w;
     backend := backend w; sent := sent w; log := log w;
     allocated := n |}.

Definition set_urls (auth_url api_url : option string) (a : API) : API :=
  {| AUTO_RECONNECT := AUTO_RECONNECT a; _session_token := _session_token a;
     _api_token := _api_token a; _auth_url := auth_url; _api_url := api_url;
     _devices := _devices a |}.

Definition set_session_token (t : value) (a : API) : API :=
  {| AUTO_RECONNECT := AUTO_RECONNECT a; _session_token := t;
     _api_token := _api_token a; _auth_url := _auth_url a;
     _api_url := _api_url a; _devices := _devices a |}.

Definition set_api_token (t : value) (a : API) : API :=
  {| AUTO_RECONNECT := AUTO_RECONNECT a; _session_token := _session_token a;
     _api_token := t; _auth_url := _auth_url a; _api_url := _api_url a;
     _devices := _devices a |}.

Definition set_devices (l : list Device) (a : API) : API :=
  {| AUTO_RECONNECT := AUTO_RECONNECT a; _session_token := _session_token a;
     _api_token := _api_token a; _auth_url := _auth_url a;
     _api_url := _api_url a; _devices := l |}.

(** [API.__init__] *)
Definition API__init__ : API :=
  {| AUTO_RECONNECT := true; _session_token := VNone; _api_token := VNone;
     _auth_url := None; _api_url := None; _devices := [] |}.

Definition logger (level : Level) (msg : string) : M World unit :=
  modify (add_log (Log level msg)).

Definition print (msg : string) : M World unit :=
  modify (add_log (Print msg)).

(** One call into [requests]: the request is recorded, the backend answers
    it, and a transport failure raises. *)
Definition send (r : Request) : M World Response :=
  fun w => match backend w (sent w) r with
           | Answer resp => (Ret resp, add_sent r w)
           | Unreachable => (Raise RequestException, add_sent r w)
           end.

Definition requests_post (u : string) (payload : value) : M World Response :=
  send {| method := POST; url := u; params := ∅; bearer := None;
          data := Some payload |}.

Definition requests_get (u : string) (ps : gmap string value)
    (auth : option value) : M World Response :=
  send {| method := GET; url := u; params := ps; bearer := auth;
          data := None |}.

Definition requests_put (u : string) (auth : value) (payload : value)
    : M World Response :=
  send {| method := PUT; url := u; params := ∅; bearer := Some auth;
          data := Some payload |}.

(** ** The session authenticator and the request executor ([class API]) *)

Definition required_keys : list string :=
  ["auth_url"; "api_url"; "username"; "password"].

Definition _load_credentials : M World (gmap string string) :=
  file <- gets credentials_file ;;
  match file with
  | Credentials credentials =>
      missing <- for_each required_keys (fun key =>
        if bool_decide (is_Some (credentials !! key)) then ret None
        else
          logger ERROR ("Key " +:+ key +:+ " not found in credentials") ;;;
          ret (Some (∅ : gmap string string))) ;;
      match missing with
      | Some empty => ret empty
      | None =>
          modify (set_api (set_urls (credentials !! "auth_url")
                                    (credentials !! "api_url"))) ;;;
          ret credentials
      end
  | NoFile | NotJson =>
      logger ERROR "Can't load credentials" ;;;
      ret ∅
  end.

(** [credentials[key]] *)
Definition credential (credentials : gmap string string) (key : string)
    : result string :=
  match credentials !! key with
  | Some x => Ret x
  | None => Raise KeyError
  end.

Definition _get_session_token : M World value :=
  credentials <- _load_credentials ;;
  username <- lift_result (credential credentials "username") ;;
  password <- lift_result (credential credentials "password") ;;
  let payload :=
    VDict (<["username" := VStr username]> (<["password" := VStr password]> ∅)) in
  try_except
    (auth_url <- gets (fun w => _auth_url (api w)) ;;
     response <- requests_post (fmt auth_url) payload ;;
     if (status_code response =? ResponseCode.OK)%Z then
       let response_data := json response in
       status <- lift_result (py_get response_data "status" VNone) ;;
       if is_str "SUCCESS" status then
         token <- lift_result (py_getitem response_data "sessionToken") ;;
         modify (set_api (set_session_token token)) ;;;
         ret token
       else
         print "Authentication failed:" ;;;
         ret VNone
     else
       print ("Error: " +:+ ResponseCode.description (status_code response)) ;;;
       ret VNone)
    is_RequestException
    (fun _ => print "Request error" ;;; ret VNone).

(** On success the method returns [self._session_token], as the source
    does. *)
Definition _get_api_token : M World value :=
  session_token <- gets (fun w => _session_token (api w)) ;;
  let params_ :=
    <["issuer" := VStr "GETAIR_API"]> (<["sessionToken" := session_token]> ∅) in
  try_except
    (api_url <- gets (fun w => _api_url (api w)) ;;
     base <- match api_url with
             | Some u => ret u
             | None => raise TypeError     (* None + "iam/token/" *)
             end ;;
     response <- requests_get (base +:+ "iam/token/") params_ None ;;
     if (status_code response =? ResponseCode.OK)%Z then
       let response_data := json response in
       token <- lift_result (py_get response_data "token" VNone) ;;
       if truthy token then
         modify (set_api (set_api_token token)) ;;;
         gets (fun w => _session_token (api w))
       else
         print "Authentication failed:" ;;;
         ret VNone
     else
       print ("Error: " +:+ ResponseCode.description (status_code response)) ;;;
       ret VNone)
    is_RequestException
    (fun _ => print "Request error" ;;; ret VNone).

(** [connect] on an existing client; [true] stands for returning [self] and
    [false] for returning [None]. *)
Definition connect : M World bool :=
  session <- _get_session_token ;;
  if negb (truthy session) then
    logger INFO "Unable to connect." ;;; ret false
  else
    token <- _get_api_token ;;
    if negb (truthy token) then
      logger INFO "Unable to connect." ;;; ret false
    else ret true.

(** [_request_get] calls itself after a successful reconnect.  [depth] is
    the number of nested calls the interpreter still allows; when it is used
    up the innermost call raises [RecursionError]. *)
Fixpoint _request_get (depth : nat) (path : string) : M World value :=
  match depth with
  | O => raise RecursionError
  | S depth' =>
      try_except
        (token <- gets (fun w => _api_token (api w)) ;;
         api_url <- gets (fun w => _api_url (api w)) ;;
         response <- requests_get (fmt api_url +:+ path) ∅ (Some token) ;;
         if (status_code response =? ResponseCode.OK)%Z then
           logger DEBUG "Get request succeeded" ;;;
           ret (json response)
         else
           auto <- gets (fun w => AUTO_RECONNECT (api w)) ;;
           if (status_code response =? ResponseCode.UNAUTHORIZED)%Z && auto then
             logger INFO "Reconnecting" ;;;
             connected <- connect ;;
             if connected then _request_get depth' path else ret VNone
           else
             logger ERROR
               ("Error: " +:+ ResponseCode.description (status_code response)) ;;;
             ret VNone)
        is_RequestException
        (fun _ => logger ERROR "Request error (GET)" ;;; ret VNone)
  end.

Fixpoint _request_put (depth : nat) (path : string) (payload : value)
    : M World value :=
  match depth with
  | O => raise RecursionError
  | S depth' =>
      try_except
        (token <- gets (fun w => _api_token (api w)) ;;
         api_url <- gets (fun w => _api_url (api w)) ;;
         response <- requests_put (fmt api_url +:+ path) token payload ;;
         if (status_code response =? ResponseCode.OK)%Z then
           logger DEBUG "Put request succeeded" ;;;
           ret (json response)
         else if (status_code response =? ResponseCode.NO_CONTENT)%Z then
           logger DEBUG "Put request succeeded with no answer" ;;;
           ret VNone
         else
           auto <- gets (fun w => AUTO_RECONNECT (api w)) ;;
           if (status_code response =? ResponseCode.UNAUTHORIZED)%Z && auto then
             logger INFO "Reconnecting" ;;;
             connected <- connect ;;
             if connected then _request_put depth' path payload else ret VNone
           else
             logger ERROR
               ("Error: " +:+ ResponseCode.description (status_code response)) ;;;
             ret VNone)
        is_RequestException
        (fun _ => logger ERROR "Request error (PUT)" ;;; ret VNone)
  end.

(** ** The device mirror ([class Device]) *)

Definition time_profile_attr (number : Z) (suffix : string) : string :=
  "time_profile_" +:+ pretty number +:+ suffix.

(** The attributes of a [_System] object in the order [__init__] creates
    them; no method adds or removes one. *)
Definition _System_attrs : list string :=
  ["system_type"; "system_version"; "system_id"; "num_zones"; "runtime";
   "modelock"; "notification"; "notify_time"; "humidity"; "air_pressure";
   "temperature"; "indoor_air_quality"; "iaq_accuracy"; "fw_app_version";
   "fw_app_version_str"; "boot_time"]
  ++ flat_map (fun i => [time_profile_attr i "_name"; time_profile_attr i "_data"])
       [1; 2; 3; 4; 5; 6; 7; 8; 9; 10]%Z.

Definition _Zone_attrs : list string :=
  ["name"; "runtime"; "last_filter_change"; "speed"; "zone_index"; "mode";
   "mode_deadline"; "target_temp"; "target_hmdty_level"; "auto_mode_voc";
   "auto_mode_silent"; "humidity"; "temperature"; "hmdty_outdoors";
   "temp_outdoors"; "time_profile"].

Definition fresh_object (attrs : list string) : gmap string value :=
  list_to_map ((fun a => (a, VNone)) <$> attrs).

Definition _System__init__ : gmap string value := fresh_object _System_attrs.
Definition _Zone__init__ : gmap string value := fresh_object _Zone_attrs.

Definition set_system (attr : string) (v : value) (d : Device) : Device :=
  {| oid := oid d; AUTOSET := AUTOSET d; _system := <[attr := v]> (_system d);
     _zone := _zone d; _system_changed := _system_changed d;
     _zone_changed := _zone_changed d |}.

Definition set_zone (attr : string) (v : value) (d : Device) : Device :=
  {| oid := oid d; AUTOSET := AUTOSET d; _system := _system d;
     _zone := <[attr := v]> (_zone d); _system_changed := _system_changed d;
     _zone_changed := _zone_changed d |}.

Definition set_system_changed (c : gmap string value) (d : Device) : Device :=
  {| oid := oid d; AUTOSET := AUTOSET d; _system := _system d;
     _zone := _zone d; _system_changed := c;
     _zone_changed := _zone_changed d |}.

Definition set_zone_changed (c : gmap string value) (d : Device) : Device :=
  {| oid := oid d; AUTOSET := AUTOSET d; _system := _system d;
     _zone := _zone d; _system_changed := _system_changed d;
     _zone_changed := c |}.

Definition set_AUTOSET (b : bool) (d : Device) : Device :=
  {| oid := oid d; AUTOSET := b; _system := _system d;
     _zone := _zone d; _system_changed := _system_changed d;
     _zone_changed := _zone_changed d |}.

(** Device methods run on the device object and the world it lives in. *)
Definition DM (A : Type) : Type := M (Device * World) A.

Definition self {A} (f : Device -> A) : DM A := gets (fun s => f (fst s)).
Definition modify_self (f : Device -> Device) : DM unit :=
  modify (fun s => (f (fst s), snd s)).

(** A call into [self._api]. *)
Definition with_api {A} (m : M World A) : DM A :=
  fun s => (fst (m (snd s)), (fst s, snd (m (snd s)))).

(** The [device_id] property; [Ret None] is Python's [None]. *)
Definition device_id (d : Device) : result (option string) :=
  match _system d !! "system_id" with
  | None => Raise AttributeError
  | Some (VStr system_id) => Ret (Some system_id)
  | Some (VDict system_id) =>
      match system_id !! "data" with
      | None => Ret None
      | Some items =>
          match py_iter items with
          | Raise e => Raise e
          | Ret bs => match join_02x bs with
                      | Raise e => Raise e
                      | Ret joined => Ret (Some (upper joined))
                      end
          end
      end
  | Some _ => Ret None
  end.

(** One of the two loops of [fetch]: every attribute whose dash-cased name
    is a key of the response takes the response's value; an exception
    returns [False] from [fetch]. *)
Definition merge (attrs : list string)
    (setattr : string -> value -> Device -> Device) (response : value)
    : DM (option bool) :=
  for_each attrs (fun attr =>
    let key := replace "_" "-" attr in
    try_except
      (present <- lift_result (py_contains response key) ;;
       if present : bool then
         v <- lift_result (py_getitem response key) ;;
         modify_self (setattr attr v) ;;;
         ret None
       else ret None)
      is_Exception
      (fun _ => with_api (logger WARNING "Can't update value") ;;;
                ret (Some false))).

Definition fetch (depth : nat) : DM bool :=
  try_except
    (id <- bind (self device_id) lift_result ;;
     system_data <-
       with_api (_request_get depth
                   ("devices/" +:+ fmt id +:+ "/services/System")) ;;
     if negb (truthy system_data) then
       with_api (logger DEBUG "Empty System data") ;;; ret false
     else
       r <- merge _System_attrs set_system system_data ;;
       match r with
       | Some b => ret b
       | None =>
           id <- bind (self device_id) lift_result ;;
           zone_data <-
             with_api (_request_get depth
                         ("devices/1." +:+ fmt id +:+ "/services/Zone")) ;;
           if negb (truthy zone_data) then
             with_api (logger DEBUG "Empty Zone data") ;;; ret false
           else
             r <- merge _Zone_attrs set_zone zone_data ;;
             match r with
             | Some b => ret b
             | None => ret true
             end
       end)
    is_Exception
    (fun _ => with_api (logger ERROR "Error on updating values.") ;;;
              ret false).

Definition push (depth : nat) : DM bool :=
  try_except
    (system_changed <- self _system_changed ;;
     (if negb (size system_changed =? 0)%nat then
        id <- bind (self device_id) lift_result ;;
        resp1 <-
          with_api (_request_put depth
                      ("devices/" +:+ fmt id +:+ "/services/System")
                      (VDict system_changed)) ;;
        modify_self (set_system_changed ∅)
      else ret tt) ;;;
     zone_changed <- self _zone_changed ;;
     (if negb (size zone_changed =? 0)%nat then
        id <- bind (self device_id) lift_result ;;
        resp2 <-
          with_api (_request_put depth
                      ("devices/" +:+ fmt id +:+ "/services/Zone")
                      (VDict zone_changed)) ;;
        modify_self (set_zone_changed ∅)
      else ret tt) ;;;
     ret true)
    is_Exception
    (fun _ => with_api (logger ERROR "Error on pushing values.") ;;;
              ret false).

Definition update (depth : nat) : DM bool :=
  pushed <- push depth ;;
  if pushed : bool then fetch depth else ret false.

(** The [service] argument of [_key_changed]: one of the two nested classes,
    or anything else. *)
Inductive Service := _System | _Zone | other_service.

Definition _key_changed (depth : nat) (service : Service) (key : string)
    (v : value) : DM bool :=
  let then_ : DM bool :=
    autoset <- self AUTOSET ;;
    if autoset : bool then push depth else ret true in
  match service with
  | _System =>
      modify_self (fun d => set_system_changed (<[key := v]> (_system_changed d)) d) ;;;
      then_
  | _Zone =>
      modify_self (fun d => set_zone_changed (<[key := v]> (_zone_changed d)) d) ;;;
      then_
  | other_service => ret false
  end.

(** The body shared by the ten property setters: [self._zone.<attr> = value]
    followed by [self._key_changed(Device._Zone, <key>, value)]. *)
Definition zone_setter (attr key : string) (depth : nat) (v : value) : DM unit :=
  modify_self (set_zone attr v) ;;;
  _key_changed depth _Zone key v ;;;
  ret tt.

Definition name_setter := zone_setter "name" "name".
Definition speed_setter := zone_setter "speed" "speed".
Definition mode_setter := zone_setter "mode" "mode".
Definition mode_deadline_setter := zone_setter "mode_deadline" "mode-deadline".
Definition target_temp_setter := zone_setter "target_temp" "target-temp".
Definition target_hmdty_level_setter :=
  zone_setter "target_hmdty_level" "target-hmdty-level".
Definition auto_mode_voc_setter := zone_setter "auto_mode_voc" "auto-mode-voc".
Definition auto_mode_silent_setter :=
  zone_setter "auto_mode_silent" "auto-mode-silent".
Definition active_time_profile_setter := zone_setter "time_profile" "time-profile".
Definition last_filter_change_setter :=
  zone_setter "last_filter_change" "last-filter-change".

(** [self._system.__getattribute__(name)] *)
Definition getattribute (name : string) : DM value :=
  o <- self (fun d => _system d !! name) ;;
  match o with
  | Some v => ret v
  | None => raise AttributeError
  end.

Definition get_time_profile_name (number : Z) : DM value :=
  if (number <? 1)%Z || (number >? 10)%Z then
    with_api (logger ERROR "Index of time-profile is out of range") ;;;
    ret (VStr "")
  else getattribute (time_profile_attr number "_name").

Definition set_time_profile_name (depth : nat) (number : Z) (v : value)
    : DM unit :=
  if (number <? 1)%Z || (number >? 10)%Z then
    with_api (logger ERROR "Index of time-profile is out of range")
  else
    modify_self (set_system (time_profile_attr number "_name") v) ;;;
    _key_changed depth _System (time_profile_attr number "_name") v ;;;
    ret tt.

Definition get_time_profile_data (number : Z) : DM value :=
  if (number <? 1)%Z || (number >? 10)%Z then
    with_api (logger ERROR "Index of time-profile is out of range") ;;;
    ret (VList [])
  else getattribute (time_profile_attr number "_data").

Definition Buffer (items : value) : value :=
  VDict (<["type" := VStr "Buffer"]> (<["data" := items]> ∅)).

(** The length test is written [len(list)] in the source: it measures the
    builtin class, not the argument. *)
Definition set_time_profile_data (depth : nat) (number : Z) (v : value)
    : DM unit :=
  if (number <? 1)%Z || (number >? 10)%Z then
    with_api (logger ERROR "Index of time-profile is out of range")
  else
    n <- lift_result (len Builtin_list) ;;
    (if negb (n mod 4 =? 0)%nat then
       with_api (logger WARNING
                   "The length of the list must be a multiple of four")
     else ret tt) ;;;
    modify_self (set_system (time_profile_attr number "_data") (Buffer v)) ;;;
    _key_changed depth _System (time_profile_attr number "_data") (Buffer v) ;;;
    ret tt.

(** [[int(device_id[i:i+2], 16) for i in range(0, len(device_id), 2)]] on the
    slices of a string. *)
Fixpoint ints16 (slices : list string) : result (list value) :=
  match slices with
  | [] => Ret []
  | s :: rest =>
      match int16 s with
      | Raise e => Raise e
      | Ret z => match ints16 rest with
                 | Raise e => Raise e
                 | Ret zs => Ret (VInt z :: zs)
                 end
      end
  end.

(** The same comprehension on whatever [get_devices] passes as [device_id]:
    [len] must accept it; [int] does not convert a slice of a non-empty
    list, and a dictionary cannot be sliced. *)
Definition system_id_data (device_id_ : value) : result (list value) :=
  match device_id_ with
  | VStr s => ints16 (slices2 s)
  | VList [] => Ret []
  | VList _ => Raise TypeError
  | VDict m => if (size m =? 0)%nat then Ret [] else Raise TypeError
  | _ => Raise TypeError
  end.

(** The object [Device.__init__] has built when it calls [fetch]. *)
Definition new_device (n : nat) (bytes : list value) : Device :=
  {| oid := n; AUTOSET := false;
     _system := <["system_id" := Buffer (VList bytes)]> _System__init__;
     _zone := _Zone__init__;
     _system_changed := ∅; _zone_changed := ∅ |}.

(** [Device.__init__] with [api=self]: the new object performs its first
    [fetch] before the constructor returns. *)
Definition Device__init__ (depth : nat) (device_id_ : value) : M World Device :=
  n <- gets allocated ;;
  modify (set_allocated (S n)) ;;;
  bytes <- lift_result (system_id_data device_id_) ;;
  let this := new_device n bytes in
  fun w => match fetch depth (this, w) with
           | (Ret _, (this', w')) => (Ret this', w')
           | (Raise e, (_, w')) => (Raise e, w')
           end.

(** *** Read accessors *)

(** [self._zone.<attr>] and [self._system.<attr>] *)
Definition zone_attr (attr : string) (d : Device) : result value :=
  match _zone d !! attr with
  | Some v => Ret v
  | None => Raise AttributeError
  end.

Definition system_attr (attr : string) (d : Device) : result value :=
  match _system d !! attr with
  | Some v => Ret v
  | None => Raise AttributeError
  end.

Definition system_type := system_attr "system_type".
Definition fw_app_version_str := system_attr "fw_app_version_str".
Definition boot_time := system_attr "boot_time".
Definition runtime := zone_attr "runtime".
Definition name := zone_attr "name".
Definition air_pressure := system_attr "air_pressure".
Definition air_quality := system_attr "indoor_air_quality".
Definition humidity := zone_attr "humidity".
Definition temperature := zone_attr "temperature".
Definition outdoor_humidity := zone_attr "hmdty_outdoors".
Definition outdoor_temperature := zone_attr "temp_outdoors".
Definition indoor_humidity := system_attr "humidity".
Definition indoor_temperature := system_attr "temperature".
Definition speed := zone_attr "speed".
Definition mode := zone_attr "mode".
Definition mode_deadline := zone_attr "mode_deadline".
Definition target_temp := zone_attr "target_temp".
Definition target_hmdty_level := zone_attr "target_hmdty_level".
Definition auto_mode_voc := zone_attr "auto_mode_voc".
Definition auto_mode_silent := zone_attr "auto_mode_silent".
Definition active_time_profile := zone_attr "time_profile".
Definition last_filter_change := zone_attr "last_filter_change".

(** *** Serialization *)

(** One of the two loops of [json]: [res[group][attr] = getattr(obj, attr)]
    for every [attr] of [obj.__dict__]; [getattr] yields the value
    [__dict__] holds for [attr]. *)
Definition export (obj : gmap string value) : gmap string value :=
  map_fold (fun attr v res => <[attr := v]> res) ∅ obj.

(** [Device.json] *)
Definition Device_json (d : Device) : value :=
  VDict (<["Zone" := VDict (export (_zone d))]>
           (<["System" := VDict (export (_system d))]> ∅)).

(** ** The device registry ([class API], continued) *)

(** The body of the loop of [get_devices]: an entry whose identifier has
    twelve characters becomes a [Device] appended to [self._devices]. *)
Definition register_entry (depth : nat) (entry : value) : M World (option unit) :=
  mac <- lift_result (py_get entry "deviceIdentifier" (VStr "")) ;;
  n <- lift_result (len_value mac) ;;
  if negb (n =? 12)%nat then ret None
  else
    device <- Device__init__ depth mac ;;
    modify (set_api (fun a => set_devices (_devices a ++ [device]) a)) ;;;
    ret None.

Definition get_devices (depth : nat) : M World (list Device) :=
  response <- _request_get depth "devices/" ;;
  logger DEBUG "Active devices found" ;;;
  if negb (truthy response) then ret []
  else
    entries <- lift_result (py_iter response) ;;
    for_each entries (register_entry depth) ;;;
    devices <- gets (fun w => _devices (api w)) ;;
    (match devices with
     | [] => logger DEBUG "Could not find any device"
     | _ => ret tt
     end) ;;;
    ret devices.

Definition get_device (depth : nat) (deviceID : string)
    : M World (option Device) :=
  let deviceID := upper (replace ":" "" deviceID) in
  devices <- get_devices depth ;;
  found <- for_each devices (fun device =>
    id <- lift_result (device_id device) ;;
    if bool_decide (id = Some deviceID) then ret (Some device)
    else ret None) ;;
  match found with
  | Some device => ret (Some device)
  | None => logger INFO "Could not find device" ;;; ret None
  end.

(** ** Backends and worlds used in the examples *)

(** A backend that answers the n-th request it sees with the n-th reply of a
    script and is unreachable afterwards. *)
Definition scripted (replies : list Reply) : list Request -> Request -> Reply :=
  fun history _ => nth (length history) replies Unreachable.

Definition answer (code : Z) (body : value) : Reply :=
  Answer {| status_code := code; json := body |}.

Definition dict (items : list (string * value)) : value :=
  VDict (list_to_map items).

Definition demo_credentials : gmap string string :=
  list_to_map [("auth_url", "https://auth.example/");
               ("api_url", "https://api.example/");
               ("username", "user"); ("password", "secret")].

(** A client that has connected before. *)
Definition connected_api : API :=
  {| AUTO_RECONNECT := true; _session_token := VStr "S0";
     _api_token := VStr "T0"; _auth_url := Some "https://auth.example/";
     _api_url := Some "https://api.example/"; _devices := [] |}.

Definition world_of (a : API) (file : CredFile) (replies : list Reply) : World :=
  {| api := a; credentials_file := file; backend := scripted replies;
     sent := []; log := []; allocated := 0 |}.

Definition auth_ok : Reply :=
  answer 200 (dict [("status", VStr "SUCCESS"); ("sessionToken", VStr "S1")]).
Definition token_ok : Reply :=
  answer 200 (dict [("token", VStr "T1")]).

(** The mirror of device 00:1A:2B:3C:4D:5E before its first fetch. *)
Definition demo_device : Device :=
  new_device 0 [VInt 0; VInt 26; VInt 43; VInt 60; VInt 77; VInt 94].

(** The mode setter is called with ["auto"], then [push] runs against a
    backend that accepts the PUT. *)
Definition w_accepting : World :=
  world_of connected_api (Credentials demo_credentials) [answer 200 (dict [])].
Definition after_mode_auto : Device * World :=
  snd (mode_setter 3 (VStr "auto") (demo_device, w_accepting)).
Definition after_mode_push : Device * World := snd (push 3 after_mode_auto).

(** One pending System change and a backend that answers the flush with
    500. *)
Definition w_rejecting : World :=
  world_of connected_api (Credentials demo_credentials) [answer 500 VNone].
Definition pending_name : Device * World :=
  snd (set_time_profile_name 3 1 (VStr "Night") (demo_device, w_rejecting)).

(** A credentials file that lacks the password, in front of a backend that
    would accept the handshake. *)
Definition w_no_password : World :=
  world_of API__init__ (Credentials (delete "password" demo_credentials))
    [auth_ok; token_ok].

(** The (attribute, ChangeSet key) pairs of the ten property setters. *)
Definition zone_setters : list (string * string) :=
  [("name", "name"); ("speed", "speed"); ("mode", "mode");
   ("mode_deadline", "mode-deadline"); ("target_temp", "target-temp");
   ("target_hmdty_level", "target-hmdty-level");
   ("auto_mode_voc", "auto-mode-voc"); ("auto_mode_silent", "auto-mode-silent");
   ("time_profile", "time-profile");
   ("last_filter_change", "last-filter-change")].

Definition after_profile_name : Device * World :=
  snd (set_time_profile_name 3 1 (VStr "Night") (demo_device, w_accepting)).

(** ** Observations on a run *)

(** Whether a token exchange returned a token: a value that [connect]'s
    [not] test accepts. *)
Definition yields_token (r : result value) : bool :=
  match r with
  | Ret v => truthy v
  | Raise _ => false
  end.

Definition is_method (m : Method) (q : Request) : bool :=
  match m, method q with
  | POST, POST | GET, GET | PUT, PUT => true
  | _, _ => false
  end.

(** The number of requests issued so far that satisfy [p]. *)
Definition count_sent (p : Request -> bool) (w : World) : nat :=
  length (List.filter p (sent w)).

(** A backend that refuses the credentials, and one that accepts the
    handshake. *)
Definition w_auth_refused : World :=
  world_of API__init__ (Credentials demo_credentials)
    [answer 401 VNone; token_ok].
Definition w_handshake : World :=
  world_of API__init__ (Credentials demo_credentials) [auth_ok; token_ok].

(** The device after the loop of [fetch] has run over a dictionary
    response. *)
Definition merged (attrs : list string)
    (setattr : string -> value -> Device -> Device)
    (response : gmap string value) (d : Device) : Device :=
  foldl (fun d attr =>
           match response !! replace "_" "-" attr with
           | Some v => setattr attr v d
           | None => d
           end) d attrs.

(** The System request is answered, the Zone request is not. *)
Definition w_zone_down : World :=
  world_of connected_api (Credentials demo_credentials)
    [answer 200 (dict [("system-type", VStr "ComfortControlPro");
                       ("humidity", VInt 40)]);
     answer 503 VNone].

Definition is_upper_hex (c : Ascii.ascii) : bool :=
  let n := nat_of_ascii c in
  ((48 <=? n)%nat && (n <=? 57)%nat) || ((65 <=? n)%nat && (n <=? 70)%nat).

Fixpoint all_chars (p : Ascii.ascii -> bool) (s : string) : bool :=
  match s with
  | EmptyString => true
  | String c rest => p c && all_chars p rest
  end.


(** The canonical rendering of a device identity: twelve upper-case hex
    characters. *)
Definition canonical_id (s : string) : bool :=
  (String.length s =? 12)%nat && all_chars is_upper_hex s.

(** A backend with one device: the list, then the System and Zone objects
    of the device, for two successive lookups. *)
Definition one_device_replies : list Reply :=
  [answer 200 (VList [dict [("deviceIdentifier", VStr "001A2B3C4D5E")]]);
   answer 200 (dict [("system-type", VStr "ComfortControlPro")]);
   answer 200 (dict [("name", VStr "Living room")])].

Definition w_one_device : World :=
  world_of connected_api (Credentials demo_credentials)
    (one_device_replies ++ one_device_replies).

(** Looking the device up by its colon-separated address, and the handle
    that lookup returns. *)
Definition lookup_colon : result (option Device) * World :=
  get_device 3 "00:1A:2B:3C:4D:5E" w_one_device.
Definition the_handle : Device :=
  match fst lookup_colon with
  | Ret (Some d) => d
  | _ => demo_device
  end.

(** A request of the executor carries the bearer token; the two requests of
    the handshake do not. *)
Definition has_bearer (q : Request) : bool :=
  match bearer q with
  | Some _ => true
  | None => false
  end.

(** The record the executor logs before each reauthentication. *)
Definition is_reconnecting (r : LogRecord) : bool :=
  match r with
  | Log INFO msg => String.eqb msg "Reconnecting"
  | _ => false
  end.

Definition count_log (p : LogRecord -> bool) (w : World) : nat :=
  length (List.filter p (log w)).

(** What no method of the client changes in the world outside [sent],
    [log] and the two tokens and URLs. *)
Definition same_registry (w w' : World) : Prop :=
  _devices (api w') = _devices (api w) /\
  allocated w' = allocated w /\
  AUTO_RECONNECT (api w') = AUTO_RECONNECT (api w) /\
  backend w' = backend w /\
  credentials_file w' = credentials_file w.

(** A step of the handshake: the registry is untouched, and neither an
    executor request nor a reconnect record is added. *)
Definition auth_step (w w' : World) : Prop :=
  same_registry w w' /\
  count_sent has_bearer w' = count_sent has_bearer w /\
  count_log is_reconnecting w' = count_log is_reconnecting w.

(** The request [_request_get] issues in world [w]. *)
Definition executor_get (path : string) (w : World) : Request :=
  {| method := GET; url := fmt (_api_url (api w)) +:+ path; params := ∅;
     bearer := Some (_api_token (api w)); data := None |}.

(** The request [_request_put] issues in world [w]. *)
Definition executor_put (path : string) (payload : value) (w : World) : Request :=
  {| method := PUT; url := fmt (_api_url (api w)) +:+ path; params := ∅;
     bearer := Some (_api_token (api w)); data := Some payload |}.

(** The backend answers request [q] in world [w] with status [code]. *)
Definition answers (w : World) (q : Request) (code : Z) : Prop :=
  exists resp, backend w (sent w) q = Answer resp /\ status_code resp = code.

(** Between [w] and [w'] the executor issued [requests] requests and logged
    [reconnects] reauthentications. *)
Definition executor_counts (w w' : World) (requests reconnects : nat) : Prop :=
  count_sent has_bearer w' = (count_sent has_bearer w + requests)%nat /\
  count_log is_reconnecting w' = (count_log is_reconnecting w + reconnects)%nat.

(** The token is refused once, and the retried request is answered. *)
Definition w_refused_once : World :=
  world_of connected_api (Credentials demo_credentials)
    [answer 401 VNone; auth_ok; token_ok; answer 200 (VList [])].

(** The token is refused, and the token of the reauthentication is refused
    as well. *)
Definition w_refused_twice : World :=
  world_of connected_api (Credentials demo_credentials)
    [answer 401 VNone; auth_ok; token_ok;
     answer 401 VNone; auth_ok; token_ok; answer 200 (VList [])].

(** The token is refused and auto-reconnect is switched off. *)
Definition w_no_reconnect : World :=
  world_of
    {| AUTO_RECONNECT := false; _session_token := VStr "S0";
       _api_token := VStr "T0"; _auth_url := Some "https://auth.example/";
       _api_url := Some "https://api.example/"; _devices := [] |}
    (Credentials demo_credentials) [answer 401 VNone; auth_ok; token_ok].

Definition is_hex (c : Ascii.ascii) : bool :=
  match hex_digit c with
  | Some _ => true
  | None => false
  end.

(** The identifier [get_devices] reads from an entry of the list, when the
    entry is an object and the identifier, if present, a string. *)
Definition identifier_of (entry : value) : option string :=
  match entry with
  | VDict m =>
      match m !! "deviceIdentifier" with
      | None => Some ""
      | Some (VStr s) => Some s
      | Some _ => None
      end
  | _ => None
  end.

(** The entries [get_devices] turns into handles. *)
Definition valid_entry (entry : value) : bool :=
  match identifier_of entry with
  | Some s => (String.length s =? 12)%nat
  | None => false
  end.

(** The entries the device list is expected to hold: objects with string
    identifiers, made of hex digits when they have twelve characters. *)
Definition expected_entry (entry : value) : bool :=
  match identifier_of entry with
  | Some s => if (String.length s =? 12)%nat then all_chars is_hex s else true
  | None => false
  end.

(** A device method that leaves the registry and the identity of the device
    alone. *)
Definition keeps_registry {A} (m : DM A) : Prop :=
  forall s,
    same_registry (snd s) (snd (snd (m s))) /\
    oid (fst (snd (m s))) = oid (fst s).

(** The device list of the specification's scenario: two identifiers of
    twelve hex characters and one of eight characters; no device answers the
    first fetch. *)
Definition three_entries : list value :=
  [dict [("deviceIdentifier", VStr "001A2B3C4D5E")];
   dict [("deviceIdentifier", VStr "0A1B2C3D")];
   dict [("deviceIdentifier", VStr "AABBCCDDEEFF")]].

Definition w_three_entries : World :=
  world_of connected_api (Credentials demo_credentials)
    [answer 200 (VList three_entries)].

(** The identities of the handles a call returned. *)
Definition handles (r : result (list Device)) : option (list nat) :=
  match r with
  | Ret devices => Some (oid <$> devices)
  | Raise _ => None
  end.

(** A device list with an identifier of twelve characters that are not hex
    digits. *)
Definition w_bad_identifier : World :=
  world_of connected_api (Credentials demo_credentials)
    [answer 200 (VList [dict [("deviceIdentifier", VStr "GGGGGGGGGGGG")]])].

(** The same two-device list served twice. *)
Definition w_listed_twice : World :=
  world_of connected_api (Credentials demo_credentials)
    [answer 200 (VList [dict [("deviceIdentifier", VStr "001A2B3C4D5E")];
                        dict [("deviceIdentifier", VStr "AABBCCDDEEFF")]]);
     Unreachable; Unreachable;
     answer 200 (VList [dict [("deviceIdentifier", VStr "001A2B3C4D5E")];
                        dict [("deviceIdentifier", VStr "AABBCCDDEEFF")]])].

(** The System request is answered with an object, the Zone request with a
    number. *)
Definition w_zone_number : World :=
  world_of connected_api (Credentials demo_credentials)
    [answer 200 (dict [("humidity", VInt 40)]); answer 200 (VInt 5)].

(** The credentials file is a JSON object that has the four required
    keys. *)
Definition complete_credentials (w : World) : option (gmap string string) :=
  match credentials_file w with
  | Credentials c =>
      if forallb (fun key => bool_decide (is_Some (c !! key))) required_keys
      then Some c else None
  | _ => None
  end.

(** The request [_get_session_token] posts for the given credentials. *)
Definition auth_request (w : World) (username password : string) : Request :=
  {| method := POST; url := fmt (_auth_url (api w)); params := ∅;
     bearer := None;
     data := Some (VDict (<["username" := VStr username]>
                            (<["password" := VStr password]> ∅))) |}.

(** The request [_get_api_token] issues in world [w]. *)
Definition token_request (w : World) : Request :=
  {| method := GET; url := fmt (_api_url (api w)) +:+ "iam/token/";
     params := <["issuer" := VStr "GETAIR_API"]>
                 (<["sessionToken" := _session_token (api w)]> ∅);
     bearer := None; data := None |}.

(** The session exchange succeeds, the token endpoint is down. *)
Definition w_token_endpoint_down : World :=
  world_of connected_api (Credentials demo_credentials)
    [auth_ok; answer 503 VNone].
(** A backend that accepts every handshake and refuses every bearer
    token. *)
Definition stubborn : list Request -> Request -> Reply :=
  fun _ q =>
    if has_bearer q then answer 401 VNone
    else match method q with
         | POST => auth_ok
         | _ => token_ok
         end.

Definition w_stubborn : World :=
  {| api := connected_api; credentials_file := Credentials demo_credentials;
     backend := stubborn; sent := []; log := []; allocated := 0 |}.

(** What stays true of a world in front of the stubborn backend. *)
Definition facing_stubborn (w : World) : Prop :=
  backend w = stubborn /\
  credentials_file w = Credentials demo_credentials /\
  AUTO_RECONNECT (api w) = true.

(** [deviceID.replace(":", "").upper()], the normalization of [get_device]. *)
Definition normalized (deviceID : string) : string :=
  upper (replace ":" "" deviceID).


Definition byte_prints_canonically (z : Z) : bool :=
  match format_02x (VInt z) with
  | Ret h => (String.length (upper h) =? 2)%nat && all_chars is_upper_hex (upper h)
  | Raise _ => false
  end.

(** A registry that holds the demo device, in front of a backend that is
    down. *)
Definition w_backend_down : World :=
  world_of (set_devices [demo_device] connected_api)
    (Credentials demo_credentials) [].
(** A device method that relates the device before and after by [Q],
    whatever it does to the world. *)
Definition stable (Q : Device -> Device -> Prop) {A} (m : DM A) : Prop :=
  forall s, Q (fst s) (fst (snd (m s))).

(** What [fetch] leaves alone in a device. *)
Definition same_changes (d d' : Device) : Prop :=
  _system_changed d' = _system_changed d /\
  _zone_changed d' = _zone_changed d /\
  AUTOSET d' = AUTOSET d /\ oid d' = oid d.

(** What [push] leaves alone in a device, and what it may do to the
    ChangeSets. *)
Definition same_mirror (d d' : Device) : Prop :=
  _system d' = _system d /\ _zone d' = _zone d /\
  AUTOSET d' = AUTOSET d /\ oid d' = oid d /\
  (_system_changed d' = _system_changed d \/ _system_changed d' = ∅) /\
  (_zone_changed d' = _zone_changed d \/ _zone_changed d' = ∅).

(** The attributes of the two objects are the ones [__init__] created. *)
Definition has_attrs (d : Device) : Prop :=
  dom (_system d) = list_to_set _System_attrs /\
  dom (_zone d) = list_to_set _Zone_attrs.

Definition keeps_attrs (d d' : Device) : Prop := has_attrs d -> has_attrs d'.

(** The ten read/write properties: the accessor and its setter. *)
Definition properties
    : list ((Device -> result value) * (nat -> value -> DM unit)) :=
  [(name, name_setter); (speed, speed_setter); (mode, mode_setter);
   (mode_deadline, mode_deadline_setter); (target_temp, target_temp_setter);
   (target_hmdty_level, target_hmdty_level_setter);
   (auto_mode_voc, auto_mode_voc_setter);
   (auto_mode_silent, auto_mode_silent_setter);
   (active_time_profile, active_time_profile_setter);
   (last_filter_change, last_filter_change_setter)].

(** The token is refused and the credentials file lacks the password, so
    that the reauthentication raises. *)
Definition w_reconnect_raises : World :=
  world_of connected_api (Credentials (delete "password" demo_credentials))
    [answer 401 VNone].

(** Both groups are answered with objects. *)
Definition w_both_groups : World :=
  world_of connected_api (Credentials demo_credentials)
    [answer 200 (dict [("system-type", VStr "ComfortControlPro");
                       ("humidity", VInt 40)]);
     answer 200 (dict [("name", VStr "Living room"); ("speed", VInt 2)])].

(** The two suffixes of the time-profile attributes, and a check that the
    twenty attribute names are pairwise different. *)
Definition time_profile_suffixes : list string := ["_name"; "_data"].
Definition time_profile_numbers : list Z := [1; 2; 3; 4; 5; 6; 7; 8; 9; 10]%Z.

Definition time_profile_attrs_differ : bool :=
  forallb (fun m => forallb (fun n =>
    forallb (fun s => forallb (fun t =>
      implb (String.eqb (time_profile_attr m s) (time_profile_attr n t))
            ((m =? n)%Z && String.eqb s t))
      time_profile_suffixes) time_profile_suffixes)
    time_profile_numbers) time_profile_numbers.

(** The demo device with AUTOSET on. *)
Definition auto_device : Device := set_AUTOSET true demo_device.

(** * Properties *)

Ltac unfold_m :=
  unfold try_except, bind, self, gets, modify_self, modify, with_api, ret,
    raise, lift_result, is_Exception in *.

Ltac run_m := repeat (progress (unfold_m; cbn [for_each fst snd])).

(** Closed goals about concrete runs are settled by evaluation, one
    conjunct at a time. *)
Ltac by_computation :=
  repeat match goal with |- _ /\ _ => split end; vm_compute; reflexivity.

Ltac size_zero :=
  repeat match goal with
         | H : negb (_ =? 0)%nat = false |- _ =>
             apply negb_false_iff, Nat.eqb_eq, map_size_empty_iff in H
         end.

(** ** Flushing the ChangeSets *)

Lemma push_true_clears depth d w d' w' :
  push depth (d, w) = (Ret true, (d', w')) ->
  _system_changed d' = ∅ /\ _zone_changed d' = ∅.
Proof.
  unfold push. unfold_m. cbn [fst snd]. intros H.
  repeat case_match; simplify_eq; cbn in *; simplify_eq; size_zero; auto.
Qed.

Lemma push_idle depth d w :
  _system_changed d = ∅ -> _zone_changed d = ∅ ->
  push depth (d, w) = (Ret true, (d, w)).
Proof.
  intros H1 H2. unfold push. unfold_m. cbn [fst snd].
  rewrite H1, map_size_empty. cbn. rewrite H2, map_size_empty. reflexivity.
Qed.

(** [push] never raises: its whole body is under [except Exception]. *)
Lemma push_returns depth s : exists b s', push depth s = (Ret b, s').
Proof.
  unfold push. unfold_m.
  repeat case_match; simplify_eq; eauto.
Qed.

(** C6.  When [push] reports success both ChangeSets are empty afterwards,
    and a [push] that finds both ChangeSets empty returns [True] leaving the
    device and the world as they were: no request is issued. *)
Theorem push_flush_clears :
  (forall depth d w d' w',
      push depth (d, w) = (Ret true, (d', w')) ->
      _system_changed d' = ∅ /\ _zone_changed d' = ∅) /\
  (forall depth d w,
      _system_changed d = ∅ -> _zone_changed d = ∅ ->
      push depth (d, w) = (Ret true, (d, w)) /\
      sent (snd (snd (push depth (d, w)))) = sent w).
Proof.
  split.
  - apply push_true_clears.
  - intros depth d w H1 H2. rewrite (push_idle depth d w H1 H2). auto.
Qed.

Example mode_auto_is_put :
  fst (push 3 after_mode_auto) = Ret true /\
  _zone_changed (fst after_mode_push) = ∅ /\
  (fun r => (method r, url r, data r)) <$> sent (snd after_mode_push) =
    [(PUT, "https://api.example/devices/001A2B3C4D5E/services/Zone",
      Some (dict [("mode", VStr "auto")]))].
Proof. by_computation. Qed.

Lemma push_flush_clears_witness :
  (_system_changed (fst after_mode_push) = ∅ /\
   _zone_changed (fst after_mode_push) = ∅) /\
  (push 3 (fst after_mode_push, snd after_mode_push) =
     (Ret true, (fst after_mode_push, snd after_mode_push)) /\
   sent (snd (snd (push 3 (fst after_mode_push, snd after_mode_push)))) =
     sent (snd after_mode_push)).
Proof.
  split.
  - apply (proj1 push_flush_clears 3 (fst after_mode_auto) (snd after_mode_auto)
             (fst after_mode_push) (snd after_mode_push)).
    vm_compute. reflexivity.
  - apply (proj2 push_flush_clears 3 (fst after_mode_push) (snd after_mode_push)).
    + vm_compute. reflexivity.
    + vm_compute. reflexivity.
Defined.

(** C2.  The device [pending_name] holds one pending System change and the
    backend answers the flush with 500.  [_request_put] logs the error and returns [None];
    [push] clears the ChangeSet all the same and returns [True], so the
    recorded change is gone although it never reached the backend. *)
Theorem push_failed_put_discards_changes :
  _system_changed (fst pending_name) = {[ "time_profile_1_name" := VStr "Night" ]} /\
  fst (push 3 pending_name) = Ret true /\
  _system_changed (fst (snd (push 3 pending_name))) = ∅ /\
  log (snd (snd (push 3 pending_name))) =
    [Log ERROR "Error: The server encountered an unexpected condition."].
Proof. by_computation. Qed.

(** ** Credentials *)

Lemma load_credentials_sends_nothing w :
  sent (snd (_load_credentials w)) = sent w.
Proof.
  unfold _load_credentials, required_keys, logger. run_m.
  repeat case_match; simplify_eq; cbn; reflexivity.
Qed.

(** Whenever a required key is missing, [_load_credentials] returns the
    empty dictionary and the subscript in [_get_session_token] raises. *)
Lemma load_credentials_missing w c key :
  credentials_file w = Credentials c ->
  key ∈ required_keys -> c !! key = None ->
  exists w', _load_credentials w = (Ret ∅, w') /\ sent w' = sent w.
Proof.
  intros Hfile Hkey Hnone.
  assert (Hnot : bool_decide (is_Some (c !! key)) = false).
  { rewrite Hnone. apply bool_decide_eq_false. intros [x Hx]. discriminate. }
  unfold _load_credentials, required_keys, logger.
  run_m. rewrite Hfile. run_m.
  apply list_elem_of_In in Hkey. cbn in Hkey.
  destruct Hkey as [<- | [<- | [<- | [<- | []]]]]; rewrite ?Hnot;
    repeat (case_bool_decide; run_m); try (eexists; split; reflexivity);
    try (rewrite Hnone in *; match goal with H : is_Some None |- _ => destruct H; discriminate end).
Qed.

Lemma missing_key_raises w c key :
  credentials_file w = Credentials c ->
  key ∈ required_keys -> c !! key = None ->
  exists w', connect w = (Raise KeyError, w') /\ sent w' = sent w.
Proof.
  intros Hfile Hkey Hnone.
  destruct (load_credentials_missing w c key Hfile Hkey Hnone) as (w' & Hload & Hsent).
  exists w'. split; [|exact Hsent].
  unfold connect, _get_session_token. run_m. rewrite Hload.
  unfold credential. rewrite lookup_empty. reflexivity.
Qed.

(** C3.  With the password missing from the credentials file
    [_load_credentials] logs the missing key and returns [{}]; no request is
    sent; but [connect] does not return [None]: [credentials['username']]
    raises [KeyError], which nothing on the way catches. *)
Theorem connect_missing_key_raises :
  fst (connect w_no_password) = Raise KeyError /\
  sent (snd (connect w_no_password)) = [] /\
  log (snd (connect w_no_password)) =
    [Log ERROR "Key password not found in credentials"].
Proof. by_computation. Qed.

(** ** Recording changes *)

Lemma zone_setter_records attr key depth v d w :
  AUTOSET d = false ->
  zone_setter attr key depth v (d, w) =
    (Ret tt, (set_zone_changed (<[key := v]> (_zone_changed d)) (set_zone attr v d), w)).
Proof.
  intros H. unfold zone_setter, _key_changed. unfold_m. cbn. rewrite H. reflexivity.
Qed.

(** The ten property setters record their change under the dash-cased name
    of the attribute they assign. *)
Lemma zone_setters_wire_form :
  Forall (fun p => snd p = replace "_" "-" (fst p)) zone_setters.
Proof. repeat constructor. Qed.

(** A property setter adds one entry under its key; setting twice before a
    flush leaves that single entry with the later value. *)
Lemma zone_setter_twice attr key depth v1 v2 d w :
  AUTOSET d = false ->
  let s1 := snd (zone_setter attr key depth v1 (d, w)) in
  let s2 := snd (zone_setter attr key depth v2 s1) in
  _zone_changed (fst s1) = <[key := v1]> (_zone_changed d) /\
  _zone_changed (fst s2) = <[key := v2]> (_zone_changed d) /\
  _zone_changed (fst s2) !! key = Some v2 /\
  size (_zone_changed (fst s2)) = size (_zone_changed (fst s1)) /\
  _system_changed (fst s2) = _system_changed d.
Proof.
  intros H s1 s2. subst s1 s2.
  rewrite (zone_setter_records attr key depth v1 d w H). cbn [snd].
  rewrite zone_setter_records by exact H. cbn.
  rewrite insert_insert_eq, lookup_insert_eq.
  repeat split; try reflexivity.
  destruct (_zone_changed d !! key) eqn:E.
  - rewrite !map_size_insert_Some; eauto.
  - rewrite !map_size_insert_None; eauto.
Qed.

(** With [AUTOSET] on, the setter pushes at once: the entry it recorded is
    sent and the ChangeSet is empty again when the setter returns. *)
Example autoset_pushes :
  _zone_changed
    (fst (snd (mode_setter 3 (VStr "auto")
                 (set_AUTOSET true demo_device, w_accepting)))) = ∅ /\
  (fun r => (method r, data r)) <$>
    sent (snd (snd (mode_setter 3 (VStr "auto")
                      (set_AUTOSET true demo_device, w_accepting)))) =
    [(PUT, Some (dict [("mode", VStr "auto")]))].
Proof. by_computation. Qed.

(** C5.  [set_time_profile_name(1, "Night")] records its change under
    ["time_profile_1_name"], the attribute name itself; the wire form of that
    attribute, the key [fetch] reads it from, is ["time-profile-1-name"], and
    the ChangeSet has no entry under it. *)
Theorem time_profile_name_key_not_wire_form :
  _system_changed (fst after_profile_name) =
    {[ "time_profile_1_name" := VStr "Night" ]} /\
  replace "_" "-" "time_profile_1_name" = "time-profile-1-name" /\
  _system_changed (fst after_profile_name) !! "time-profile-1-name" = None.
Proof. by_computation. Qed.

(** ** Time-profile data *)

Lemma set_time_profile_data_raises depth number v s :
  (1 <= number <= 10)%Z ->
  set_time_profile_data depth number v s = (Raise TypeError, s).
Proof.
  intros [H1 H2]. unfold set_time_profile_data.
  replace (number <? 1)%Z with false by (symmetry; apply Z.ltb_ge; lia).
  replace (number >? 10)%Z with false
    by (symmetry; rewrite Z.gtb_ltb; apply Z.ltb_ge; lia).
  reflexivity.
Qed.

(** C8.  For the in-range index 1 and a four-byte list the method raises
    [TypeError] at [len(list)], before it stores the buffer or records the
    change: device and world are left as they were, the System ChangeSet
    stays empty, and a three-byte list gets the same exception instead of a
    logged warning. *)
Theorem set_time_profile_data_type_error :
  set_time_profile_data 3 1 (VList [VInt 1; VInt 2; VInt 3; VInt 4])
    (demo_device, w_accepting) = (Raise TypeError, (demo_device, w_accepting)) /\
  _system_changed (fst (snd (set_time_profile_data 3 1
      (VList [VInt 1; VInt 2; VInt 3; VInt 4]) (demo_device, w_accepting)))) = ∅ /\
  log (snd (snd (set_time_profile_data 3 1
      (VList [VInt 1; VInt 2; VInt 3]) (demo_device, w_accepting)))) = [].
Proof.
  rewrite !set_time_profile_data_raises by lia.
  split; [reflexivity|]. split; reflexivity.
Qed.

(** ** The handshake *)

Lemma count_sent_add p q w :
  count_sent p (add_sent q w) = (count_sent p w + if p q then 1 else 0)%nat.
Proof.
  unfold count_sent, add_sent. cbn. rewrite List.filter_app, length_app. cbn.
  destruct (p q); reflexivity.
Qed.

Lemma count_sent_set_api p f w : count_sent p (set_api f w) = count_sent p w.
Proof. reflexivity. Qed.
Lemma count_sent_add_log p r w : count_sent p (add_log r w) = count_sent p w.
Proof. reflexivity. Qed.
Lemma count_sent_set_allocated p n w :
  count_sent p (set_allocated n w) = count_sent p w.
Proof. reflexivity. Qed.

Create Rewrite HintDb world.
#[local] Hint Rewrite count_sent_set_api count_sent_add_log
  count_sent_set_allocated count_sent_add : world.

Lemma get_session_token_sends_no_get w :
  count_sent (is_method GET) (snd (_get_session_token w)) =
  count_sent (is_method GET) w.
Proof.
  unfold _get_session_token. run_m.
  pose proof (load_credentials_sends_nothing w) as Hl.
  destruct (_load_credentials w) as [[c|e] w0]; cbn in *;
    [|unfold count_sent; congruence].
  assert (Hc : count_sent (is_method GET) w0 = count_sent (is_method GET) w)
    by (unfold count_sent; congruence).
  unfold requests_post, send, print. run_m.
  repeat case_match; simplify_eq; cbn [fst snd]; autorewrite with world;
    cbn; lia.
Qed.

Lemma get_api_token_yields w :
  yields_token (fst (_get_api_token w)) = true ->
  truthy (_api_token (api (snd (_get_api_token w)))) = true /\
  truthy (_session_token (api (snd (_get_api_token w)))) = true.
Proof.
  unfold _get_api_token, requests_get, send, print. run_m.
  repeat case_match; simplify_eq; cbn; intros; try discriminate; auto.
Qed.

(** C4.  If the session-token exchange does not return a token, [connect]
    sends nothing after it, in particular no GET, and does not report
    success; and when [connect] reports success both exchanges returned a
    token and both stored tokens are non-empty. *)
Theorem connect_handshake_order w :
  (yields_token (fst (_get_session_token w)) = false ->
     sent (snd (connect w)) = sent (snd (_get_session_token w)) /\
     count_sent (is_method GET) (snd (connect w)) = count_sent (is_method GET) w /\
     fst (connect w) <> Ret true) /\
  (fst (connect w) = Ret true ->
     yields_token (fst (_get_session_token w)) = true /\
     yields_token (fst (_get_api_token (snd (_get_session_token w)))) = true /\
     truthy (_session_token (api (snd (connect w)))) = true /\
     truthy (_api_token (api (snd (connect w)))) = true).
Proof.
  pose proof (get_session_token_sends_no_get w) as Hget.
  unfold connect, logger. run_m.
  destruct (_get_session_token w) as [[session|e] w1]; cbn [fst snd yields_token] in *.
  - destruct (truthy session) eqn:Hs; cbn [negb].
    + split; [discriminate|].
      pose proof (get_api_token_yields w1) as Hapi.
      destruct (_get_api_token w1) as [[token|e] w2]; cbn [fst snd yields_token] in *.
      * destruct (truthy token) eqn:Ht; cbn; [|discriminate].
        intros _. split; [reflexivity|]. split; [reflexivity|].
        destruct Hapi as [H1 H2]; auto.
      * discriminate.
    + split; [|discriminate].
      intros _. cbn. autorewrite with world. repeat split; auto; discriminate.
  - split; [|discriminate].
    intros _. cbn. repeat split; auto; discriminate.
Qed.

Lemma connect_handshake_order_witness :
  (sent (snd (connect w_auth_refused)) = sent (snd (_get_session_token w_auth_refused)) /\
   count_sent (is_method GET) (snd (connect w_auth_refused)) =
     count_sent (is_method GET) w_auth_refused /\
   fst (connect w_auth_refused) <> Ret true) /\
  (yields_token (fst (_get_session_token w_handshake)) = true /\
   yields_token (fst (_get_api_token (snd (_get_session_token w_handshake)))) = true /\
   truthy (_session_token (api (snd (connect w_handshake)))) = true /\
   truthy (_api_token (api (snd (connect w_handshake)))) = true).
Proof.
  split.
  - apply (proj1 (connect_handshake_order w_auth_refused)).
    vm_compute. reflexivity.
  - apply (proj2 (connect_handshake_order w_handshake)).
    vm_compute. reflexivity.
Defined.

(** ** Fetching *)

Lemma merge_dict attrs setattr m d w :
  merge attrs setattr (VDict m) (d, w) = (Ret None, (merged attrs setattr m d, w)).
Proof.
  revert d. induction attrs as [|attr attrs IH]; intros d; [reflexivity|].
  unfold merge in *. cbn [for_each merged foldl]. unfold bind at 1.
  unfold try_except at 1. unfold py_contains, py_getitem. unfold_m. cbn [fst snd].
  destruct (m !! replace "_" "-" attr) as [v|] eqn:E.
  - rewrite bool_decide_eq_true_2 by eauto. cbn. apply IH.
  - rewrite bool_decide_eq_false_2 by (intros [x Hx]; discriminate). cbn. apply IH.
Qed.

Lemma merged_cons a attrs setattr m d :
  merged (a :: attrs) setattr m d =
  merged attrs setattr m
    (match m !! replace "_" "-" a with
     | Some v => setattr a v d
     | None => d
     end).
Proof. reflexivity. Qed.

Lemma merged_system_keeps attrs m d attr v :
  m !! replace "_" "-" attr = Some v ->
  _system d !! attr = Some v ->
  _system (merged attrs set_system m d) !! attr = Some v.
Proof.
  intros Hm. revert d. induction attrs as [|a attrs IH]; intros d Hd; [exact Hd|].
  cbn [merged foldl]. apply IH.
  destruct (m !! replace "_" "-" a) as [x|] eqn:E; [|exact Hd].
  cbn. destruct (decide (a = attr)) as [->|Hne].
  - rewrite lookup_insert_eq. congruence.
  - rewrite lookup_insert_ne by exact Hne. exact Hd.
Qed.

Lemma merged_system_lookup attrs m d attr v :
  attr ∈ attrs ->
  m !! replace "_" "-" attr = Some v ->
  _system (merged attrs set_system m d) !! attr = Some v.
Proof.
  intros Hin Hm. revert d. induction attrs as [|a attrs IH]; intros d.
  - apply elem_of_nil in Hin. contradiction.
  - cbn [merged foldl]. apply elem_of_cons in Hin as [<-|Hin].
    + rewrite Hm. apply merged_system_keeps; [exact Hm|].
      cbn. apply lookup_insert_eq.
    + apply IH. exact Hin.
Qed.

(** A field the response omits keeps its value. *)
Lemma merged_system_omitted attrs m d attr :
  m !! replace "_" "-" attr = None ->
  _system (merged attrs set_system m d) !! attr = _system d !! attr.
Proof.
  intros Hm. revert d. induction attrs as [|a attrs IH]; intros d; [reflexivity|].
  rewrite merged_cons, IH.
  destruct (m !! replace "_" "-" a) as [x|] eqn:E; [|reflexivity].
  cbn. apply lookup_insert_ne. intros ->. congruence.
Qed.

(** The Zone loop assigns Zone attributes only. *)
Lemma merge_zone_keeps_system attrs response s :
  _system (fst (snd (merge attrs set_zone response s))) = _system (fst s).
Proof.
  revert s. induction attrs as [|attr attrs IH]; intros s; [reflexivity|].
  unfold merge in *. cbn [for_each]. unfold bind at 1. unfold try_except at 1.
  unfold logger. unfold_m. cbn [fst snd].
  repeat case_match; simplify_eq; cbn [fst snd]; try reflexivity;
    rewrite IH; reflexivity.
Qed.

Lemma fetch_system_after_merge depth d w id sys w1 :
  device_id d = Ret id ->
  _request_get depth ("devices/" +:+ fmt id +:+ "/services/System") w
    = (Ret (VDict sys), w1) ->
  truthy (VDict sys) = true ->
  _system (fst (snd (fetch depth (d, w)))) =
  _system (merged _System_attrs set_system sys d).
Proof.
  intros Hid Hget Htruthy. unfold fetch.
  unfold try_except at 1. unfold bind at 1. unfold self, gets, lift_result.
  unfold bind at 1. cbn [fst snd]. rewrite Hid.
  unfold bind at 1. unfold with_api at 1. cbn [fst snd]. rewrite Hget. cbn [fst snd].
  rewrite Htruthy. cbn [negb].
  unfold bind at 1. rewrite merge_dict.
  generalize (merged _System_attrs set_system sys d). intros d1.
  clear Hid Hget Htruthy.
  pose proof (merge_zone_keeps_system _Zone_attrs) as Hzone.
  revert Hzone. generalize _Zone_attrs. intros zone_attrs Hzone.
  unfold logger. unfold_m. cbn [fst snd].
  repeat case_match; simplify_eq; cbn [fst snd]; try reflexivity.
  all: match goal with
       | H : merge _ set_zone ?z ?s = _ |- _ =>
           specialize (Hzone z s); rewrite H in Hzone;
           cbn [fst snd] in Hzone; exact Hzone
       end.
Qed.

(** C10.  Once the System response (a non-empty object) has been merged, a
    [fetch] that returns [False] leaves every System attribute named by the
    response at the response's value: nothing is rolled back. *)
Theorem fetch_failure_keeps_merged_system depth d w id sys w1 d' w' :
  device_id d = Ret id ->
  _request_get depth ("devices/" +:+ fmt id +:+ "/services/System") w
    = (Ret (VDict sys), w1) ->
  truthy (VDict sys) = true ->
  fetch depth (d, w) = (Ret false, (d', w')) ->
  forall attr v,
    attr ∈ _System_attrs ->
    sys !! replace "_" "-" attr = Some v ->
    _system d' !! attr = Some v.
Proof.
  intros Hid Hget Htruthy Hfetch attr v Hin Hsys.
  pose proof (fetch_system_after_merge depth d w id sys w1 Hid Hget Htruthy) as H.
  rewrite Hfetch in H. cbn [fst snd] in H. rewrite H.
  apply merged_system_lookup; assumption.
Qed.

Lemma fetch_failure_keeps_merged_system_witness :
  fetch 3 (demo_device, w_zone_down) =
    (Ret false, snd (fetch 3 (demo_device, w_zone_down))) /\
  _system demo_device !! "system_type" = Some VNone /\
  _system (fst (snd (fetch 3 (demo_device, w_zone_down)))) !! "system_type" =
    Some (VStr "ComfortControlPro").
Proof.
  split; [vm_compute; reflexivity|]. split; [vm_compute; reflexivity|].
  eapply (fetch_failure_keeps_merged_system 3 demo_device w_zone_down
            (Some "001A2B3C4D5E")
            (list_to_map [("system-type", VStr "ComfortControlPro");
                          ("humidity", VInt 40)])
            (snd (_request_get 3 "devices/001A2B3C4D5E/services/System" w_zone_down))
            (fst (snd (fetch 3 (demo_device, w_zone_down))))
            (snd (snd (fetch 3 (demo_device, w_zone_down))))).
  - vm_compute. reflexivity.
  - vm_compute. reflexivity.
  - vm_compute. reflexivity.
  - vm_compute. reflexivity.
  - vm_compute. set_solver.
  - vm_compute. reflexivity.
Defined.

(** A Zone response that is not an object makes the first membership test
    of the Zone loop raise; [fetch] logs the warning and returns [False]
    with the System value in place. *)
Example fetch_zone_assignment_fails :
  fst (fetch 3 (demo_device, w_zone_number)) = Ret false /\
  log (snd (snd (fetch 3 (demo_device, w_zone_number)))) =
    [Log DEBUG "Get request succeeded"; Log DEBUG "Get request succeeded";
     Log WARNING "Can't update value"] /\
  _system (fst (snd (fetch 3 (demo_device, w_zone_number)))) !! "humidity" =
    Some (VInt 40).
Proof. by_computation. Qed.


(** ** Device identifiers *)



Lemma string_app_assoc s t u : (s +:+ t) +:+ u = s +:+ (t +:+ u).
Proof.
  induction s as [|c s IH]; [reflexivity|].
  change (String c (s +:+ t) +:+ u = String c (s +:+ (t +:+ u))).
  change (String c ((s +:+ t) +:+ u) = String c (s +:+ (t +:+ u))).
  rewrite IH. reflexivity.
Qed.

Lemma map_string_app f s t :
  map_string f (s +:+ t) = map_string f s +:+ map_string f t.
Proof.
  induction s as [|c s IH]; [reflexivity|].
  change (String c s +:+ t) with (String c (s +:+ t)).
  cbn [map_string]. rewrite IH. symmetry. apply string_app_assoc.
Qed.







(** Two successive lookups, one per spelling: the second returns the object
    the first one created, although the registry has grown to two
    entries. *)
Example lookups_share_the_handle :
  oid the_handle = 0%nat /\
  fst (get_device 3 "001A2B3C4D5E" (snd lookup_colon)) = Ret (Some the_handle) /\
  oid <$> _devices (api (snd (get_device 3 "001A2B3C4D5E" (snd lookup_colon))))
    = [0; 1]%nat.
Proof. by_computation. Qed.

(** ** Reauthentication *)

Lemma count_log_add_log p r w :
  count_log p (add_log r w) = (count_log p w + if p r then 1 else 0)%nat.
Proof.
  unfold count_log, add_log. cbn. rewrite List.filter_app, length_app. cbn.
  destruct (p r); reflexivity.
Qed.
Lemma count_log_add_sent p q w : count_log p (add_sent q w) = count_log p w.
Proof. reflexivity. Qed.
Lemma count_log_set_api p f w : count_log p (set_api f w) = count_log p w.
Proof. reflexivity. Qed.
Lemma count_log_set_allocated p n w :
  count_log p (set_allocated n w) = count_log p w.
Proof. reflexivity. Qed.

#[local] Hint Rewrite count_log_add_log count_log_add_sent count_log_set_api
  count_log_set_allocated : world.

Ltac frame :=
  unfold auth_step, same_registry; autorewrite with world; cbn;
  repeat match goal with |- _ /\ _ => split end;
  first [reflexivity | lia].

Lemma auth_step_refl w : auth_step w w.
Proof. repeat split. Qed.

Lemma auth_step_trans w1 w2 w3 :
  auth_step w1 w2 -> auth_step w2 w3 -> auth_step w1 w3.
Proof.
  unfold auth_step, same_registry. intros H1 H2.
  destruct H1 as ((? & ? & ? & ? & ?) & ? & ?).
  destruct H2 as ((? & ? & ? & ? & ?) & ? & ?).
  repeat split; congruence.
Qed.

Lemma load_credentials_auth_step w : auth_step w (snd (_load_credentials w)).
Proof.
  unfold _load_credentials, required_keys, logger. run_m.
  repeat case_match; simplify_eq; cbn [fst snd]; frame.
Qed.

Lemma get_session_token_auth_step w : auth_step w (snd (_get_session_token w)).
Proof.
  unfold _get_session_token. run_m.
  pose proof (load_credentials_auth_step w) as Hl.
  destruct (_load_credentials w) as [[c|e] w0]; cbn [fst snd] in *; [|exact Hl].
  eapply auth_step_trans; [exact Hl|]. clear Hl.
  unfold requests_post, send, print. run_m.
  repeat case_match; simplify_eq; cbn [fst snd];
    try apply auth_step_refl; frame.
Qed.

Lemma get_api_token_auth_step w : auth_step w (snd (_get_api_token w)).
Proof.
  unfold _get_api_token, requests_get, send, print. run_m.
  repeat case_match; simplify_eq; cbn [fst snd];
    try apply auth_step_refl; frame.
Qed.

Lemma connect_auth_step w : auth_step w (snd (connect w)).
Proof.
  unfold connect, logger. run_m.
  pose proof (get_session_token_auth_step w) as H1.
  destruct (_get_session_token w) as [[session|e] w1]; cbn [fst snd] in *;
    [|exact H1].
  destruct (truthy session); cbn [negb].
  - pose proof (get_api_token_auth_step w1) as H2.
    destruct (_get_api_token w1) as [[token|e] w2]; cbn [fst snd] in *.
    + destruct (truthy token); cbn [negb fst snd];
        (eapply auth_step_trans; [exact H1|]);
        (eapply auth_step_trans; [exact H2|]); frame.
    + eapply auth_step_trans; eassumption.
  - cbn [fst snd]. eapply auth_step_trans; [exact H1|]. frame.
Qed.

(** A method whose body is under [except RequestException], with a handler
    that returns, never raises that class. *)
Lemma try_except_guard {S A} (m : M S A) (h : exn -> M S A) s :
  (forall e s', fst (h e s') <> Raise RequestException) ->
  fst (try_except m is_RequestException h s) <> Raise RequestException.
Proof.
  intros Hh. unfold try_except.
  destruct (m s) as [[a|e] s']; cbn [fst]; [discriminate|].
  destruct e; cbn [is_RequestException fst]; try discriminate. apply Hh.
Qed.

Lemma get_session_token_no_RequestException w :
  fst (_get_session_token w) <> Raise RequestException.
Proof.
  unfold _get_session_token.
  unfold bind at 1. destruct (_load_credentials w) as [[c|e] w0] eqn:Hl.
  - unfold bind at 1. unfold lift_result at 1, credential at 1.
    destruct (c !! "username"); [|cbn; discriminate].
    unfold bind at 1. unfold lift_result at 1, credential at 1.
    destruct (c !! "password"); [|cbn; discriminate].
    apply try_except_guard. intros e s'. cbn. discriminate.
  - revert Hl. unfold _load_credentials, required_keys, logger. run_m.
    repeat case_match; intros; simplify_eq.
Qed.

Lemma get_api_token_no_RequestException w :
  fst (_get_api_token w) <> Raise RequestException.
Proof.
  unfold _get_api_token. unfold bind at 1. unfold gets at 1.
  apply try_except_guard. intros e s'. cbn. discriminate.
Qed.

(** The handshake catches every transport failure itself. *)
Lemma connect_no_RequestException w :
  fst (connect w) <> Raise RequestException.
Proof.
  pose proof (get_session_token_no_RequestException w) as H1.
  unfold connect, logger. run_m.
  destruct (_get_session_token w) as [[session|e] w1]; cbn [fst snd] in *;
    [|intros [= ->]; apply H1; reflexivity].
  destruct (truthy session); cbn [negb fst]; [|discriminate].
  pose proof (get_api_token_no_RequestException w1) as H2.
  destruct (_get_api_token w1) as [[token|e] w2]; cbn [fst snd] in *;
    [|intros [= ->]; apply H2; reflexivity].
  destruct (truthy token); cbn; discriminate.
Qed.

Lemma request_get_no_RequestException depth path w :
  fst (_request_get depth path w) <> Raise RequestException.
Proof.
  destruct depth; [cbn; discriminate|].
  cbn [_request_get]. apply try_except_guard. intros e s'. cbn. discriminate.
Qed.

Lemma request_put_no_RequestException depth path payload w :
  fst (_request_put depth path payload w) <> Raise RequestException.
Proof.
  destruct depth; [cbn; discriminate|].
  cbn [_request_put]. apply try_except_guard. intros e s'. cbn. discriminate.
Qed.

Lemma not_RequestException {A} (e : exn) :
  @Raise A e <> Raise RequestException -> is_RequestException e = false.
Proof. destruct e; cbn; intros H; congruence. Qed.

(** One call of [_request_get], by the answer of the backend. *)
Lemma request_get_step depth path w :
  _request_get (S depth) path w =
  let w1 := add_sent (executor_get path w) w in
  match backend w (sent w) (executor_get path w) with
  | Unreachable => (Ret VNone, add_log (Log ERROR "Request error (GET)") w1)
  | Answer resp =>
      if (status_code resp =? ResponseCode.OK)%Z then
        (Ret (json resp), add_log (Log DEBUG "Get request succeeded") w1)
      else if (status_code resp =? ResponseCode.UNAUTHORIZED)%Z
              && AUTO_RECONNECT (api w) then
        match connect (add_log (Log INFO "Reconnecting") w1) with
        | (Ret true, w2) => _request_get depth path w2
        | (Ret false, w2) => (Ret VNone, w2)
        | (Raise e, w2) => (Raise e, w2)
        end
      else
        (Ret VNone,
         add_log (Log ERROR ("Error: " +:+
                    ResponseCode.description (status_code resp))) w1)
  end.
Proof.
  cbn [_request_get]. unfold requests_get, send, logger, executor_get. run_m.
  destruct (backend w (sent w) _) as [resp|]; [|reflexivity].
  cbn [fst snd]. destruct (status_code resp =? ResponseCode.OK)%Z; [reflexivity|].
  cbn [api add_sent AUTO_RECONNECT].
  destruct ((status_code resp =? ResponseCode.UNAUTHORIZED)%Z
            && AUTO_RECONNECT (api w)); [|reflexivity].
  match goal with
  | |- context [connect ?w1] =>
      pose proof (connect_no_RequestException w1) as Hc;
      destruct (connect w1) as [[[]|e] w2]; cbn [fst] in Hc
  end.
  - pose proof (request_get_no_RequestException depth path w2) as Hr.
    destruct (_request_get depth path w2) as [[v|e] w3]; cbn [fst] in Hr;
      [reflexivity|].
    rewrite (not_RequestException e Hr). reflexivity.
  - reflexivity.
  - rewrite (not_RequestException e Hc). reflexivity.
Qed.

(** One call of [_request_put], by the answer of the backend. *)
Lemma request_put_step depth path payload w :
  _request_put (S depth) path payload w =
  let w1 := add_sent (executor_put path payload w) w in
  match backend w (sent w) (executor_put path payload w) with
  | Unreachable => (Ret VNone, add_log (Log ERROR "Request error (PUT)") w1)
  | Answer resp =>
      if (status_code resp =? ResponseCode.OK)%Z then
        (Ret (json resp), add_log (Log DEBUG "Put request succeeded") w1)
      else if (status_code resp =? ResponseCode.NO_CONTENT)%Z then
        (Ret VNone,
         add_log (Log DEBUG "Put request succeeded with no answer") w1)
      else if (status_code resp =? ResponseCode.UNAUTHORIZED)%Z
              && AUTO_RECONNECT (api w) then
        match connect (add_log (Log INFO "Reconnecting") w1) with
        | (Ret true, w2) => _request_put depth path payload w2
        | (Ret false, w2) => (Ret VNone, w2)
        | (Raise e, w2) => (Raise e, w2)
        end
      else
        (Ret VNone,
         add_log (Log ERROR ("Error: " +:+
                    ResponseCode.description (status_code resp))) w1)
  end.
Proof.
  cbn [_request_put]. unfold requests_put, send, logger, executor_put. run_m.
  destruct (backend w (sent w) _) as [resp|]; [|reflexivity].
  cbn [fst snd]. destruct (status_code resp =? ResponseCode.OK)%Z; [reflexivity|].
  destruct (status_code resp =? ResponseCode.NO_CONTENT)%Z; [reflexivity|].
  cbn [api add_sent AUTO_RECONNECT].
  destruct ((status_code resp =? ResponseCode.UNAUTHORIZED)%Z
            && AUTO_RECONNECT (api w)); [|reflexivity].
  match goal with
  | |- context [connect ?w1] =>
      pose proof (connect_no_RequestException w1) as Hc;
      destruct (connect w1) as [[[]|e] w2]; cbn [fst] in Hc
  end.
  - pose proof (request_put_no_RequestException depth path payload w2) as Hr.
    destruct (_request_put depth path payload w2) as [[v|e] w3]; cbn [fst] in Hr;
      [reflexivity|].
    rewrite (not_RequestException e Hr). reflexivity.
  - reflexivity.
  - rewrite (not_RequestException e Hc). reflexivity.
Qed.

Lemma same_registry_trans w1 w2 w3 :
  same_registry w1 w2 -> same_registry w2 w3 -> same_registry w1 w3.
Proof.
  unfold same_registry. intros (? & ? & ? & ? & ?) (? & ? & ? & ? & ?).
  repeat split; congruence.
Qed.

Lemma executor_counts_trans w1 w2 w3 r1 c1 r2 c2 :
  executor_counts w1 w2 r1 c1 -> executor_counts w2 w3 r2 c2 ->
  executor_counts w1 w3 (r1 + r2) (c1 + c2).
Proof. unfold executor_counts. intros [? ?] [? ?]. split; lia. Qed.

Lemma auth_step_counts w w' : auth_step w w' -> executor_counts w w' 0 0.
Proof. unfold auth_step, executor_counts. intros (_ & ? & ?). split; lia. Qed.

(** The executor sends its request and logs one record. *)
Lemma executor_sends q r w :
  has_bearer q = true -> is_reconnecting r = false ->
  same_registry w (add_log r (add_sent q w)) /\
  executor_counts w (add_log r (add_sent q w)) 1 0.
Proof.
  intros Hq Hr. unfold executor_counts. autorewrite with world.
  rewrite Hq, Hr. repeat split; lia.
Qed.

Lemma executor_reconnects q w :
  has_bearer q = true ->
  same_registry w (add_log (Log INFO "Reconnecting") (add_sent q w)) /\
  executor_counts w (add_log (Log INFO "Reconnecting") (add_sent q w)) 1 1.
Proof.
  intros Hq. unfold executor_counts. autorewrite with world.
  rewrite Hq. repeat split.
Qed.

Ltac one_request Hq :=
  cbn [snd];
  match goal with
  | |- same_registry ?w (add_log ?r (add_sent ?q ?w)) /\ _ =>
      destruct (executor_sends q r w Hq eq_refl) as [H1 H2];
      split; [exact H1|]; exists 1%nat, 0%nat; split; [exact H2|lia]
  end.

(** The call ends after a reauthentication without a further request. *)
Ltac stopped H1 H2 Hc :=
  cbn [snd]; split;
  [ eapply same_registry_trans; [exact H1|exact (proj1 Hc)]
  | exists (1 + 0)%nat, (1 + 0)%nat; split; [|lia];
    eapply executor_counts_trans; [exact H2|];
    apply auth_step_counts; exact Hc ].

(** The call goes on with a retry, whose counts are [H4] and [H5]. *)
Ltac retried H1 H2 Hc H3 H4 H5 :=
  split;
  [ eapply same_registry_trans; [exact H1|];
    eapply same_registry_trans; [exact (proj1 Hc)|exact H3]
  | eexists (1 + 0 + _)%nat, (1 + 0 + _)%nat; split;
    [ eapply executor_counts_trans; [|exact H4];
      eapply executor_counts_trans; [exact H2|];
      apply auth_step_counts; exact Hc
    | lia ] ].

(** Over a whole call, however deep the retries go: the registry is left
    alone, every reauthentication follows a request of its own, and every
    request but the first follows a reauthentication. *)
Lemma request_get_counts depth path w :
  same_registry w (snd (_request_get depth path w)) /\
  exists requests reconnects,
    executor_counts w (snd (_request_get depth path w)) requests reconnects /\
    (reconnects <= requests <= reconnects + 1)%nat.
Proof.
  revert w. induction depth as [|depth IH]; intros w.
  - cbn. split; [repeat split|]. exists 0%nat, 0%nat. repeat split; lia.
  - rewrite request_get_step. cbv zeta.
    assert (Hq : has_bearer (executor_get path w) = true) by reflexivity.
    destruct (backend w (sent w) (executor_get path w)) as [resp|];
      [|one_request Hq].
    destruct (status_code resp =? ResponseCode.OK)%Z; [one_request Hq|].
    destruct ((status_code resp =? ResponseCode.UNAUTHORIZED)%Z
              && AUTO_RECONNECT (api w)); [|one_request Hq].
    destruct (executor_reconnects (executor_get path w) w Hq) as [H1 H2].
    match goal with
    | |- context [connect ?w1] =>
        pose proof (connect_auth_step w1) as Hc;
        destruct (connect w1) as [[[]|e] w2]; cbn [snd] in Hc
    end.
    + destruct (IH w2) as (H3 & requests & reconnects & H4 & H5).
      retried H1 H2 Hc H3 H4 H5.
    + stopped H1 H2 Hc.
    + stopped H1 H2 Hc.
Qed.


(** A request that is not answered with 401 is issued once and triggers no
    reauthentication. *)
Lemma request_get_single depth path w :
  ~ answers w (executor_get path w) ResponseCode.UNAUTHORIZED ->
  executor_counts w (snd (_request_get (S depth) path w)) 1 0.
Proof.
  intros Hno. rewrite request_get_step. cbv zeta.
  assert (Hq : has_bearer (executor_get path w) = true) by reflexivity.
  destruct (backend w (sent w) (executor_get path w)) as [resp|] eqn:Hb.
  2: { apply executor_sends; [exact Hq|reflexivity]. }
  destruct (status_code resp =? ResponseCode.OK)%Z.
  { apply executor_sends; [exact Hq|reflexivity]. }
  destruct (status_code resp =? ResponseCode.UNAUTHORIZED)%Z eqn:Hs.
  - exfalso. apply Hno. exists resp. split; [exact Hb|]. apply Z.eqb_eq. exact Hs.
  - cbn [andb snd]. apply executor_sends; [exact Hq|reflexivity].
Qed.

Lemma request_put_single depth path payload w :
  ~ answers w (executor_put path payload w) ResponseCode.UNAUTHORIZED ->
  executor_counts w (snd (_request_put (S depth) path payload w)) 1 0.
Proof.
  intros Hno. rewrite request_put_step. cbv zeta.
  assert (Hq : has_bearer (executor_put path payload w) = true) by reflexivity.
  destruct (backend w (sent w) (executor_put path payload w)) as [resp|] eqn:Hb.
  2: { apply executor_sends; [exact Hq|reflexivity]. }
  destruct (status_code resp =? ResponseCode.OK)%Z.
  { apply executor_sends; [exact Hq|reflexivity]. }
  destruct (status_code resp =? ResponseCode.NO_CONTENT)%Z.
  { apply executor_sends; [exact Hq|reflexivity]. }
  destruct (status_code resp =? ResponseCode.UNAUTHORIZED)%Z eqn:Hs.
  - exfalso. apply Hno. exists resp. split; [exact Hb|]. apply Z.eqb_eq. exact Hs.
  - cbn [andb snd]. apply executor_sends; [exact Hq|reflexivity].
Qed.

(** What a 401 leads to in [_request_get]. *)
Lemma request_get_unauthorized depth path w :
  answers w (executor_get path w) ResponseCode.UNAUTHORIZED ->
  _request_get (S depth) path w =
    if AUTO_RECONNECT (api w) then
      match connect (add_log (Log INFO "Reconnecting")
                       (add_sent (executor_get path w) w)) with
      | (Ret true, w2) => _request_get depth path w2
      | (Ret false, w2) => (Ret VNone, w2)
      | (Raise e, w2) => (Raise e, w2)
      end
    else
      (Ret VNone,
       add_log (Log ERROR "Error: Authentication is required or has failed.")
         (add_sent (executor_get path w) w)).
Proof.
  intros (resp & Hb & Hs). rewrite request_get_step. cbv zeta.
  rewrite Hb, Hs. cbn [Z.eqb ResponseCode.UNAUTHORIZED ResponseCode.OK].
  change (401 =? 200)%Z with false. change (401 =? 401)%Z with true.
  cbn [andb]. destruct (AUTO_RECONNECT (api w)); reflexivity.
Qed.

Lemma request_put_unauthorized depth path payload w :
  answers w (executor_put path payload w) ResponseCode.UNAUTHORIZED ->
  _request_put (S depth) path payload w =
    if AUTO_RECONNECT (api w) then
      match connect (add_log (Log INFO "Reconnecting")
                       (add_sent (executor_put path payload w) w)) with
      | (Ret true, w2) => _request_put depth path payload w2
      | (Ret false, w2) => (Ret VNone, w2)
      | (Raise e, w2) => (Raise e, w2)
      end
    else
      (Ret VNone,
       add_log (Log ERROR "Error: Authentication is required or has failed.")
         (add_sent (executor_put path payload w) w)).
Proof.
  intros (resp & Hb & Hs). rewrite request_put_step. cbv zeta.
  rewrite Hb, Hs.
  change (ResponseCode.UNAUTHORIZED =? ResponseCode.OK)%Z with false.
  change (ResponseCode.UNAUTHORIZED =? ResponseCode.NO_CONTENT)%Z with false.
  change (ResponseCode.UNAUTHORIZED =? ResponseCode.UNAUTHORIZED)%Z with true.
  cbn [andb]. destruct (AUTO_RECONNECT (api w)); reflexivity.
Qed.

(** C1, as the code has it.  A GET or PUT that is answered with 401 while
    auto-reconnect is on logs one reauthentication and runs [connect] once;
    only if [connect] succeeds is the request issued again, and the new
    request is treated like the first, so that a further 401 leads to a
    further reauthentication.  When [connect] succeeds and the retried
    request is not answered with 401, the call has issued exactly two
    requests and one reauthentication.  With auto-reconnect off the call
    logs the error and returns [None] after its single request. *)
Theorem reauthentication_on_401 :
  (forall depth path w,
      answers w (executor_get path w) ResponseCode.UNAUTHORIZED ->
      let w1 := add_sent (executor_get path w) w in
      (AUTO_RECONNECT (api w) = false ->
         _request_get (S depth) path w =
           (Ret VNone,
            add_log (Log ERROR "Error: Authentication is required or has failed.")
              w1)) /\
      (AUTO_RECONNECT (api w) = true ->
         _request_get (S depth) path w =
           match connect (add_log (Log INFO "Reconnecting") w1) with
           | (Ret true, w2) => _request_get depth path w2
           | (Ret false, w2) => (Ret VNone, w2)
           | (Raise e, w2) => (Raise e, w2)
           end) /\
      (AUTO_RECONNECT (api w) = true ->
         forall w2,
           connect (add_log (Log INFO "Reconnecting") w1) = (Ret true, w2) ->
           ~ answers w2 (executor_get path w2) ResponseCode.UNAUTHORIZED ->
           executor_counts w (snd (_request_get (S (S depth)) path w)) 2 1)) /\
  (forall depth path payload w,
      answers w (executor_put path payload w) ResponseCode.UNAUTHORIZED ->
      let w1 := add_sent (executor_put path payload w) w in
      (AUTO_RECONNECT (api w) = false ->
         _request_put (S depth) path payload w =
           (Ret VNone,
            add_log (Log ERROR "Error: Authentication is required or has failed.")
              w1)) /\
      (AUTO_RECONNECT (api w) = true ->
         _request_put (S depth) path payload w =
           match connect (add_log (Log INFO "Reconnecting") w1) with
           | (Ret true, w2) => _request_put depth path payload w2
           | (Ret false, w2) => (Ret VNone, w2)
           | (Raise e, w2) => (Raise e, w2)
           end) /\
      (AUTO_RECONNECT (api w) = true ->
         forall w2,
           connect (add_log (Log INFO "Reconnecting") w1) = (Ret true, w2) ->
           ~ answers w2 (executor_put path payload w2) ResponseCode.UNAUTHORIZED ->
           executor_counts w (snd (_request_put (S (S depth)) path payload w)) 2 1)).
Proof.
  split.
  - intros depth path w Hans w1. subst w1. split; [|split].
    + intros Hauto. rewrite (request_get_unauthorized depth path w Hans), Hauto.
      reflexivity.
    + intros Hauto. rewrite (request_get_unauthorized depth path w Hans), Hauto.
      reflexivity.
    + intros Hauto w2 Hconnect Hno.
      rewrite (request_get_unauthorized (S depth) path w Hans), Hauto, Hconnect.
      pose proof (connect_auth_step
                    (add_log (Log INFO "Reconnecting")
                       (add_sent (executor_get path w) w))) as Hc.
      rewrite Hconnect in Hc. cbn [snd] in Hc.
      enough (H : executor_counts w (snd (_request_get (S depth) path w2))
                    (1 + 0 + 1) (1 + 0 + 0)) by exact H.
      eapply executor_counts_trans; [|exact (request_get_single depth path w2 Hno)].
      eapply executor_counts_trans; [|exact (auth_step_counts _ _ Hc)].
      apply executor_reconnects. reflexivity.
  - intros depth path payload w Hans w1. subst w1. split; [|split].
    + intros Hauto.
      rewrite (request_put_unauthorized depth path payload w Hans), Hauto.
      reflexivity.
    + intros Hauto.
      rewrite (request_put_unauthorized depth path payload w Hans), Hauto.
      reflexivity.
    + intros Hauto w2 Hconnect Hno.
      rewrite (request_put_unauthorized (S depth) path payload w Hans), Hauto,
        Hconnect.
      pose proof (connect_auth_step
                    (add_log (Log INFO "Reconnecting")
                       (add_sent (executor_put path payload w) w))) as Hc.
      rewrite Hconnect in Hc. cbn [snd] in Hc.
      enough (H : executor_counts w (snd (_request_put (S depth) path payload w2))
                    (1 + 0 + 1) (1 + 0 + 0)) by exact H.
      eapply executor_counts_trans;
        [|exact (request_put_single depth path payload w2 Hno)].
      eapply executor_counts_trans; [|exact (auth_step_counts _ _ Hc)].
      apply executor_reconnects. reflexivity.
Qed.

Lemma reauthentication_on_401_witness :
  _request_get 2 "devices/" w_no_reconnect =
    (Ret VNone,
     add_log (Log ERROR "Error: Authentication is required or has failed.")
       (add_sent (executor_get "devices/" w_no_reconnect) w_no_reconnect)) /\
  executor_counts w_refused_once
    (snd (_request_get 2 "devices/" w_refused_once)) 2 1 /\
  executor_counts w_refused_once
    (snd (_request_put 2 "devices/001A2B3C4D5E/services/Zone"
            (dict [("mode", VStr "auto")]) w_refused_once)) 2 1.
Proof.
  split; [|split].
  - pose proof (proj1 reauthentication_on_401 1%nat "devices/" w_no_reconnect)
      as H.
    cbv zeta in H. apply H; [|reflexivity].
    eexists. split; [vm_compute; reflexivity|reflexivity].
  - pose proof (proj1 reauthentication_on_401 0%nat "devices/" w_refused_once)
      as H.
    cbv zeta in H.
    eapply H.
    + eexists. split; [vm_compute; reflexivity|reflexivity].
    + reflexivity.
    + apply surjective_pairing.
    + intros (resp & Hb & Hs). vm_compute in Hb. injection Hb as <-.
      discriminate Hs.
  - pose proof (proj2 reauthentication_on_401 0%nat
                  "devices/001A2B3C4D5E/services/Zone"
                  (dict [("mode", VStr "auto")]) w_refused_once) as H.
    cbv zeta in H.
    eapply H.
    + eexists. split; [vm_compute; reflexivity|reflexivity].
    + reflexivity.
    + apply surjective_pairing.
    + intros (resp & Hb & Hs). vm_compute in Hb. injection Hb as <-.
      discriminate Hs.
Defined.

(** C1, as stated, fails: when the retried request is answered with 401
    too, the client reauthenticates a second time and issues the request a
    third time. *)
Lemma reauthentication_repeats_after_second_401 :
  answers w_refused_twice (executor_get "devices/" w_refused_twice)
    ResponseCode.UNAUTHORIZED /\
  AUTO_RECONNECT (api w_refused_twice) = true /\
  executor_counts w_refused_twice
    (snd (_request_get 5 "devices/" w_refused_twice)) 3 2 /\
  ~ executor_counts w_refused_twice
      (snd (_request_get 5 "devices/" w_refused_twice)) 2 1.
Proof.
  split; [|split; [|split]].
  - eexists. split; [vm_compute; reflexivity|reflexivity].
  - reflexivity.
  - split; vm_compute; reflexivity.
  - intros [H _]. vm_compute in H. discriminate H.
Qed.

(** ** Listing devices *)

Lemma same_registry_refl w : same_registry w w.
Proof. repeat split. Qed.

(** *** Device methods that leave the registry alone *)

Lemma keeps_ret {A} (a : A) : keeps_registry (ret a).
Proof. intros s. split; [apply same_registry_refl|reflexivity]. Qed.

Lemma keeps_raise {A} e : keeps_registry (@raise _ A e).
Proof. intros s. split; [apply same_registry_refl|reflexivity]. Qed.

Lemma keeps_lift_result {A} (r : result A) : keeps_registry (lift_result r).
Proof. intros s. split; [apply same_registry_refl|reflexivity]. Qed.

Lemma keeps_self {A} (f : Device -> A) : keeps_registry (self f).
Proof. intros s. split; [apply same_registry_refl|reflexivity]. Qed.

Lemma keeps_bind {A B} (m : DM A) (k : A -> DM B) :
  keeps_registry m -> (forall a, keeps_registry (k a)) ->
  keeps_registry (bind m k).
Proof.
  intros Hm Hk s. unfold bind. specialize (Hm s).
  destruct (m s) as [[a|e] s1]; cbn [fst snd] in *; [|exact Hm].
  specialize (Hk a s1). destruct Hm as [Hm1 Hm2], Hk as [Hk1 Hk2].
  split; [eapply same_registry_trans; eassumption|congruence].
Qed.

Lemma keeps_try_except {A} (m : DM A) catches (h : exn -> DM A) :
  keeps_registry m -> (forall e, keeps_registry (h e)) ->
  keeps_registry (try_except m catches h).
Proof.
  intros Hm Hh s. unfold try_except. specialize (Hm s).
  destruct (m s) as [[a|e] s1]; cbn [fst snd] in *; [exact Hm|].
  destruct (catches e); [|exact Hm].
  specialize (Hh e s1). destruct Hm as [Hm1 Hm2], Hh as [Hh1 Hh2].
  split; [eapply same_registry_trans; eassumption|congruence].
Qed.

Lemma keeps_with_api {A} (m : M World A) :
  (forall w, same_registry w (snd (m w))) -> keeps_registry (with_api m).
Proof. intros Hm s. unfold with_api. cbn [fst snd]. split; [apply Hm|reflexivity]. Qed.

Lemma keeps_modify_self f :
  (forall d, oid (f d) = oid d) -> keeps_registry (modify_self f).
Proof.
  intros Hf s. unfold modify_self, modify. cbn [fst snd].
  split; [apply same_registry_refl|apply Hf].
Qed.

Lemma keeps_for_each {A R} (items : list A) (body : A -> DM (option R)) :
  (forall x, keeps_registry (body x)) -> keeps_registry (for_each items body).
Proof.
  intros Hbody. induction items as [|x items IH]; cbn [for_each].
  - apply keeps_ret.
  - apply keeps_bind; [apply Hbody|]. intros [r|]; [apply keeps_ret|exact IH].
Qed.

Lemma keeps_logger level msg : keeps_registry (with_api (logger level msg)).
Proof. apply keeps_with_api. intros w. repeat split. Qed.

Lemma keeps_request_get depth path :
  keeps_registry (with_api (_request_get depth path)).
Proof. apply keeps_with_api. intros w. apply request_get_counts. Qed.

Lemma keeps_merge attrs setattr response :
  (forall a v d, oid (setattr a v d) = oid d) ->
  keeps_registry (merge attrs setattr response).
Proof.
  intros Hset. unfold merge. apply keeps_for_each. intros attr.
  apply keeps_try_except.
  - apply keeps_bind; [apply keeps_lift_result|]. intros [|]; [|apply keeps_ret].
    apply keeps_bind; [apply keeps_lift_result|]. intros v.
    apply keeps_bind; [|intros; apply keeps_ret].
    apply keeps_modify_self. intros d. apply Hset.
  - intros e. apply keeps_bind; [apply keeps_logger|]. intros; apply keeps_ret.
Qed.

Lemma keeps_fetch depth : keeps_registry (fetch depth).
Proof.
  unfold fetch. apply keeps_try_except.
  - apply keeps_bind.
    { apply keeps_bind; [apply keeps_self|]. intros; apply keeps_lift_result. }
    intros id. apply keeps_bind; [apply keeps_request_get|]. intros system_data.
    destruct (negb (truthy system_data)).
    { apply keeps_bind; [apply keeps_logger|]. intros; apply keeps_ret. }
    apply keeps_bind; [apply keeps_merge; reflexivity|].
    intros [b|]; [apply keeps_ret|].
    apply keeps_bind.
    { apply keeps_bind; [apply keeps_self|]. intros; apply keeps_lift_result. }
    intros id'. apply keeps_bind; [apply keeps_request_get|]. intros zone_data.
    destruct (negb (truthy zone_data)).
    { apply keeps_bind; [apply keeps_logger|]. intros; apply keeps_ret. }
    apply keeps_bind; [apply keeps_merge; reflexivity|].
    intros [b|]; apply keeps_ret.
  - intros e. apply keeps_bind; [apply keeps_logger|]. intros; apply keeps_ret.
Qed.

(** [fetch] never raises: its whole body is under [except Exception]. *)
Lemma fetch_returns depth s : exists b s', fetch depth s = (Ret b, s').
Proof.
  unfold fetch, try_except.
  match goal with |- context [match ?m s with _ => _ end] => destruct (m s) as [[b|e] s1] end.
  - eauto.
  - cbn. eauto.
Qed.

(** *** Building a handle *)

Lemma ints16_hex s :
  all_chars is_hex s = true -> exists bytes, ints16 (slices2 s) = Ret bytes.
Proof.
  assert (H : forall n s, (String.length s <= n)%nat ->
            all_chars is_hex s = true ->
            exists bytes, ints16 (slices2 s) = Ret bytes).
  { clear s. induction n as [|n IH]; intros s Hlen Hall.
    - destruct s; [|cbn in Hlen; lia]. exists []. reflexivity.
    - destruct s as [|a [|b s]].
      + exists []. reflexivity.
      + cbn [all_chars] in Hall. apply andb_prop in Hall as [Ha _].
        unfold is_hex in Ha. cbn [slices2 ints16 int16].
        destruct (hex_digit a) as [x|]; [|discriminate]. eauto.
      + cbn [all_chars] in Hall.
        apply andb_prop in Hall as [Ha Hall].
        apply andb_prop in Hall as [Hb Hall].
        destruct (IH s) as [bytes Hbytes]; [cbn in Hlen; lia|exact Hall|].
        unfold is_hex in Ha, Hb. cbn [slices2 ints16 int16].
        destruct (hex_digit a) as [x|]; [|discriminate].
        destruct (hex_digit b) as [y|]; [|discriminate].
        rewrite Hbytes. eauto. }
  apply (H (String.length s)). lia.
Qed.

(** Given an identifier made of hex digits the constructor returns a new
    object and leaves the registry as it was. *)
Lemma Device_init_hex depth s w :
  all_chars is_hex s = true ->
  exists d w',
    Device__init__ depth (VStr s) w = (Ret d, w') /\
    oid d = allocated w /\
    allocated w' = S (allocated w) /\
    _devices (api w') = _devices (api w).
Proof.
  intros Hhex. destruct (ints16_hex s Hhex) as [bytes Hbytes].
  unfold Device__init__. unfold_m. cbn [fst snd system_id_data]. rewrite Hbytes.
  destruct (fetch_returns depth
              (new_device (allocated w) bytes, set_allocated (S (allocated w)) w))
    as (b & [d w'] & Hfetch).
  destruct (keeps_fetch depth
              (new_device (allocated w) bytes, set_allocated (S (allocated w)) w))
    as [(Hdev & Halloc & _) Hoid].
  rewrite Hfetch in *. cbn [fst snd] in *.
  exists d, w'. repeat split; assumption.
Qed.

Lemma register_entry_expected depth entry w :
  expected_entry entry = true ->
  if valid_entry entry then
    exists d w',
      register_entry depth entry w = (Ret None, w') /\
      _devices (api w') = (_devices (api w) ++ [d])%list /\
      allocated w' = S (allocated w) /\
      oid d = allocated w
  else register_entry depth entry w = (Ret None, w).
Proof.
  unfold expected_entry, valid_entry, identifier_of, register_entry.
  destruct entry as [| | | | |l|m]; try discriminate.
  unfold py_get. unfold_m. cbn [fst snd].
  destruct (m !! "deviceIdentifier") as [[| | | |s| |]|]; try discriminate.
  - cbn [len_value]. destruct (String.length s =? 12)%nat; cbn [negb].
    + intros Hhex.
      destruct (Device_init_hex depth s w Hhex) as (d & w' & Hinit & Hoid & Ha & Hd).
      rewrite Hinit. cbn. exists d. eexists. split; [reflexivity|].
      cbn. rewrite Hd. auto.
    + reflexivity.
  - reflexivity.
Qed.

(** The loop of [get_devices] over a list of expected entries appends one
    new object per entry with a twelve-character identifier. *)
Lemma register_entries depth entries :
  forallb expected_entry entries = true ->
  forall w, exists new w',
    for_each entries (register_entry depth) w = (Ret None, w') /\
    _devices (api w') = (_devices (api w) ++ new)%list /\
    allocated w' = (allocated w + length new)%nat /\
    length new = length (List.filter valid_entry entries) /\
    oid <$> new = seq (allocated w) (length new).
Proof.
  induction entries as [|entry entries IH]; intros Hall w.
  - exists [], w. cbn. rewrite app_nil_r. repeat split; lia.
  - cbn [forallb] in Hall. apply andb_prop in Hall as [Hentry Hall].
    pose proof (register_entry_expected depth entry w Hentry) as Hstep.
    cbn [for_each List.filter]. unfold bind at 1.
    destruct (valid_entry entry).
    + destruct Hstep as (d & w1 & Hstep & Hd & Ha & Hoid). rewrite Hstep.
      destruct (IH Hall w1) as (new & w' & Hloop & Hd' & Ha' & Hlen & Hoids).
      exists (d :: new), w'. rewrite Hloop, Hd', Hd, Ha', Ha.
      rewrite <- app_assoc. cbn [app length fmap list_fmap seq].
      rewrite Hlen, Hoid.
      repeat split; try lia.
      f_equal. rewrite <- Hlen, Hoids, Ha. reflexivity.
    + rewrite Hstep. apply IH. exact Hall.
Qed.

(** C7, as the code has it.  When the device list is a list of objects with
    string identifiers, those of twelve characters being hex digits,
    [get_devices] creates one new handle for every entry whose identifier
    has twelve characters, skips the others without raising, and returns
    the registry: the handles of earlier calls followed by the new ones
    (an empty list returns no handle at all). *)
Theorem get_devices_one_handle_per_entry depth w entries w1 :
  _request_get depth "devices/" w = (Ret (VList entries), w1) ->
  forallb expected_entry entries = true ->
  exists new w',
    get_devices depth w =
      (Ret (match entries with
            | [] => []
            | _ => (_devices (api w) ++ new)%list
            end), w') /\
    length new = length (List.filter valid_entry entries) /\
    oid <$> new = seq (allocated w) (length new).
Proof.
  intros Hget Hall.
  destruct (request_get_counts depth "devices/" w) as [(Hdev & Halloc & _) _].
  rewrite Hget in Hdev, Halloc. cbn [snd] in Hdev, Halloc.
  unfold get_devices. unfold bind at 1. rewrite Hget.
  unfold bind at 1. unfold logger at 1, modify at 1.
  destruct entries as [|entry entries].
  - exists [], (add_log (Log DEBUG "Active devices found") w1).
    cbn. repeat split.
  - cbn [truthy negb]. unfold bind at 1. cbn [py_iter lift_result].
    unfold bind at 1.
    destruct (register_entries depth (entry :: entries) Hall
                (add_log (Log DEBUG "Active devices found") w1))
      as (new & w2 & Hloop & Hd & Ha & Hlen & Hoids).
    rewrite Hloop. cbn [api add_log allocated] in Hd, Hoids.
    rewrite Hdev in Hd. rewrite Halloc in Hoids.
    unfold bind at 1. unfold gets at 1. rewrite Hd.
    exists new. unfold logger. unfold_m.
    destruct (_devices (api w) ++ new)%list; eexists;
      (split; [reflexivity|split; assumption]).
Qed.

(** The scenario of the specification on a fresh registry: two handles. *)
Lemma get_devices_one_handle_per_entry_witness :
  exists new w',
    get_devices 3 w_three_entries =
      (Ret (match three_entries with
            | [] => []
            | _ => (_devices (api w_three_entries) ++ new)%list
            end), w') /\
    length new = length (List.filter valid_entry three_entries) /\
    oid <$> new = seq (allocated w_three_entries) (length new).
Proof.
  apply (get_devices_one_handle_per_entry 3 w_three_entries three_entries
           (snd (_request_get 3 "devices/" w_three_entries))).
  - vm_compute. reflexivity.
  - vm_compute. reflexivity.
Defined.

Example scenario_two_handles :
  length (List.filter valid_entry three_entries) = 2%nat /\
  handles (fst (get_devices 3 w_three_entries)) = Some [0; 1]%nat.
Proof. by_computation. Qed.

(** C7, as stated, fails twice over.  An identifier of twelve characters
    that are not hex digits is not skipped: the constructor raises
    [ValueError] out of [get_devices].  And the list with two valid entries
    yields four handles when it is served a second time, because the
    registry keeps the handles of the first call. *)
Lemma get_devices_raises_or_accumulates :
  fst (get_devices 3 w_bad_identifier) = Raise ValueError /\
  handles (fst (get_devices 3 w_listed_twice)) = Some [0; 1]%nat /\
  handles (fst (get_devices 3 (snd (get_devices 3 w_listed_twice)))) =
    Some [0; 1; 2; 3]%nat.
Proof. by_computation. Qed.

(** * Further properties of the client *)

(** ** Loading the credentials *)

Lemma load_credentials_complete w c :
  complete_credentials w = Some c ->
  _load_credentials w =
    (Ret c, set_api (set_urls (c !! "auth_url") (c !! "api_url")) w).
Proof.
  unfold complete_credentials, _load_credentials, required_keys, logger.
  run_m. destruct (credentials_file w) as [| |c']; try discriminate.
  cbn [forallb]. run_m.
  repeat (case_bool_decide; cbn [andb]; try discriminate).
  intros [= ->]. reflexivity.
Qed.

Lemma load_credentials_incomplete w :
  complete_credentials w = None ->
  exists msg,
    _load_credentials w = (Ret ∅, add_log (Log ERROR msg) w).
Proof.
  unfold complete_credentials, _load_credentials, required_keys, logger.
  run_m. destruct (credentials_file w) as [| |c']; eauto.
  cbn [forallb]. run_m.
  repeat (case_bool_decide; cbn [andb]; eauto).
  discriminate.
Qed.


(** ** The two token exchanges *)

Lemma complete_credentials_user w c :
  complete_credentials w = Some c ->
  exists username password,
    c !! "username" = Some username /\ c !! "password" = Some password.
Proof.
  unfold complete_credentials.
  destruct (credentials_file w) as [| |c']; try discriminate.
  unfold required_keys. cbn [forallb].
  repeat (case_bool_decide; cbn [andb]; try discriminate).
  intros [= ->].
  repeat match goal with H : is_Some _ |- _ => destruct H end. eauto.
Qed.

(** [_get_session_token], by the answer of the backend. *)
Lemma get_session_token_step w c username password :
  complete_credentials w = Some c ->
  c !! "username" = Some username -> c !! "password" = Some password ->
  let w0 := set_api (set_urls (c !! "auth_url") (c !! "api_url")) w in
  let w1 := add_sent (auth_request w0 username password) w0 in
  _get_session_token w =
    match backend w (sent w) (auth_request w0 username password) with
    | Unreachable => (Ret VNone, add_log (Print "Request error") w1)
    | Answer resp =>
        if (status_code resp =? ResponseCode.OK)%Z then
          match py_get (json resp) "status" VNone with
          | Raise e => (Raise e, w1)
          | Ret status =>
              if is_str "SUCCESS" status then
                match py_getitem (json resp) "sessionToken" with
                | Raise e => (Raise e, w1)
                | Ret token => (Ret token, set_api (set_session_token token) w1)
                end
              else (Ret VNone, add_log (Print "Authentication failed:") w1)
          end
        else
          (Ret VNone,
           add_log (Print ("Error: " +:+
                      ResponseCode.description (status_code resp))) w1)
    end.
Proof.
  intros Hc Hu Hp. cbv zeta. unfold _get_session_token.
  unfold bind at 1. rewrite (load_credentials_complete w c Hc).
  unfold bind at 1. unfold lift_result at 1, credential at 1. rewrite Hu.
  unfold bind at 1. unfold lift_result at 1, credential at 1. rewrite Hp.
  unfold requests_post, send, print, auth_request. run_m.
  cbn [backend sent set_api api set_urls _auth_url].
  destruct (backend w (sent w) _) as [resp|]; [|reflexivity].
  destruct (status_code resp =? ResponseCode.OK)%Z; [|reflexivity].
  destruct (json resp) as [| | | | | |m]; try reflexivity.
  cbn [py_get py_getitem].
  destruct (is_str "SUCCESS" _); [|reflexivity].
  destruct (m !! "sessionToken"); reflexivity.
Qed.

(** [_get_api_token], by the answer of the backend. *)
Lemma get_api_token_step w :
  let w1 := add_sent (token_request w) w in
  _get_api_token w =
    match _api_url (api w) with
    | None => (Raise TypeError, w)
    | Some _ =>
        match backend w (sent w) (token_request w) with
        | Unreachable => (Ret VNone, add_log (Print "Request error") w1)
        | Answer resp =>
            if (status_code resp =? ResponseCode.OK)%Z then
              match py_get (json resp) "token" VNone with
              | Raise e => (Raise e, w1)
              | Ret token =>
                  if truthy token then
                    (Ret (_session_token (api w)),
                     set_api (set_api_token token) w1)
                  else (Ret VNone, add_log (Print "Authentication failed:") w1)
              end
            else
              (Ret VNone,
               add_log (Print ("Error: " +:+
                          ResponseCode.description (status_code resp))) w1)
        end
    end.
Proof.
  cbv zeta. unfold _get_api_token, requests_get, send, print, token_request.
  run_m. destruct (_api_url (api w)) as [base|]; [|reflexivity].
  cbn [fmt]. destruct (backend w (sent w) _) as [resp|]; [|reflexivity].
  cbn [fst snd]. destruct (status_code resp =? ResponseCode.OK)%Z; [|reflexivity].
  destruct (json resp) as [| | | | | |m]; try reflexivity.
  cbn [py_get]. destruct (truthy _); reflexivity.
Qed.

Lemma is_str_eq key v : is_str key v = true -> v = VStr key.
Proof.
  destruct v; try discriminate. cbn. intros H.
  apply String.eqb_eq in H. congruence.
Qed.

(** X2.  [_get_session_token] returns a token only when the credentials
    are complete and the backend answered the POST of user name and password
    with 200 and status SUCCESS; the token is the [sessionToken] of that
    answer, it is what the client stores, and the POST is the only request
    sent. *)
Theorem session_token_exchange w v w' :
  _get_session_token w = (Ret v, w') -> truthy v = true ->
  exists c username password resp,
    complete_credentials w = Some c /\
    c !! "username" = Some username /\ c !! "password" = Some password /\
    backend w (sent w)
      (auth_request (set_api (set_urls (c !! "auth_url") (c !! "api_url")) w)
         username password) = Answer resp /\
    status_code resp = ResponseCode.OK /\
    py_get (json resp) "status" VNone = Ret (VStr "SUCCESS") /\
    py_getitem (json resp) "sessionToken" = Ret v /\
    _session_token (api w') = v /\
    sent w' = (sent w ++
      [auth_request (set_api (set_urls (c !! "auth_url") (c !! "api_url")) w)
         username password])%list.
Proof.
  intros Hrun Hv.
  destruct (complete_credentials w) as [c|] eqn:Hc.
  - destruct (complete_credentials_user w c Hc) as (u & p & Hu & Hp).
    rewrite (get_session_token_step w c u p Hc Hu Hp) in Hrun. cbv zeta in Hrun.
    exists c, u, p.
    destruct (backend w (sent w) _) as [resp|] eqn:Hb;
      [|injection Hrun as <- <-; discriminate Hv].
    exists resp.
    destruct (status_code resp =? ResponseCode.OK)%Z eqn:Hs;
      [|injection Hrun as <- <-; discriminate Hv].
    destruct (py_get (json resp) "status" VNone) as [status|] eqn:Hst;
      [|discriminate Hrun].
    destruct (is_str "SUCCESS" status) eqn:Hok;
      [|injection Hrun as <- <-; discriminate Hv].
    destruct (py_getitem (json resp) "sessionToken") as [token|] eqn:Htok;
      [|discriminate Hrun].
    injection Hrun as <- <-. apply is_str_eq in Hok. subst status.
    apply Z.eqb_eq in Hs. repeat split; auto.
  - exfalso. destruct (load_credentials_incomplete w Hc) as [msg Hl].
    revert Hrun. unfold _get_session_token. unfold bind at 1. rewrite Hl.
    unfold bind at 1. unfold lift_result at 1, credential at 1.
    rewrite lookup_empty. discriminate.
Qed.

Lemma session_token_exchange_witness :
  exists c username password resp,
    complete_credentials w_handshake = Some c /\
    c !! "username" = Some username /\ c !! "password" = Some password /\
    backend w_handshake (sent w_handshake)
      (auth_request
         (set_api (set_urls (c !! "auth_url") (c !! "api_url")) w_handshake)
         username password) = Answer resp /\
    status_code resp = ResponseCode.OK /\
    py_get (json resp) "status" VNone = Ret (VStr "SUCCESS") /\
    py_getitem (json resp) "sessionToken" = Ret (VStr "S1") /\
    _session_token (api (snd (_get_session_token w_handshake))) = VStr "S1" /\
    sent (snd (_get_session_token w_handshake)) = (sent w_handshake ++
      [auth_request
         (set_api (set_urls (c !! "auth_url") (c !! "api_url")) w_handshake)
         username password])%list.
Proof.
  apply (session_token_exchange w_handshake (VStr "S1")
           (snd (_get_session_token w_handshake))).
  - vm_compute. reflexivity.
  - reflexivity.
Defined.

(** X3.  When [_get_api_token] returns a token, the value it returns is the
    session token; the API token it stores is the [token] of the backend's
    200 answer to the one GET it sent, with the session token as a query
    parameter. *)
Theorem api_token_exchange w v w' :
  _get_api_token w = (Ret v, w') -> truthy v = true ->
  v = _session_token (api w) /\
  exists resp,
    backend w (sent w) (token_request w) = Answer resp /\
    status_code resp = ResponseCode.OK /\
    py_get (json resp) "token" VNone = Ret (_api_token (api w')) /\
    truthy (_api_token (api w')) = true /\
    _session_token (api w') = _session_token (api w) /\
    sent w' = (sent w ++ [token_request w])%list.
Proof.
  intros Hrun Hv. rewrite get_api_token_step in Hrun. cbv zeta in Hrun.
  destruct (_api_url (api w)); [|discriminate Hrun].
  destruct (backend w (sent w) (token_request w)) as [resp|] eqn:Hb;
    [|injection Hrun as <- <-; discriminate Hv].
  destruct (status_code resp =? ResponseCode.OK)%Z eqn:Hs;
    [|injection Hrun as <- <-; discriminate Hv].
  destruct (py_get (json resp) "token" VNone) as [token|] eqn:Htok;
    [|discriminate Hrun].
  destruct (truthy token) eqn:Ht; [|injection Hrun as <- <-; discriminate Hv].
  injection Hrun as <- <-. split; [reflexivity|]. exists resp.
  apply Z.eqb_eq in Hs. repeat split; auto.
Qed.

Lemma api_token_exchange_witness :
  VStr "S1" = _session_token (api (snd (_get_session_token w_handshake))) /\
  exists resp,
    backend (snd (_get_session_token w_handshake))
      (sent (snd (_get_session_token w_handshake)))
      (token_request (snd (_get_session_token w_handshake))) = Answer resp /\
    status_code resp = ResponseCode.OK /\
    py_get (json resp) "token" VNone =
      Ret (_api_token (api (snd (connect w_handshake)))) /\
    truthy (_api_token (api (snd (connect w_handshake)))) = true /\
    _session_token (api (snd (connect w_handshake))) =
      _session_token (api (snd (_get_session_token w_handshake))) /\
    sent (snd (connect w_handshake)) =
      (sent (snd (_get_session_token w_handshake)) ++
       [token_request (snd (_get_session_token w_handshake))])%list.
Proof.
  apply (api_token_exchange (snd (_get_session_token w_handshake)) (VStr "S1")
           (snd (connect w_handshake))).
  - vm_compute. reflexivity.
  - reflexivity.
Defined.

(** ** The handshake as a whole *)

(** A session exchange that returns a token has stored it, and has touched
    neither the API token nor anything but the two URLs. *)
Lemma session_token_stored w v w1 :
  _get_session_token w = (Ret v, w1) -> truthy v = true ->
  exists c username password,
    complete_credentials w = Some c /\
    c !! "username" = Some username /\ c !! "password" = Some password /\
    w1 = set_api (set_session_token v)
           (add_sent
              (auth_request
                 (set_api (set_urls (c !! "auth_url") (c !! "api_url")) w)
                 username password)
              (set_api (set_urls (c !! "auth_url") (c !! "api_url")) w)).
Proof.
  intros Hrun Hv.
  destruct (complete_credentials w) as [c|] eqn:Hc.
  - destruct (complete_credentials_user w c Hc) as (u & p & Hu & Hp).
    rewrite (get_session_token_step w c u p Hc Hu Hp) in Hrun. cbv zeta in Hrun.
    exists c, u, p. repeat split; try assumption.
    destruct (backend w (sent w) _) as [resp|];
      [|injection Hrun as <- <-; discriminate Hv].
    destruct (status_code resp =? ResponseCode.OK)%Z;
      [|injection Hrun as <- <-; discriminate Hv].
    destruct (py_get (json resp) "status" VNone) as [status|];
      [|discriminate Hrun].
    destruct (is_str "SUCCESS" status);
      [|injection Hrun as <- <-; discriminate Hv].
    destruct (py_getitem (json resp) "sessionToken") as [token|];
      [|discriminate Hrun].
    injection Hrun as <- <-. reflexivity.
  - exfalso. destruct (load_credentials_incomplete w Hc) as [msg Hl].
    revert Hrun. unfold _get_session_token. unfold bind at 1. rewrite Hl.
    unfold bind at 1. unfold lift_result at 1, credential at 1.
    rewrite lookup_empty. discriminate.
Qed.

Lemma get_session_token_keeps_api_token w :
  _api_token (api (snd (_get_session_token w))) = _api_token (api w).
Proof.
  destruct (complete_credentials w) as [c|] eqn:Hc.
  - destruct (complete_credentials_user w c Hc) as (u & p & Hu & Hp).
    rewrite (get_session_token_step w c u p Hc Hu Hp). cbv zeta.
    repeat case_match; reflexivity.
  - destruct (load_credentials_incomplete w Hc) as [msg Hl].
    unfold _get_session_token. unfold bind at 1. rewrite Hl.
    unfold bind at 1. unfold lift_result at 1, credential at 1.
    rewrite lookup_empty. reflexivity.
Qed.

(** [connect], by the results of the two exchanges. *)
Lemma connect_step w :
  connect w =
    match _get_session_token w with
    | (Raise e, w1) => (Raise e, w1)
    | (Ret session, w1) =>
        if truthy session then
          match _get_api_token w1 with
          | (Raise e, w2) => (Raise e, w2)
          | (Ret token, w2) =>
              if truthy token then (Ret true, w2)
              else (Ret false, add_log (Log INFO "Unable to connect.") w2)
          end
        else (Ret false, add_log (Log INFO "Unable to connect.") w1)
    end.
Proof.
  unfold connect, logger. run_m.
  destruct (_get_session_token w) as [[session|e] w1]; [|reflexivity].
  destruct (truthy session); cbn [negb]; [|reflexivity].
  destruct (_get_api_token w1) as [[token|e] w2]; [|reflexivity].
  destruct (truthy token); reflexivity.
Qed.

(** X4.  A [connect] that does not succeed leaves the API token as it was:
    the client keeps working with the token it had, although the session
    token may already have been replaced. *)
Theorem failed_connect_keeps_api_token w :
  fst (connect w) <> Ret true ->
  _api_token (api (snd (connect w))) = _api_token (api w).
Proof.
  rewrite connect_step.
  pose proof (get_session_token_keeps_api_token w) as Hkeep.
  destruct (_get_session_token w) as [[session|e] w1] eqn:H1;
    cbn [fst snd] in *; [|intros _; exact Hkeep].
  destruct (truthy session) eqn:Hs; [|intros _; exact Hkeep].
  destruct (session_token_stored w session w1 H1 Hs)
    as (c & u & p & _ & _ & _ & Hw1).
  assert (Hstored : _session_token (api w1) = session) by (subst w1; reflexivity).
  rewrite get_api_token_step. cbv zeta.
  destruct (_api_url (api w1)); [|intros _; exact Hkeep].
  destruct (backend w1 (sent w1) (token_request w1)) as [resp|];
    [|intros _; exact Hkeep].
  destruct (status_code resp =? ResponseCode.OK)%Z; [|intros _; exact Hkeep].
  destruct (py_get (json resp) "token" VNone) as [token|];
    [|intros _; exact Hkeep].
  destruct (truthy token); [|intros _; exact Hkeep].
  rewrite Hstored, Hs. cbn [fst]. intros H. exfalso. apply H. reflexivity.
Qed.

Lemma failed_connect_keeps_api_token_witness :
  _api_token (api (snd (connect w_token_endpoint_down))) =
    _api_token (api w_token_endpoint_down) /\
  _session_token (api w_token_endpoint_down) = VStr "S0" /\
  _session_token (api (snd (connect w_token_endpoint_down))) = VStr "S1".
Proof.
  split; [|split; vm_compute; reflexivity].
  apply (failed_connect_keeps_api_token w_token_endpoint_down).
  vm_compute. discriminate.
Defined.

(** X5.  A successful [connect] has sent exactly two requests, in this
    order: the POST of user name and password to the authentication URL, and
    the GET of the token endpoint that carries the session token just
    received; both URLs come from the credentials file, and the two tokens
    the client holds afterwards are the ones of this handshake. *)
Theorem connect_trace w w' :
  connect w = (Ret true, w') ->
  exists c username password w1,
    complete_credentials w = Some c /\
    c !! "username" = Some username /\ c !! "password" = Some password /\
    _get_session_token w = (Ret (_session_token (api w')), w1) /\
    sent w' =
      (sent w ++
       [auth_request (set_api (set_urls (c !! "auth_url") (c !! "api_url")) w)
          username password;
        token_request w1])%list /\
    params (token_request w1) !! "sessionToken" = Some (_session_token (api w')) /\
    _auth_url (api w') = c !! "auth_url" /\
    _api_url (api w') = c !! "api_url".
Proof.
  rewrite connect_step.
  destruct (_get_session_token w) as [[session|e] w1] eqn:H1; [|discriminate].
  destruct (truthy session) eqn:Hs; [|discriminate].
  destruct (session_token_stored w session w1 H1 Hs)
    as (c & u & p & Hc & Hu & Hp & Hw1).
  destruct (_get_api_token w1) as [[token|e] w2] eqn:H2; [|discriminate].
  destruct (truthy token) eqn:Ht; [|discriminate].
  intros [= <-]. exists c, u, p, w1.
  rewrite get_api_token_step in H2. cbv zeta in H2.
  destruct (_api_url (api w1)) eqn:Hurl; [|discriminate H2].
  destruct (backend w1 (sent w1) (token_request w1)) as [resp|];
    [|injection H2 as <- <-; discriminate Ht].
  destruct (status_code resp =? ResponseCode.OK)%Z;
    [|injection H2 as <- <-; discriminate Ht].
  destruct (py_get (json resp) "token" VNone) as [tok|]; [|discriminate H2].
  destruct (truthy tok); [|injection H2 as <- <-; discriminate Ht].
  injection H2 as <- <-.
  assert (Hstored : _session_token (api w1) = session) by (subst w1; reflexivity).
  cbn [api set_api set_api_token _session_token sent add_sent _auth_url _api_url].
  rewrite Hstored.
  repeat split; try assumption.
  - subst w1. cbn. rewrite <- app_assoc. reflexivity.
  - unfold token_request. cbn [params]. rewrite lookup_insert_ne by discriminate.
    rewrite lookup_insert_eq. congruence.
  - subst w1. reflexivity.
  - subst w1. reflexivity.
Qed.

Lemma connect_trace_witness :
  exists c username password w1,
    complete_credentials w_handshake = Some c /\
    c !! "username" = Some username /\ c !! "password" = Some password /\
    _get_session_token w_handshake =
      (Ret (_session_token (api (snd (connect w_handshake)))), w1) /\
    sent (snd (connect w_handshake)) =
      (sent w_handshake ++
       [auth_request
          (set_api (set_urls (c !! "auth_url") (c !! "api_url")) w_handshake)
          username password;
        token_request w1])%list /\
    params (token_request w1) !! "sessionToken" =
      Some (_session_token (api (snd (connect w_handshake)))) /\
    _auth_url (api (snd (connect w_handshake))) = c !! "auth_url" /\
    _api_url (api (snd (connect w_handshake))) = c !! "api_url".
Proof.
  apply (connect_trace w_handshake (snd (connect w_handshake))).
  vm_compute. reflexivity.
Defined.

(** ** The request executor *)


Lemma request_put_plain depth path payload w :
  ~ answers w (executor_put path payload w) ResponseCode.UNAUTHORIZED ->
  exists r,
    _request_put (S depth) path payload w =
      (Ret (match backend w (sent w) (executor_put path payload w) with
            | Answer resp =>
                if (status_code resp =? ResponseCode.OK)%Z then json resp
                else VNone
            | Unreachable => VNone
            end),
       add_log r (add_sent (executor_put path payload w) w)).
Proof.
  intros Hno. rewrite request_put_step. cbv zeta.
  destruct (backend w (sent w) (executor_put path payload w)) as [resp|] eqn:Hb;
    [|eauto].
  destruct (status_code resp =? ResponseCode.OK)%Z; [eauto|].
  destruct (status_code resp =? ResponseCode.NO_CONTENT)%Z; [eauto|].
  destruct (status_code resp =? ResponseCode.UNAUTHORIZED)%Z eqn:Hs; [|eauto].
  exfalso. apply Hno. exists resp. split; [exact Hb|]. apply Z.eqb_eq. exact Hs.
Qed.






(** A successful handshake in front of the stubborn backend. *)
Lemma connect_facing_stubborn w :
  facing_stubborn w ->
  exists w2, connect w = (Ret true, w2) /\ facing_stubborn w2.
Proof.
  intros (Hb & Hc & Ha).
  assert (Hcomplete : complete_credentials w = Some demo_credentials).
  { unfold complete_credentials. rewrite Hc. reflexivity. }
  rewrite connect_step.
  rewrite (get_session_token_step w demo_credentials "user" "secret" Hcomplete)
    by reflexivity.
  cbv zeta. rewrite Hb.
  match goal with
  | |- context [stubborn ?h ?q] =>
      change (stubborn h q) with auth_ok
  end.
  unfold auth_ok at 1, answer at 1. cbv iota.
  cbn [status_code json].
  replace (200 =? ResponseCode.OK)%Z with true by reflexivity.
  replace (py_get (dict [("status", VStr "SUCCESS"); ("sessionToken", VStr "S1")])
             "status" VNone) with (Ret (VStr "SUCCESS")) by reflexivity.
  replace (is_str "SUCCESS" (VStr "SUCCESS")) with true by reflexivity.
  replace (py_getitem
             (dict [("status", VStr "SUCCESS"); ("sessionToken", VStr "S1")])
             "sessionToken") with (Ret (VStr "S1")) by reflexivity.
  replace (truthy (VStr "S1")) with true by reflexivity.
  rewrite get_api_token_step. cbv zeta.
  cbn [api set_api set_session_token set_urls _api_url add_sent backend sent].
  replace (demo_credentials !! "api_url") with (Some "https://api.example/")
    by reflexivity.
  rewrite Hb.
  match goal with
  | |- context [stubborn ?h ?q] =>
      change (stubborn h q) with token_ok
  end.
  unfold token_ok at 1, answer at 1. cbn [status_code json].
  replace (200 =? ResponseCode.OK)%Z with true by reflexivity.
  replace (py_get (dict [("token", VStr "T1")]) "token" VNone)
    with (Ret (VStr "T1")) by reflexivity.
  replace (truthy (VStr "T1")) with true by reflexivity.
  cbn [_session_token set_session_token].
  replace (truthy (VStr "S1")) with true by reflexivity.
  eexists. split; [reflexivity|].
  repeat split; cbn; assumption.
Qed.

(** X8.  In front of a backend that keeps refusing the token while every
    reauthentication succeeds, [_request_get] does not give up by itself: it
    retries until the recursion depth is used up and then raises
    [RecursionError], having issued as many requests and performed as many
    reauthentications as its depth allowed. *)
Theorem refused_forever path (holds : World -> Prop) :
  (forall w, holds w ->
     answers w (executor_get path w) ResponseCode.UNAUTHORIZED /\
     AUTO_RECONNECT (api w) = true /\
     exists w2,
       connect (add_log (Log INFO "Reconnecting")
                  (add_sent (executor_get path w) w)) = (Ret true, w2) /\
       holds w2) ->
  forall depth w, holds w ->
    fst (_request_get depth path w) = Raise RecursionError /\
    executor_counts w (snd (_request_get depth path w)) depth depth.
Proof.
  intros Hstep depth. induction depth as [|depth IH]; intros w Hw.
  - cbn. split; [reflexivity|]. split; lia.
  - destruct (Hstep w Hw) as (Hans & Hauto & w2 & Hconnect & Hw2).
    rewrite (request_get_unauthorized depth path w Hans), Hauto, Hconnect.
    destruct (IH w2 Hw2) as [Hr Hcounts]. split; [exact Hr|].
    pose proof (connect_auth_step
                  (add_log (Log INFO "Reconnecting")
                     (add_sent (executor_get path w) w))) as Hc.
    rewrite Hconnect in Hc. cbn [snd] in Hc.
    enough (H : executor_counts w (snd (_request_get depth path w2))
                  (1 + 0 + depth) (1 + 0 + depth)) by exact H.
    eapply executor_counts_trans; [|exact Hcounts].
    eapply executor_counts_trans; [|exact (auth_step_counts _ _ Hc)].
    apply executor_reconnects. reflexivity.
Qed.

Lemma refused_forever_witness :
  fst (_request_get 7 "devices/" w_stubborn) = Raise RecursionError /\
  executor_counts w_stubborn (snd (_request_get 7 "devices/" w_stubborn)) 7 7.
Proof.
  apply (refused_forever "devices/" facing_stubborn).
  - intros w Hw. pose proof Hw as (Hb & Hc & Ha). split; [|split].
    + eexists. split; [rewrite Hb; reflexivity|reflexivity].
    + exact Ha.
    + apply connect_facing_stubborn. repeat split; assumption.
  - repeat split.
Defined.

(** ** The registry *)

Lemma Device_init_keeps_registry depth v w :
  _devices (api (snd (Device__init__ depth v w))) = _devices (api w).
Proof.
  unfold Device__init__. unfold_m. cbn [fst snd].
  destruct (system_id_data v) as [bytes|e]; [|reflexivity].
  match goal with
  | |- context [fetch depth ?s] =>
      destruct (keeps_fetch depth s) as [(Hdev & _) _];
      destruct (fetch depth s) as [[b|e] [d w']]; cbn [fst snd] in *;
      exact Hdev
  end.
Qed.

Lemma register_entry_grows depth entry w :
  exists new,
    _devices (api (snd (register_entry depth entry w))) =
      (_devices (api w) ++ new)%list.
Proof.
  unfold register_entry. unfold_m. cbn [fst snd].
  destruct (py_get entry "deviceIdentifier" (VStr "")) as [mac|e];
    [|exists []; rewrite app_nil_r; reflexivity].
  destruct (len_value mac) as [n|e];
    [|exists []; rewrite app_nil_r; reflexivity].
  destruct (negb (n =? 12)%nat);
    [exists []; rewrite app_nil_r; reflexivity|].
  pose proof (Device_init_keeps_registry depth mac w) as Hinit.
  destruct (Device__init__ depth mac w) as [[d|e] w1]; cbn [fst snd] in *.
  - exists [d]. cbn. rewrite Hinit. reflexivity.
  - exists []. rewrite app_nil_r. exact Hinit.
Qed.

Lemma register_loop_grows depth entries w :
  exists new,
    _devices (api (snd (for_each entries (register_entry depth) w))) =
      (_devices (api w) ++ new)%list.
Proof.
  revert w. induction entries as [|entry entries IH]; intros w.
  - exists []. cbn. rewrite app_nil_r. reflexivity.
  - cbn [for_each]. unfold bind at 1.
    destruct (register_entry_grows depth entry w) as [new1 H1].
    destruct (register_entry depth entry w) as [[[r|]|e] w1]; cbn [fst snd] in *.
    + exists new1. exact H1.
    + destruct (IH w1) as [new2 H2]. exists (new1 ++ new2)%list.
      rewrite H2, H1, app_assoc. reflexivity.
    + exists new1. exact H1.
Qed.

Lemma get_devices_grows depth w r w' :
  get_devices depth w = (r, w') ->
  exists new,
    _devices (api w') = (_devices (api w) ++ new)%list /\
    forall devices,
      r = Ret devices ->
      devices = [] \/ devices = (_devices (api w) ++ new)%list.
Proof.
  destruct (request_get_counts depth "devices/" w) as [(Hdev & _) _].
  unfold get_devices. unfold bind at 1.
  destruct (_request_get depth "devices/" w) as [[response|e] w1];
    cbn [fst snd] in *.
  2: { intros [= <- <-]. exists []. rewrite app_nil_r.
       split; [exact Hdev|discriminate]. }
  unfold bind at 1. unfold logger at 1, modify at 1.
  destruct (negb (truthy response)).
  { intros [= <- <-]. exists []. rewrite app_nil_r. split; [exact Hdev|].
    intros devices [= <-]. left. reflexivity. }
  unfold bind at 1. unfold lift_result at 1.
  destruct (py_iter response) as [entries|e].
  2: { intros [= <- <-]. exists []. rewrite app_nil_r.
       split; [exact Hdev|discriminate]. }
  unfold bind at 1.
  destruct (register_loop_grows depth entries
              (add_log (Log DEBUG "Active devices found") w1)) as [new Hloop].
  cbn [api add_log] in Hloop. rewrite Hdev in Hloop.
  destruct (for_each entries (register_entry depth) _) as [[r0|e] w2];
    cbn [fst snd] in *.
  2: { intros [= <- <-]. exists new. split; [exact Hloop|discriminate]. }
  unfold bind at 1. unfold gets at 1. rewrite Hloop.
  unfold logger. unfold_m.
  destruct (_devices (api w) ++ new)%list eqn:E; intros [= <- <-];
    exists new; cbn [api add_log]; rewrite Hloop, E.
  - split; [reflexivity|]. intros devices [= <-]. left. reflexivity.
  - split; [reflexivity|]. intros devices [= <-]. right. reflexivity.
Qed.

(** X9.  [get_devices] only ever appends to the registry: whatever the
    backend answers, and even when the call raises half-way, the handles of
    earlier calls are still there, in their order, followed by the new ones;
    and a list the call returns is either empty or the whole registry. *)
Theorem registry_only_grows depth w :
  exists new,
    _devices (api (snd (get_devices depth w))) = (_devices (api w) ++ new)%list /\
    forall devices,
      fst (get_devices depth w) = Ret devices ->
      devices = [] \/ devices = (_devices (api w) ++ new)%list.
Proof.
  destruct (get_devices depth w) as [r w'] eqn:Hrun.
  exact (get_devices_grows depth w r w' Hrun).
Qed.

Lemma get_devices_no_data depth w v w1 :
  _request_get depth "devices/" w = (Ret v, w1) ->
  truthy v = false ->
  get_devices depth w = (Ret [], add_log (Log DEBUG "Active devices found") w1).
Proof.
  intros Hget Hv. unfold get_devices. unfold bind at 1. rewrite Hget.
  unfold bind at 1. unfold logger at 1, modify at 1. rewrite Hv. reflexivity.
Qed.

(** X10.  When the listing request yields no data (a failure, or an empty
    list), [get_device] reports that the device is not found, whatever the
    identifier and although the registry may hold the device; the registry
    itself is left as it was. *)
Theorem get_device_without_listing depth deviceID w v w1 :
  _request_get depth "devices/" w = (Ret v, w1) ->
  truthy v = false ->
  fst (get_device depth deviceID w) = Ret None /\
  _devices (api (snd (get_device depth deviceID w))) = _devices (api w).
Proof.
  intros Hget Hv.
  destruct (request_get_counts depth "devices/" w) as [(Hdev & _) _].
  rewrite Hget in Hdev. cbn [snd] in Hdev.
  assert (Hrun : get_device depth deviceID w =
            (Ret None,
             add_log (Log INFO "Could not find device")
               (add_log (Log DEBUG "Active devices found") w1))).
  { unfold get_device. cbv zeta. unfold bind at 1.
    rewrite (get_devices_no_data depth w v w1 Hget Hv). reflexivity. }
  rewrite Hrun. split; [reflexivity|exact Hdev].
Qed.

Lemma get_device_without_listing_witness :
  fst (get_device 3 "00:1A:2B:3C:4D:5E" w_backend_down) = Ret None /\
  _devices (api (snd (get_device 3 "00:1A:2B:3C:4D:5E" w_backend_down))) =
    _devices (api w_backend_down).
Proof.
  apply (get_device_without_listing 3 "00:1A:2B:3C:4D:5E" w_backend_down VNone
           (snd (_request_get 3 "devices/" w_backend_down))).
  - apply injective_projections; cbn [fst snd]; [|reflexivity].
    vm_compute. reflexivity.
  - reflexivity.
Defined.

(** ** Identifiers, continued *)

Lemma upper_char_facts c :
  upper_char (upper_char c) = upper_char c /\
  (Ascii.eqb (upper_char c) ":" = Ascii.eqb c ":").
Proof.
  destruct c as [[] [] [] [] [] [] [] []]; split; reflexivity.
Qed.

Lemma upper_app s t : upper (s +:+ t) = upper s +:+ upper t.
Proof. apply map_string_app. Qed.

Lemma upper_cons c s : upper (String c s) = String (upper_char c) (upper s).
Proof. reflexivity. Qed.

Lemma replace_colon_cons c s :
  replace ":" "" (String c s) =
  if Ascii.eqb c ":" then replace ":" "" s else String c (replace ":" "" s).
Proof. unfold replace. cbn [map_string]. destruct (Ascii.eqb c ":"); reflexivity. Qed.

(** Normalizing is idempotent, and indifferent to a prior upper-casing or
    removal of the colons. *)
Lemma normalized_upper s : normalized (upper s) = normalized s.
Proof.
  unfold normalized. induction s as [|c s IH]; [reflexivity|].
  rewrite upper_cons, !replace_colon_cons.
  destruct (upper_char_facts c) as [H1 H2]. rewrite H2.
  destruct (Ascii.eqb c ":"); [exact IH|].
  rewrite !upper_cons, H1, IH. reflexivity.
Qed.

Lemma replace_colon_twice s :
  replace ":" "" (replace ":" "" s) = replace ":" "" s.
Proof.
  induction s as [|c s IH]; [reflexivity|].
  rewrite replace_colon_cons.
  destruct (Ascii.eqb c ":") eqn:E; [exact IH|].
  rewrite replace_colon_cons, E, IH. reflexivity.
Qed.

Lemma normalized_without_colons s :
  normalized (replace ":" "" s) = normalized s.
Proof. unfold normalized. rewrite replace_colon_twice. reflexivity. Qed.

Lemma normalized_idempotent s : normalized (normalized s) = normalized s.
Proof.
  unfold normalized at 2. rewrite normalized_upper.
  apply normalized_without_colons.
Qed.

Lemma get_device_normalized depth deviceID w :
  get_device depth deviceID w =
  ( devices <- get_devices depth ;;
    found <- for_each devices (fun device =>
      id <- lift_result (device_id device) ;;
      if bool_decide (id = Some (normalized deviceID)) then ret (Some device)
      else ret None) ;;
    match found with
    | Some device => ret (Some device)
    | None => logger INFO "Could not find device" ;;; ret None
    end ) w.
Proof. reflexivity. Qed.

(** X11.  [get_device] depends on the identifier only through its
    normalized form: an identifier, its upper-case form, its colon-free form
    and its normalized form all give the same result and the same final
    world. *)
Theorem get_device_spelling depth deviceID w :
  get_device depth (upper deviceID) w = get_device depth deviceID w /\
  get_device depth (replace ":" "" deviceID) w = get_device depth deviceID w /\
  get_device depth (normalized deviceID) w = get_device depth deviceID w.
Proof.
  rewrite !get_device_normalized.
  rewrite normalized_upper, normalized_without_colons, normalized_idempotent.
  repeat split.
Qed.






(** An identifier with an odd number of digits does not read back: its last
    digit is padded to a byte. *)
Example odd_identifier_is_padded :
  system_id_data (VStr "ABC") = Ret [VInt 171; VInt 12] /\
  device_id (new_device 0 [VInt 171; VInt 12]) = Ret (Some "AB0C").
Proof. by_computation. Qed.

Lemma all_chars_app p s t :
  all_chars p (s +:+ t) = all_chars p s && all_chars p t.
Proof.
  induction s as [|c s IH]; [reflexivity|].
  change (String c s +:+ t) with (String c (s +:+ t)).
  cbn [all_chars]. rewrite IH. apply andb_assoc.
Qed.

Lemma string_length_app s t :
  String.length (s +:+ t) = (String.length s + String.length t)%nat.
Proof.
  induction s as [|c s IH]; [reflexivity|].
  change (String c s +:+ t) with (String c (s +:+ t)).
  cbn [String.length]. rewrite IH. reflexivity.
Qed.

Lemma byte_prints z :
  (0 <= z <= 255)%Z -> byte_prints_canonically z = true.
Proof.
  intros Hz.
  assert (Hall : forallb (fun n => byte_prints_canonically (Z.of_nat n))
                   (seq 0 256) = true) by (vm_compute; reflexivity).
  rewrite forallb_forall in Hall.
  specialize (Hall (Z.to_nat z)). rewrite Z2Nat.id in Hall by lia.
  apply Hall. apply in_seq. lia.
Qed.

Lemma bytes_join bytes :
  Forall (fun z => (0 <= z <= 255)%Z) bytes ->
  exists joined,
    join_02x (VInt <$> bytes) = Ret joined /\
    String.length (upper joined) = (2 * length bytes)%nat /\
    all_chars is_upper_hex (upper joined) = true.
Proof.
  induction 1 as [|z bytes Hz _ IH].
  - exists "". repeat split.
  - destruct IH as (joined & Hjoin & Hlen & Hall).
    pose proof (byte_prints z Hz) as Hb. unfold byte_prints_canonically in Hb.
    destruct (format_02x (VInt z)) as [h|] eqn:Hh; [|discriminate].
    apply andb_prop in Hb as [Hb1 Hb2]. apply Nat.eqb_eq in Hb1.
    exists (h +:+ joined). cbn [fmap list_fmap join_02x].
    change (list_fmap Z value VInt bytes) with (VInt <$> bytes).
    rewrite Hh, Hjoin. split; [reflexivity|].
    rewrite upper_app, string_length_app, all_chars_app, Hb1, Hlen, Hb2, Hall.
    cbn [length]. split; [lia|reflexivity].
Qed.

(** X13.  [device_id] renders a tagged buffer of bytes canonically: when
    [system_id] holds a buffer of integers between 0 and 255, the accessor
    returns two upper-case hex characters per byte, hence the canonical
    twelve characters for the six bytes of a device identity. *)
Theorem device_id_of_buffer d bytes :
  Forall (fun z => (0 <= z <= 255)%Z) bytes ->
  _system d !! "system_id" = Some (Buffer (VList (VInt <$> bytes))) ->
  exists s,
    device_id d = Ret (Some s) /\
    String.length s = (2 * length bytes)%nat /\
    all_chars is_upper_hex s = true /\
    (length bytes = 6%nat -> canonical_id s = true).
Proof.
  intros Hbytes Hd.
  destruct (bytes_join bytes Hbytes) as (joined & Hjoin & Hlen & Hall).
  exists (upper joined). unfold device_id. rewrite Hd. unfold Buffer.
  rewrite lookup_insert_ne by discriminate. rewrite lookup_insert_eq.
  cbn [py_iter]. rewrite Hjoin.
  split; [reflexivity|]. split; [exact Hlen|]. split; [exact Hall|].
  intros H6. unfold canonical_id. rewrite Hlen, H6, Hall. reflexivity.
Qed.

Lemma device_id_of_buffer_witness :
  exists s,
    device_id demo_device = Ret (Some s) /\
    String.length s = (2 * length [0; 26; 43; 60; 77; 94]%Z)%nat /\
    all_chars is_upper_hex s = true /\
    (length [0; 26; 43; 60; 77; 94]%Z = 6%nat -> canonical_id s = true).
Proof.
  apply (device_id_of_buffer demo_device [0; 26; 43; 60; 77; 94]%Z).
  - repeat constructor; lia.
  - vm_compute. reflexivity.
Defined.

(** ** What device methods leave alone *)

Section Stable.
Variable Q : Device -> Device -> Prop.
Hypothesis Q_refl : forall d, Q d d.
Hypothesis Q_trans : forall a b c, Q a b -> Q b c -> Q a c.

Lemma stable_ret {A} (a : A) : stable Q (ret a).
Proof. intros s. apply Q_refl. Qed.

Lemma stable_lift_result {A} (r : result A) : stable Q (lift_result r).
Proof. intros s. apply Q_refl. Qed.

Lemma stable_self {A} (f : Device -> A) : stable Q (self f).
Proof. intros s. apply Q_refl. Qed.

Lemma stable_with_api {A} (m : M World A) : stable Q (with_api m).
Proof. intros s. apply Q_refl. Qed.

Lemma stable_modify_self f : (forall d, Q d (f d)) -> stable Q (modify_self f).
Proof. intros Hf s. apply Hf. Qed.

Lemma stable_bind {A B} (m : DM A) (k : A -> DM B) :
  stable Q m -> (forall a, stable Q (k a)) -> stable Q (bind m k).
Proof.
  intros Hm Hk s. unfold bind. specialize (Hm s).
  destruct (m s) as [[a|e] s1]; cbn [fst snd] in *; [|exact Hm].
  eapply Q_trans; [exact Hm|apply Hk].
Qed.

Lemma stable_try_except {A} (m : DM A) catches (h : exn -> DM A) :
  stable Q m -> (forall e, stable Q (h e)) -> stable Q (try_except m catches h).
Proof.
  intros Hm Hh s. unfold try_except. specialize (Hm s).
  destruct (m s) as [[a|e] s1]; cbn [fst snd] in *; [exact Hm|].
  destruct (catches e); [|exact Hm].
  eapply Q_trans; [exact Hm|apply Hh].
Qed.

Lemma stable_for_each {A R} (items : list A) (body : A -> DM (option R)) :
  (forall x, x ∈ items -> stable Q (body x)) -> stable Q (for_each items body).
Proof.
  induction items as [|x items IH]; intros Hbody; cbn [for_each].
  - apply stable_ret.
  - apply stable_bind; [apply Hbody, elem_of_cons; left; reflexivity|].
    intros [r|]; [apply stable_ret|apply IH].
    intros y Hy. apply Hbody, elem_of_cons. right. exact Hy.
Qed.

Lemma stable_merge attrs setattr response :
  (forall a v d, a ∈ attrs -> Q d (setattr a v d)) ->
  stable Q (merge attrs setattr response).
Proof.
  intros Hset. unfold merge. apply stable_for_each. intros attr Hin.
  apply stable_try_except.
  - apply stable_bind; [apply stable_lift_result|]. intros [|]; [|apply stable_ret].
    apply stable_bind; [apply stable_lift_result|]. intros v.
    apply stable_bind; [|intros; apply stable_ret].
    apply stable_modify_self. intros d. apply Hset. exact Hin.
  - intros e. apply stable_bind; [apply stable_with_api|]. intros; apply stable_ret.
Qed.

Lemma stable_fetch depth :
  (forall a v d, a ∈ _System_attrs -> Q d (set_system a v d)) ->
  (forall a v d, a ∈ _Zone_attrs -> Q d (set_zone a v d)) ->
  stable Q (fetch depth).
Proof.
  intros Hs Hz. unfold fetch. apply stable_try_except.
  - apply stable_bind.
    { apply stable_bind; [apply stable_self|]. intros; apply stable_lift_result. }
    intros id. apply stable_bind; [apply stable_with_api|]. intros system_data.
    destruct (negb (truthy system_data)).
    { apply stable_bind; [apply stable_with_api|]. intros; apply stable_ret. }
    apply stable_bind; [apply stable_merge; exact Hs|].
    intros [b|]; [apply stable_ret|].
    apply stable_bind.
    { apply stable_bind; [apply stable_self|]. intros; apply stable_lift_result. }
    intros id'. apply stable_bind; [apply stable_with_api|]. intros zone_data.
    destruct (negb (truthy zone_data)).
    { apply stable_bind; [apply stable_with_api|]. intros; apply stable_ret. }
    apply stable_bind; [apply stable_merge; exact Hz|].
    intros [b|]; apply stable_ret.
  - intros e. apply stable_bind; [apply stable_with_api|]. intros; apply stable_ret.
Qed.

Lemma stable_push depth :
  (forall d, Q d (set_system_changed ∅ d)) ->
  (forall d, Q d (set_zone_changed ∅ d)) ->
  stable Q (push depth).
Proof.
  intros Hs Hz. unfold push. apply stable_try_except.
  - apply stable_bind; [apply stable_self|]. intros system_changed.
    apply stable_bind.
    { destruct (negb (size system_changed =? 0)%nat); [|apply stable_ret].
      apply stable_bind.
      { apply stable_bind; [apply stable_self|]. intros; apply stable_lift_result. }
      intros id. apply stable_bind; [apply stable_with_api|]. intros resp1.
      apply stable_modify_self. exact Hs. }
    intros _. apply stable_bind; [apply stable_self|]. intros zone_changed.
    apply stable_bind.
    { destruct (negb (size zone_changed =? 0)%nat); [|apply stable_ret].
      apply stable_bind.
      { apply stable_bind; [apply stable_self|]. intros; apply stable_lift_result. }
      intros id. apply stable_bind; [apply stable_with_api|]. intros resp2.
      apply stable_modify_self. exact Hz. }
    intros _. apply stable_ret.
  - intros e. apply stable_bind; [apply stable_with_api|]. intros; apply stable_ret.
Qed.

End Stable.

Lemma same_changes_refl d : same_changes d d.
Proof. repeat split. Qed.

Lemma same_changes_trans a b c :
  same_changes a b -> same_changes b c -> same_changes a c.
Proof.
  unfold same_changes. intros (? & ? & ? & ?) (? & ? & ? & ?).
  repeat split; congruence.
Qed.

Lemma same_mirror_refl d : same_mirror d d.
Proof. unfold same_mirror. repeat split; left; reflexivity. Qed.

Lemma same_mirror_trans a b c :
  same_mirror a b -> same_mirror b c -> same_mirror a c.
Proof.
  unfold same_mirror.
  intros (? & ? & ? & ? & Hs1 & Hz1) (? & ? & ? & ? & Hs2 & Hz2).
  repeat split; try congruence.
  - destruct Hs2 as [Hs2|Hs2]; [|right; exact Hs2].
    destruct Hs1 as [Hs1|Hs1]; [left|right]; congruence.
  - destruct Hz2 as [Hz2|Hz2]; [|right; exact Hz2].
    destruct Hz1 as [Hz1|Hz1]; [left|right]; congruence.
Qed.

Lemma fetch_same_changes depth : stable same_changes (fetch depth).
Proof.
  apply (stable_fetch same_changes same_changes_refl same_changes_trans);
    intros; repeat split.
Qed.

Lemma push_same_mirror depth : stable same_mirror (push depth).
Proof.
  apply (stable_push same_mirror same_mirror_refl same_mirror_trans);
    intros d; unfold same_mirror; cbn; repeat split; auto.
Qed.

(** X14.  [fetch] never raises, and it never touches the ChangeSets, the
    auto-apply flag or the identity of the object: changes recorded before a
    fetch are still pending after it, whether the fetch succeeded or not. *)
Theorem fetch_keeps_pending_changes depth s :
  (exists b, fst (fetch depth s) = Ret b) /\
  same_changes (fst s) (fst (snd (fetch depth s))).
Proof.
  split.
  - destruct (fetch_returns depth s) as (b & s' & H). exists b. rewrite H.
    reflexivity.
  - apply fetch_same_changes.
Qed.

(** X15.  [push] never raises, and it changes nothing in the device but the
    ChangeSets, each of which is either left as it was or emptied: the
    mirror's attribute values are not affected by a flush. *)
Theorem push_keeps_mirror depth s :
  (exists b, fst (push depth s) = Ret b) /\
  same_mirror (fst s) (fst (snd (push depth s))).
Proof.
  split.
  - destruct (push_returns depth s) as (b & s' & H). exists b. rewrite H.
    reflexivity.
  - apply push_same_mirror.
Qed.

(** ** Fetching, continued *)

Lemma merged_zone_keeps attrs m d attr v :
  m !! replace "_" "-" attr = Some v ->
  _zone d !! attr = Some v ->
  _zone (merged attrs set_zone m d) !! attr = Some v.
Proof.
  intros Hm. revert d. induction attrs as [|a attrs IH]; intros d Hd; [exact Hd|].
  rewrite merged_cons. apply IH.
  destruct (m !! replace "_" "-" a) as [x|] eqn:E; [|exact Hd].
  cbn. destruct (decide (a = attr)) as [->|Hne].
  - rewrite lookup_insert_eq. congruence.
  - rewrite lookup_insert_ne by exact Hne. exact Hd.
Qed.

Lemma merged_zone_lookup attrs m d attr v :
  attr ∈ attrs ->
  m !! replace "_" "-" attr = Some v ->
  _zone (merged attrs set_zone m d) !! attr = Some v.
Proof.
  intros Hin Hm. revert d. induction attrs as [|a attrs IH]; intros d.
  - apply elem_of_nil in Hin. contradiction.
  - rewrite merged_cons. apply elem_of_cons in Hin as [<-|Hin].
    + rewrite Hm. apply merged_zone_keeps; [exact Hm|].
      cbn. apply lookup_insert_eq.
    + apply IH. exact Hin.
Qed.

Lemma merged_zone_omitted attrs m d attr :
  m !! replace "_" "-" attr = None ->
  _zone (merged attrs set_zone m d) !! attr = _zone d !! attr.
Proof.
  intros Hm. revert d. induction attrs as [|a attrs IH]; intros d; [reflexivity|].
  rewrite merged_cons, IH.
  destruct (m !! replace "_" "-" a) as [x|] eqn:E; [|reflexivity].
  cbn. apply lookup_insert_ne. intros ->. congruence.
Qed.

Lemma merged_zone_system attrs m d :
  _system (merged attrs set_zone m d) = _system d.
Proof.
  revert d. induction attrs as [|a attrs IH]; intros d; [reflexivity|].
  rewrite merged_cons, IH. destruct (m !! replace "_" "-" a); reflexivity.
Qed.

Lemma merged_system_zone attrs m d :
  _zone (merged attrs set_system m d) = _zone d.
Proof.
  revert d. induction attrs as [|a attrs IH]; intros d; [reflexivity|].
  rewrite merged_cons, IH. destruct (m !! replace "_" "-" a); reflexivity.
Qed.

(** A [fetch] whose two requests are answered with non-empty objects. *)
Lemma fetch_success depth d w id sys w1 id' zone w2 :
  device_id d = Ret id ->
  _request_get depth ("devices/" +:+ fmt id +:+ "/services/System") w
    = (Ret (VDict sys), w1) ->
  truthy (VDict sys) = true ->
  device_id (merged _System_attrs set_system sys d) = Ret id' ->
  _request_get depth ("devices/1." +:+ fmt id' +:+ "/services/Zone") w1
    = (Ret (VDict zone), w2) ->
  truthy (VDict zone) = true ->
  fetch depth (d, w) =
    (Ret true,
     (merged _Zone_attrs set_zone zone (merged _System_attrs set_system sys d),
      w2)).
Proof.
  intros Hid Hget Hsys Hid' Hget' Hzone. unfold fetch.
  unfold try_except at 1. unfold bind at 1. unfold self, gets, lift_result.
  unfold bind at 1. cbn [fst snd]. rewrite Hid.
  unfold bind at 1. unfold with_api at 1. cbn [fst snd]. rewrite Hget.
  cbn [fst snd]. rewrite Hsys. cbn [negb].
  unfold bind at 1. rewrite merge_dict.
  unfold bind at 1. unfold bind at 1. cbn [fst snd]. rewrite Hid'.
  unfold bind at 1. unfold with_api at 1. cbn [fst snd]. rewrite Hget'.
  cbn [fst snd]. rewrite Hzone. cbn [negb].
  unfold bind at 1. rewrite merge_dict. reflexivity.
Qed.

(** X16.  When both requests of a [fetch] are answered with non-empty
    objects, [fetch] returns [True] and the mirror is a partial merge: every
    attribute whose dash-cased name is a key of the response takes the
    response's value, every other attribute keeps the value it had.  The
    Zone request is addressed with the identifier the mirror has after the
    System merge. *)
Theorem fetch_partial_merge depth d w id sys w1 id' zone w2 :
  device_id d = Ret id ->
  _request_get depth ("devices/" +:+ fmt id +:+ "/services/System") w
    = (Ret (VDict sys), w1) ->
  truthy (VDict sys) = true ->
  device_id (merged _System_attrs set_system sys d) = Ret id' ->
  _request_get depth ("devices/1." +:+ fmt id' +:+ "/services/Zone") w1
    = (Ret (VDict zone), w2) ->
  truthy (VDict zone) = true ->
  exists d',
    fetch depth (d, w) = (Ret true, (d', w2)) /\
    (forall attr v, attr ∈ _System_attrs ->
       sys !! replace "_" "-" attr = Some v -> _system d' !! attr = Some v) /\
    (forall attr, sys !! replace "_" "-" attr = None ->
       _system d' !! attr = _system d !! attr) /\
    (forall attr v, attr ∈ _Zone_attrs ->
       zone !! replace "_" "-" attr = Some v -> _zone d' !! attr = Some v) /\
    (forall attr, zone !! replace "_" "-" attr = None ->
       _zone d' !! attr = _zone d !! attr).
Proof.
  intros Hid Hget Hsys Hid' Hget' Hzone.
  eexists. split.
  - exact (fetch_success depth d w id sys w1 id' zone w2
             Hid Hget Hsys Hid' Hget' Hzone).
  - generalize _System_attrs, _Zone_attrs. intros sattrs zattrs.
    repeat split.
    + intros attr v Hin Hv. rewrite merged_zone_system.
      apply merged_system_lookup; assumption.
    + intros attr Hv. rewrite merged_zone_system.
      apply merged_system_omitted; assumption.
    + intros attr v Hin Hv. apply merged_zone_lookup; assumption.
    + intros attr Hv. rewrite merged_zone_omitted by assumption.
      rewrite merged_system_zone. reflexivity.
Qed.

Lemma fetch_partial_merge_witness :
  exists d',
    fetch 3 (demo_device, w_both_groups) =
      (Ret true, (d', snd (snd (fetch 3 (demo_device, w_both_groups))))) /\
    (forall attr v, attr ∈ _System_attrs ->
       (list_to_map [("system-type", VStr "ComfortControlPro");
                     ("humidity", VInt 40)] : gmap string value)
         !! replace "_" "-" attr = Some v -> _system d' !! attr = Some v) /\
    (forall attr,
       (list_to_map [("system-type", VStr "ComfortControlPro");
                     ("humidity", VInt 40)] : gmap string value)
         !! replace "_" "-" attr = None ->
       _system d' !! attr = _system demo_device !! attr) /\
    (forall attr v, attr ∈ _Zone_attrs ->
       (list_to_map [("name", VStr "Living room"); ("speed", VInt 2)]
          : gmap string value) !! replace "_" "-" attr = Some v ->
       _zone d' !! attr = Some v) /\
    (forall attr,
       (list_to_map [("name", VStr "Living room"); ("speed", VInt 2)]
          : gmap string value) !! replace "_" "-" attr = None ->
       _zone d' !! attr = _zone demo_device !! attr).
Proof.
  apply (fetch_partial_merge 3 demo_device w_both_groups (Some "001A2B3C4D5E")
           _ (snd (_request_get 3 "devices/001A2B3C4D5E/services/System"
                     w_both_groups))
           (Some "001A2B3C4D5E")).
  - vm_compute. reflexivity.
  - vm_compute. reflexivity.
  - vm_compute. reflexivity.
  - vm_compute. reflexivity.
  - vm_compute. reflexivity.
  - vm_compute. reflexivity.
Defined.

(** X17.  When the System request yields no data, [fetch] returns [False]
    at once: the mirror is exactly what it was and the Zone request is not
    issued. *)
Theorem fetch_without_system_data depth d w id v w1 :
  device_id d = Ret id ->
  _request_get depth ("devices/" +:+ fmt id +:+ "/services/System") w
    = (Ret v, w1) ->
  truthy v = false ->
  fetch depth (d, w) =
    (Ret false, (d, add_log (Log DEBUG "Empty System data") w1)).
Proof.
  intros Hid Hget Hv. unfold fetch.
  unfold try_except at 1. unfold bind at 1. unfold self, gets, lift_result.
  unfold bind at 1. cbn [fst snd]. rewrite Hid.
  unfold bind at 1. unfold with_api at 1. cbn [fst snd]. rewrite Hget.
  cbn [fst snd]. rewrite Hv. reflexivity.
Qed.

Lemma fetch_without_system_data_witness :
  fetch 3 (demo_device, w_rejecting) =
    (Ret false,
     (demo_device,
      add_log (Log DEBUG "Empty System data")
        (snd (_request_get 3 "devices/001A2B3C4D5E/services/System"
                w_rejecting)))).
Proof.
  apply (fetch_without_system_data 3 demo_device w_rejecting
           (Some "001A2B3C4D5E") VNone).
  - vm_compute. reflexivity.
  - vm_compute. reflexivity.
  - reflexivity.
Defined.

(** ** Flushing, continued *)

Lemma size_nonzero (m : gmap string value) :
  negb (size m =? 0)%nat = true -> m <> ∅.
Proof.
  intros H ->. rewrite map_size_empty in H. discriminate.
Qed.

Lemma push_false_pending depth d w d' w' :
  push depth (d, w) = (Ret false, (d', w')) ->
  _zone_changed d' = _zone_changed d /\
  ((_system_changed d' = _system_changed d /\ _system_changed d <> ∅) \/
   (_system_changed d' = ∅ /\ _zone_changed d <> ∅)) /\
  _system d' = _system d /\ _zone d' = _zone d /\
  exists w1, w' = add_log (Log ERROR "Error on pushing values.") w1.
Proof.
  unfold push, logger. unfold_m. cbn [fst snd]. intros H.
  repeat case_match; simplify_eq; cbn in *; simplify_eq;
    repeat match goal with
           | H : negb (_ =? 0)%nat = true |- _ => apply size_nonzero in H
           end;
    size_zero;
    (split; [reflexivity|]); (split; [|split; [reflexivity|split; [reflexivity|eauto]]]);
    auto.
Qed.

(** X18.  [push] returns [False] only from its exception handler, and then
    the ChangeSet whose request raised is still pending: the Zone ChangeSet
    is as it was, the System ChangeSet is as it was and not empty, or it
    was flushed and the Zone ChangeSet is not empty.  The mirror keeps its
    values and the log ends with the error record. *)
Theorem push_failure_keeps_changes depth d w :
  fst (push depth (d, w)) = Ret false ->
  _zone_changed (fst (snd (push depth (d, w)))) = _zone_changed d /\
  ((_system_changed (fst (snd (push depth (d, w)))) = _system_changed d /\
    _system_changed d <> ∅) \/
   (_system_changed (fst (snd (push depth (d, w)))) = ∅ /\
    _zone_changed d <> ∅)) /\
  _system (fst (snd (push depth (d, w)))) = _system d /\
  _zone (fst (snd (push depth (d, w)))) = _zone d /\
  exists w1, snd (snd (push depth (d, w)))
             = add_log (Log ERROR "Error on pushing values.") w1.
Proof.
  intros H. apply (push_false_pending depth d w).
  destruct (push depth (d, w)) as [r [d' w']]. cbn in *. subst r. reflexivity.
Qed.

Lemma push_failure_keeps_changes_witness :
  _zone_changed (fst (snd (push 1 (fst pending_name, w_reconnect_raises))))
    = _zone_changed (fst pending_name) /\
  ((_system_changed (fst (snd (push 1 (fst pending_name, w_reconnect_raises))))
      = _system_changed (fst pending_name) /\
    _system_changed (fst pending_name) <> ∅) \/
   (_system_changed (fst (snd (push 1 (fst pending_name, w_reconnect_raises))))
      = ∅ /\
    _zone_changed (fst pending_name) <> ∅)) /\
  _system (fst (snd (push 1 (fst pending_name, w_reconnect_raises))))
    = _system (fst pending_name) /\
  _zone (fst (snd (push 1 (fst pending_name, w_reconnect_raises))))
    = _zone (fst pending_name) /\
  exists w1, snd (snd (push 1 (fst pending_name, w_reconnect_raises)))
             = add_log (Log ERROR "Error on pushing values.") w1.
Proof.
  apply (push_failure_keeps_changes 1 (fst pending_name) w_reconnect_raises).
  vm_compute. reflexivity.
Defined.

(** ** Synchronizing *)

(** X19.  [update] never raises.  When it returns [True] both ChangeSets
    are empty; when its [push] returns [False] the [fetch] is not run: the
    result is [False] and the state is the one [push] left. *)
Theorem update_composes depth s :
  (exists b, fst (update depth s) = Ret b) /\
  (fst (update depth s) = Ret true ->
   _system_changed (fst (snd (update depth s))) = ∅ /\
   _zone_changed (fst (snd (update depth s))) = ∅) /\
  (fst (push depth s) = Ret false ->
   update depth s = (Ret false, snd (push depth s))).
Proof.
  unfold update, bind.
  destruct (push_returns depth s) as (b & s1 & Hp). rewrite Hp. cbn [fst snd].
  destruct b.
  - split; [|split].
    + destruct (fetch_returns depth s1) as (b & s2 & Hf). rewrite Hf. eauto.
    + intros _. destruct s as [d w], s1 as [d1 w1].
      apply push_true_clears in Hp. destruct Hp as [H1 H2].
      destruct (fetch_same_changes depth (d1, w1)) as (H3 & H4 & _).
      cbn [fst] in H3, H4. split; congruence.
    + discriminate.
  - split; [|split].
    + eauto.
    + discriminate.
    + reflexivity.
Qed.

(** ** Property setters *)

Lemma key_changed_zone depth key v d w :
  _key_changed depth _Zone key v (d, w) =
    if AUTOSET d
    then push depth (set_zone_changed (<[key := v]> (_zone_changed d)) d, w)
    else (Ret true, (set_zone_changed (<[key := v]> (_zone_changed d)) d, w)).
Proof.
  unfold _key_changed. unfold_m. cbn. destruct (AUTOSET d); reflexivity.
Qed.

Lemma key_changed_system depth key v d w :
  _key_changed depth _System key v (d, w) =
    if AUTOSET d
    then push depth (set_system_changed (<[key := v]> (_system_changed d)) d, w)
    else (Ret true,
          (set_system_changed (<[key := v]> (_system_changed d)) d, w)).
Proof.
  unfold _key_changed. unfold_m. cbn. destruct (AUTOSET d); reflexivity.
Qed.

Lemma key_changed_same_mirror depth service key v s :
  (exists b, fst (_key_changed depth service key v s) = Ret b) /\
  _zone (fst (snd (_key_changed depth service key v s))) = _zone (fst s) /\
  _system (fst (snd (_key_changed depth service key v s))) = _system (fst s).
Proof.
  destruct s as [d w].
  destruct service;
    [rewrite key_changed_system|rewrite key_changed_zone|cbn; eauto];
    (destruct (AUTOSET d); [|cbn; eauto]);
    match goal with |- context [push depth ?t] =>
      destruct (push_returns depth t) as (b & s2 & Hp);
      destruct (push_same_mirror depth t) as (H1 & H2 & _);
      rewrite Hp in *; cbn [fst snd] in *; eauto
    end.
Qed.

Lemma zone_setter_run attr key depth v d w :
  zone_setter attr key depth v (d, w) =
    (Ret tt, snd (_key_changed depth _Zone key v (set_zone attr v d, w))).
Proof.
  unfold zone_setter. unfold_m. cbn [fst snd].
  destruct (key_changed_same_mirror depth _Zone key v (set_zone attr v d, w))
    as ((b & Hb) & _).
  destruct (_key_changed depth _Zone key v (set_zone attr v d, w)) as [r s2].
  cbn [fst snd] in *. subst r. reflexivity.
Qed.

Lemma zone_setter_stores attr key depth v s :
  fst (zone_setter attr key depth v s) = Ret tt /\
  _zone (fst (snd (zone_setter attr key depth v s)))
    = <[attr := v]> (_zone (fst s)) /\
  _system (fst (snd (zone_setter attr key depth v s))) = _system (fst s).
Proof.
  destruct s as [d w]. rewrite zone_setter_run. cbn [fst snd].
  destruct (key_changed_same_mirror depth _Zone key v (set_zone attr v d, w))
    as (_ & Hz & Hs).
  auto.
Qed.

(** X20.  Each of the ten read/write properties reads back what was
    assigned to it.  The assignment never raises, with AUTOSET on or off
    and whatever the backend answers to the flush, and the System object is
    not affected. *)
Theorem property_reads_back p depth v s :
  p ∈ properties ->
  fst (snd p depth v s) = Ret tt /\
  fst p (fst (snd (snd p depth v s))) = Ret v /\
  _system (fst (snd (snd p depth v s))) = _system (fst s).
Proof.
  unfold properties. intros Hp.
  repeat (apply elem_of_cons in Hp as [->|Hp]);
    [..|apply elem_of_nil in Hp; contradiction];
    cbn [fst snd];
    match goal with
    | |- context [?setter depth v s] =>
        match eval red in setter with
        | zone_setter ?attr ?key =>
            destruct (zone_setter_stores attr key depth v s) as (H1 & H2 & H3);
            change (setter depth v s) with (zone_setter attr key depth v s);
            (split; [exact H1|]); (split; [|exact H3]);
            match goal with
            | |- ?getter _ = _ => unfold getter
            end;
            unfold zone_attr; rewrite H2, lookup_insert_eq; reflexivity
        end
    end.
Qed.

Lemma property_reads_back_witness :
  fst (snd (mode, mode_setter) 3 (VStr "auto") (auto_device, w_rejecting))
    = Ret tt /\
  fst (mode, mode_setter)
    (fst (snd (snd (mode, mode_setter) 3 (VStr "auto")
                 (auto_device, w_rejecting)))) = Ret (VStr "auto") /\
  _system (fst (snd (snd (mode, mode_setter) 3 (VStr "auto")
                       (auto_device, w_rejecting))))
    = _system (fst (auto_device, w_rejecting)).
Proof.
  apply (property_reads_back (mode, mode_setter) 3 (VStr "auto")
           (auto_device, w_rejecting)).
  unfold properties. do 2 (apply elem_of_cons; right).
  apply elem_of_cons; left; reflexivity.
Defined.

Lemma bind_run {S A B} (m : M S A) (k : A -> M S B) s a s1 :
  m s = (Ret a, s1) -> bind m k s = k a s1.
Proof. intros H. unfold bind. rewrite H. reflexivity. Qed.

Lemma zone_setter_deferred attr key depth v d w :
  AUTOSET d = false ->
  zone_setter attr key depth v (d, w) =
    (Ret tt,
     (set_zone_changed (<[key := v]> (_zone_changed d)) (set_zone attr v d), w)).
Proof.
  intros H. rewrite zone_setter_run, key_changed_zone.
  cbn [AUTOSET set_zone]. rewrite H. reflexivity.
Qed.

Lemma push_zone_only depth d w id resp w1 :
  _system_changed d = ∅ -> _zone_changed d <> ∅ ->
  device_id d = Ret id ->
  _request_put depth ("devices/" +:+ fmt id +:+ "/services/Zone")
    (VDict (_zone_changed d)) w = (Ret resp, w1) ->
  push depth (d, w) = (Ret true, (set_zone_changed ∅ d, w1)).
Proof.
  intros Hsys Hzone Hid Hput. unfold push. unfold_m. cbn [fst snd].
  rewrite Hsys, map_size_empty. cbn [Nat.eqb negb].
  match goal with
  | |- context [negb (?x =? 0)%nat] => destruct (x =? 0)%nat eqn:E
  end.
  { apply Nat.eqb_eq, map_size_empty_iff in E. contradiction. }
  cbn [negb fst snd]. rewrite Hid. cbn [fst snd]. rewrite Hput. reflexivity.
Qed.

(** X21.  With AUTOSET off the setters talk to nobody, and the changes of
    two assignments travel in one request: the [push] that follows issues a
    single PUT to the Zone service whose body holds both keys, and leaves
    both ChangeSets empty. *)
Theorem changes_are_batched depth d w a1 k1 v1 a2 k2 v2 id :
  AUTOSET d = false ->
  _system_changed d = ∅ ->
  device_id d = Ret id ->
  ~ answers w
      (executor_put ("devices/" +:+ fmt id +:+ "/services/Zone")
         (VDict (<[k2 := v2]> (<[k1 := v1]> (_zone_changed d)))) w)
      ResponseCode.UNAUTHORIZED ->
  exists d' r,
    (zone_setter a1 k1 depth v1 ;;; zone_setter a2 k2 depth v2 ;;;
     push (S depth)) (d, w) =
      (Ret true,
       (d', add_log r
              (add_sent
                 (executor_put ("devices/" +:+ fmt id +:+ "/services/Zone")
                    (VDict (<[k2 := v2]> (<[k1 := v1]> (_zone_changed d)))) w)
                 w))) /\
    _system_changed d' = ∅ /\ _zone_changed d' = ∅ /\
    _zone d' = <[a2 := v2]> (<[a1 := v1]> (_zone d)).
Proof.
  intros Hauto Hsys Hid Hno.
  rewrite (bind_run _ _ _ _ _ (zone_setter_deferred a1 k1 depth v1 d w Hauto)).
  rewrite (bind_run _ _ _ _ _
             (zone_setter_deferred a2 k2 depth v2
                (set_zone_changed (<[k1 := v1]> (_zone_changed d))
                   (set_zone a1 v1 d)) w Hauto)).
  destruct (request_put_plain depth _ _ w Hno) as [r Hput].
  eexists _, r. split.
  - match goal with
    | |- push _ (?D, _) = _ => eapply (push_zone_only (S depth) D w id)
    end; [exact Hsys| |exact Hid|exact Hput].
    cbn. apply insert_non_empty.
  - cbn. auto.
Qed.

Lemma changes_are_batched_witness :
  exists d' r,
    (zone_setter "name" "name" 2 (VStr "Attic") ;;;
     zone_setter "speed" "speed" 2 (VInt 3) ;;;
     push (S 2)) (demo_device, w_accepting) =
      (Ret true,
       (d', add_log r
              (add_sent
                 (executor_put
                    ("devices/" +:+ fmt (Some "001A2B3C4D5E") +:+ "/services/Zone")
                    (VDict (<["speed" := VInt 3]>
                              (<["name" := VStr "Attic"]>
                                 (_zone_changed demo_device)))) w_accepting)
                 w_accepting))) /\
    _system_changed d' = ∅ /\ _zone_changed d' = ∅ /\
    _zone d' = <["speed" := VInt 3]> (<["name" := VStr "Attic"]> (_zone demo_device)).
Proof.
  apply (changes_are_batched 2 demo_device w_accepting "name" "name"
           (VStr "Attic") "speed" "speed" (VInt 3) (Some "001A2B3C4D5E")).
  - reflexivity.
  - reflexivity.
  - vm_compute. reflexivity.
  - intros (resp & Hb & Hc). vm_compute in Hb.
    injection Hb as <-. vm_compute in Hc. discriminate Hc.
Defined.

(** ** Time profiles *)

Lemma in_range number :
  (1 <= number <= 10)%Z -> (number <? 1)%Z || (number >? 10)%Z = false.
Proof.
  intros [H1 H2].
  replace (number <? 1)%Z with false by (symmetry; apply Z.ltb_ge; lia).
  replace (number >? 10)%Z with false
    by (symmetry; rewrite Z.gtb_ltb; apply Z.ltb_ge; lia).
  reflexivity.
Qed.

Lemma out_of_range number :
  (number < 1 \/ 10 < number)%Z -> (number <? 1)%Z || (number >? 10)%Z = true.
Proof.
  intros [H|H].
  - replace (number <? 1)%Z with true by (symmetry; apply Z.ltb_lt; lia).
    reflexivity.
  - replace (number >? 10)%Z with true
      by (symmetry; rewrite Z.gtb_ltb; apply Z.ltb_lt; lia).
    apply orb_true_r.
Qed.

Lemma in_time_profile_numbers number :
  (1 <= number <= 10)%Z -> In number time_profile_numbers.
Proof. intros H. cbn. lia. Qed.

Lemma time_profile_attr_inj m n s t :
  (1 <= m <= 10)%Z -> (1 <= n <= 10)%Z ->
  In s time_profile_suffixes -> In t time_profile_suffixes ->
  time_profile_attr m s = time_profile_attr n t -> m = n /\ s = t.
Proof.
  intros Hm Hn Hs Ht Heq.
  assert (Hall : time_profile_attrs_differ = true) by (vm_compute; reflexivity).
  unfold time_profile_attrs_differ in Hall.
  rewrite forallb_forall in Hall.
  specialize (Hall m (in_time_profile_numbers m Hm)).
  rewrite forallb_forall in Hall.
  specialize (Hall n (in_time_profile_numbers n Hn)).
  rewrite forallb_forall in Hall. specialize (Hall s Hs).
  rewrite forallb_forall in Hall. specialize (Hall t Ht).
  rewrite Heq, String.eqb_refl in Hall. cbn [implb] in Hall.
  apply andb_true_iff in Hall as [H1 H2].
  apply Z.eqb_eq in H1. apply String.eqb_eq in H2. auto.
Qed.

Lemma set_time_profile_name_run depth number v d w :
  (1 <= number <= 10)%Z ->
  set_time_profile_name depth number v (d, w) =
    (Ret tt,
     snd (_key_changed depth _System (time_profile_attr number "_name") v
            (set_system (time_profile_attr number "_name") v d, w))).
Proof.
  intros H. unfold set_time_profile_name. rewrite (in_range number H).
  generalize (time_profile_attr number "_name"). intros attr.
  unfold_m. cbn [fst snd].
  destruct (key_changed_same_mirror depth _System attr v (set_system attr v d, w))
    as ((b & Hb) & _).
  destruct (_key_changed depth _System attr v (set_system attr v d, w)) as [r s2].
  cbn [fst snd] in *. subst r. reflexivity.
Qed.

Lemma set_time_profile_name_stores depth number v s :
  (1 <= number <= 10)%Z ->
  fst (set_time_profile_name depth number v s) = Ret tt /\
  _system (fst (snd (set_time_profile_name depth number v s)))
    = <[time_profile_attr number "_name" := v]> (_system (fst s)) /\
  _zone (fst (snd (set_time_profile_name depth number v s))) = _zone (fst s).
Proof.
  intros H. destruct s as [d w]. rewrite (set_time_profile_name_run _ _ _ _ _ H).
  cbn [fst snd].
  destruct (key_changed_same_mirror depth _System
              (time_profile_attr number "_name") v
              (set_system (time_profile_attr number "_name") v d, w))
    as (_ & Hz & Hs).
  auto.
Qed.

Lemma get_time_profile_name_value m s :
  fst (get_time_profile_name m s) =
    if (m <? 1)%Z || (m >? 10)%Z then Ret (VStr "")
    else match _system (fst s) !! time_profile_attr m "_name" with
         | Some v => Ret v
         | None => Raise AttributeError
         end.
Proof.
  unfold get_time_profile_name, getattribute.
  destruct ((m <? 1)%Z || (m >? 10)%Z); [reflexivity|].
  unfold_m. cbn [fst snd].
  destruct (_system (fst s) !! time_profile_attr m "_name"); reflexivity.
Qed.

Lemma get_time_profile_data_value m s :
  fst (get_time_profile_data m s) =
    if (m <? 1)%Z || (m >? 10)%Z then Ret (VList [])
    else match _system (fst s) !! time_profile_attr m "_data" with
         | Some v => Ret v
         | None => Raise AttributeError
         end.
Proof.
  unfold get_time_profile_data, getattribute.
  destruct ((m <? 1)%Z || (m >? 10)%Z); [reflexivity|].
  unfold_m. cbn [fst snd].
  destruct (_system (fst s) !! time_profile_attr m "_data"); reflexivity.
Qed.

Lemma range_cases m :
  (m <? 1)%Z || (m >? 10)%Z = false -> (1 <= m <= 10)%Z.
Proof.
  intros H. apply orb_false_iff in H as [H1 H2].
  apply Z.ltb_ge in H1. rewrite Z.gtb_ltb in H2. apply Z.ltb_ge in H2. lia.
Qed.

(** X22.  A time-profile name written to a slot between 1 and 10 is what
    that slot reads back, with AUTOSET on or off; the call never raises,
    and the names of the other slots and the data of all slots read as they
    did before. *)
Theorem time_profile_name_reads_back depth number v s :
  (1 <= number <= 10)%Z ->
  fst (set_time_profile_name depth number v s) = Ret tt /\
  fst (get_time_profile_name number
         (snd (set_time_profile_name depth number v s))) = Ret v /\
  (forall m, m <> number ->
     fst (get_time_profile_name m (snd (set_time_profile_name depth number v s)))
     = fst (get_time_profile_name m s)) /\
  (forall m,
     fst (get_time_profile_data m (snd (set_time_profile_name depth number v s)))
     = fst (get_time_profile_data m s)).
Proof.
  intros H.
  destruct (set_time_profile_name_stores depth number v s H) as (H1 & H2 & _).
  split; [exact H1|]. split; [|split].
  - rewrite get_time_profile_name_value, (in_range number H), H2.
    rewrite lookup_insert_eq. reflexivity.
  - intros m Hm. rewrite !get_time_profile_name_value, H2.
    destruct ((m <? 1)%Z || (m >? 10)%Z) eqn:E; [reflexivity|].
    rewrite lookup_insert_ne; [reflexivity|].
    intros Heq. apply Hm. symmetry.
    apply (time_profile_attr_inj number m "_name" "_name" H (range_cases m E));
      [left; reflexivity|left; reflexivity|exact Heq].
  - intros m. rewrite !get_time_profile_data_value, H2.
    destruct ((m <? 1)%Z || (m >? 10)%Z) eqn:E; [reflexivity|].
    rewrite lookup_insert_ne; [reflexivity|].
    intros Heq.
    destruct (time_profile_attr_inj number m "_name" "_data" H (range_cases m E))
      as [_ Hs]; [left; reflexivity|right; left; reflexivity|exact Heq|].
    discriminate Hs.
Qed.

Lemma time_profile_name_reads_back_witness :
  fst (set_time_profile_name 3 4 (VStr "Night") (auto_device, w_rejecting))
    = Ret tt /\
  fst (get_time_profile_name 4
         (snd (set_time_profile_name 3 4 (VStr "Night")
                 (auto_device, w_rejecting)))) = Ret (VStr "Night") /\
  (forall m, m <> 4%Z ->
     fst (get_time_profile_name m
            (snd (set_time_profile_name 3 4 (VStr "Night")
                    (auto_device, w_rejecting))))
     = fst (get_time_profile_name m (auto_device, w_rejecting))) /\
  (forall m,
     fst (get_time_profile_data m
            (snd (set_time_profile_name 3 4 (VStr "Night")
                    (auto_device, w_rejecting))))
     = fst (get_time_profile_data m (auto_device, w_rejecting))).
Proof.
  apply (time_profile_name_reads_back 3 4 (VStr "Night")
           (auto_device, w_rejecting)).
  lia.
Defined.

(** X23.  [set_time_profile_data] stores nothing and sends nothing, for
    every index and every value: out of range it logs the error and returns
    [None], in range it raises [TypeError] at the length test.  In both
    cases the device is as it was, so the data of every slot read as they
    did before. *)
Theorem set_time_profile_data_never_stores depth number v s :
  fst (snd (set_time_profile_data depth number v s)) = fst s /\
  sent (snd (snd (set_time_profile_data depth number v s))) = sent (snd s) /\
  fst (set_time_profile_data depth number v s) =
    (if (number <? 1)%Z || (number >? 10)%Z then Ret tt else Raise TypeError) /\
  (forall m,
     fst (get_time_profile_data m (snd (set_time_profile_data depth number v s)))
     = fst (get_time_profile_data m s)).
Proof.
  assert (H : fst (snd (set_time_profile_data depth number v s)) = fst s /\
              sent (snd (snd (set_time_profile_data depth number v s)))
                = sent (snd s) /\
              fst (set_time_profile_data depth number v s) =
                (if (number <? 1)%Z || (number >? 10)%Z
                 then Ret tt else Raise TypeError)).
  { destruct ((number <? 1)%Z || (number >? 10)%Z) eqn:E.
    - unfold set_time_profile_data. rewrite E. cbn. auto.
    - rewrite (set_time_profile_data_raises depth number v s (range_cases _ E)).
      cbn. auto. }
  destruct H as (H1 & H2 & H3). repeat split; try assumption.
  intros m. rewrite !get_time_profile_data_value, H1. reflexivity.
Qed.

(** X24.  Outside 1..10 the name of a time profile can neither be written
    nor read: the setter leaves the device as it was and sends nothing,
    with AUTOSET on as well, and the getter invoked after it returns the
    empty string; each of the two calls logs one error record. *)
Theorem time_profile_name_out_of_range depth number v d w :
  (number < 1 \/ 10 < number)%Z ->
  set_time_profile_name depth number v (d, w) =
    (Ret tt,
     (d, add_log (Log ERROR "Index of time-profile is out of range") w)) /\
  (set_time_profile_name depth number v ;;; get_time_profile_name number) (d, w)
    = (Ret (VStr ""),
       (d, add_log (Log ERROR "Index of time-profile is out of range")
             (add_log (Log ERROR "Index of time-profile is out of range") w))) /\
  get_time_profile_data number (d, w) =
    (Ret (VList []),
     (d, add_log (Log ERROR "Index of time-profile is out of range") w)).
Proof.
  intros H. apply out_of_range in H.
  unfold set_time_profile_name, get_time_profile_name, get_time_profile_data.
  rewrite H. repeat split.
Qed.

Lemma time_profile_name_out_of_range_witness :
  set_time_profile_name 3 11 (VStr "Night") (auto_device, w_rejecting) =
    (Ret tt,
     (auto_device,
      add_log (Log ERROR "Index of time-profile is out of range") w_rejecting)) /\
  (set_time_profile_name 3 11 (VStr "Night") ;;; get_time_profile_name 11)
    (auto_device, w_rejecting)
    = (Ret (VStr ""),
       (auto_device,
        add_log (Log ERROR "Index of time-profile is out of range")
          (add_log (Log ERROR "Index of time-profile is out of range")
             w_rejecting))) /\
  get_time_profile_data 11 (auto_device, w_rejecting) =
    (Ret (VList []),
     (auto_device,
      add_log (Log ERROR "Index of time-profile is out of range") w_rejecting)).
Proof.
  apply (time_profile_name_out_of_range 3 11 (VStr "Night") auto_device
           w_rejecting).
  lia.
Defined.

(** ** Serialization *)

Lemma dom_fresh_object attrs : dom (fresh_object attrs) = list_to_set attrs.
Proof.
  unfold fresh_object. induction attrs as [|a attrs IH]; cbn.
  - apply dom_empty_L.
  - rewrite dom_insert_L, IH. reflexivity.
Qed.

Lemma insert_listed (a : string) (attrs : list string) :
  a ∈ attrs -> {[a]} ∪ list_to_set attrs = (list_to_set attrs : gset string).
Proof.
  intros H. apply subseteq_union_1_L, singleton_subseteq_l, elem_of_list_to_set.
  exact H.
Qed.

Lemma has_attrs_new_device n bytes : has_attrs (new_device n bytes).
Proof.
  split; cbn [new_device _system _zone].
  - rewrite dom_insert_L. unfold _System__init__. rewrite dom_fresh_object.
    apply insert_listed. refine (bool_decide_unpack _ _). vm_compute. exact I.
  - apply dom_fresh_object.
Qed.

Lemma has_attrs_set_system a v d :
  a ∈ _System_attrs -> has_attrs d -> has_attrs (set_system a v d).
Proof.
  intros Hin [Hs Hz]. split; cbn [set_system _system _zone]; [|exact Hz].
  rewrite dom_insert_L, Hs. apply insert_listed. exact Hin.
Qed.

Lemma has_attrs_set_zone a v d :
  a ∈ _Zone_attrs -> has_attrs d -> has_attrs (set_zone a v d).
Proof.
  intros Hin [Hs Hz]. split; cbn [set_zone _system _zone]; [exact Hs|].
  rewrite dom_insert_L, Hz. apply insert_listed. exact Hin.
Qed.

Lemma keeps_attrs_refl d : keeps_attrs d d.
Proof. intros H. exact H. Qed.

Lemma keeps_attrs_trans a b c :
  keeps_attrs a b -> keeps_attrs b c -> keeps_attrs a c.
Proof. unfold keeps_attrs. auto. Qed.

Lemma fetch_keeps_attrs depth : stable keeps_attrs (fetch depth).
Proof.
  apply (stable_fetch keeps_attrs keeps_attrs_refl keeps_attrs_trans).
  - intros a v d Hin. exact (has_attrs_set_system a v d Hin).
  - intros a v d Hin. exact (has_attrs_set_zone a v d Hin).
Qed.

Lemma same_mirror_keeps_attrs d d' : same_mirror d d' -> keeps_attrs d d'.
Proof.
  intros (Hs & Hz & _) [H1 H2]. split; [rewrite Hs|rewrite Hz]; assumption.
Qed.

Lemma time_profile_attr_listed number suffix :
  (1 <= number <= 10)%Z -> In suffix time_profile_suffixes ->
  time_profile_attr number suffix ∈ _System_attrs.
Proof.
  intros Hn Hs.
  assert (Hall : forallb (fun n => forallb (fun s =>
                    bool_decide (time_profile_attr n s ∈ _System_attrs))
                    time_profile_suffixes) time_profile_numbers = true)
    by (vm_compute; reflexivity).
  rewrite forallb_forall in Hall.
  specialize (Hall number (in_time_profile_numbers number Hn)).
  rewrite forallb_forall in Hall. specialize (Hall suffix Hs).
  apply bool_decide_eq_true in Hall. exact Hall.
Qed.

Lemma property_attr_listed p depth v s :
  p ∈ properties ->
  exists attr, attr ∈ _Zone_attrs /\
    _zone (fst (snd (snd p depth v s))) = <[attr := v]> (_zone (fst s)) /\
    _system (fst (snd (snd p depth v s))) = _system (fst s).
Proof.
  unfold properties. intros Hp.
  repeat (apply elem_of_cons in Hp as [->|Hp]);
    [..|apply elem_of_nil in Hp; contradiction];
    cbn [fst snd];
    match goal with
    | |- context [?setter depth v s] =>
        match eval red in setter with
        | zone_setter ?attr ?key =>
            destruct (zone_setter_stores attr key depth v s) as (_ & H2 & H3);
            change (setter depth v s) with (zone_setter attr key depth v s);
            exists attr; split; [|split; [exact H2|exact H3]];
            refine (bool_decide_unpack _ _); vm_compute; exact I
        end
    end.
Qed.

(** X25.  The objects of a device keep the attributes the constructor gave
    them: a new device has exactly the attributes of [_System] and [_Zone],
    and [fetch], [push], [update], the ten property setters and the two
    time-profile setters neither add nor remove one. *)
Theorem attributes_are_kept depth n bytes p number v s :
  p ∈ properties ->
  has_attrs (fst s) ->
  has_attrs (new_device n bytes) /\
  has_attrs (fst (snd (fetch depth s))) /\
  has_attrs (fst (snd (push depth s))) /\
  has_attrs (fst (snd (update depth s))) /\
  has_attrs (fst (snd (snd p depth v s))) /\
  has_attrs (fst (snd (set_time_profile_name depth number v s))) /\
  has_attrs (fst (snd (set_time_profile_data depth number v s))).
Proof.
  intros Hp Hs.
  assert (Hpush : forall t, has_attrs (fst t) ->
                            has_attrs (fst (snd (push depth t)))).
  { intros t. apply same_mirror_keeps_attrs, push_same_mirror. }
  split; [apply has_attrs_new_device|].
  split; [apply (fetch_keeps_attrs depth s), Hs|].
  split; [apply Hpush, Hs|].
  split; [|split; [|split]].
  - unfold update, bind. specialize (Hpush s Hs).
    destruct (push depth s) as [[[|]|e] s1]; cbn [fst snd] in *;
      try exact Hpush.
    apply (fetch_keeps_attrs depth s1), Hpush.
  - destruct (property_attr_listed p depth v s Hp) as (attr & Hin & Hz & Hsys).
    destruct Hs as [H1 H2]. split; [rewrite Hsys; exact H1|].
    rewrite Hz, dom_insert_L, H2. apply insert_listed. exact Hin.
  - destruct ((number <? 1)%Z || (number >? 10)%Z) eqn:E.
    + unfold set_time_profile_name. rewrite E. exact Hs.
    + destruct (set_time_profile_name_stores depth number v s (range_cases _ E))
        as (_ & Hsys & Hz).
      destruct Hs as [H1 H2]. split; [|rewrite Hz; exact H2].
      rewrite Hsys, dom_insert_L, H1. apply insert_listed.
      apply (time_profile_attr_listed number "_name" (range_cases _ E)).
      left. reflexivity.
  - destruct ((number <? 1)%Z || (number >? 10)%Z) eqn:E.
    + unfold set_time_profile_data. rewrite E. exact Hs.
    + rewrite (set_time_profile_data_raises depth number v s (range_cases _ E)).
      exact Hs.
Qed.

Lemma attributes_are_kept_witness :
  has_attrs (new_device 0 []) /\
  has_attrs (fst (snd (fetch 3 (demo_device, w_both_groups)))) /\
  has_attrs (fst (snd (push 3 (demo_device, w_both_groups)))) /\
  has_attrs (fst (snd (update 3 (demo_device, w_both_groups)))) /\
  has_attrs (fst (snd (snd (mode, mode_setter) 3 (VStr "auto")
                         (demo_device, w_both_groups)))) /\
  has_attrs (fst (snd (set_time_profile_name 3 4 (VStr "auto")
                         (demo_device, w_both_groups)))) /\
  has_attrs (fst (snd (set_time_profile_data 3 4 (VStr "auto")
                         (demo_device, w_both_groups)))).
Proof.
  apply (attributes_are_kept 3 0 [] (mode, mode_setter) 4 (VStr "auto")
           (demo_device, w_both_groups)).
  - unfold properties. do 2 (apply elem_of_cons; right).
    apply elem_of_cons; left; reflexivity.
  - exact (has_attrs_new_device 0 _).
Defined.

Lemma export_copies (obj : gmap string value) : export obj = obj.
Proof.
  unfold export.
  apply (map_fold_weak_ind (fun (r : gmap string value) m => r = m)).
  - reflexivity.
  - intros attr v m r _ ->. reflexivity.
Qed.

Lemma json_mirror d :
  Device_json d =
    VDict (<["Zone" := VDict (_zone d)]>
             (<["System" := VDict (_system d)]> ∅)).
Proof.
  unfold Device_json. rewrite !export_copies. reflexivity.
Qed.

(** X26.  [json] returns a dictionary with exactly the two groups [System]
    and [Zone], each holding the attributes of the object under their
    attribute names.  Taken after an assignment to a property it shows the
    assigned value under the attribute's name, whatever key the change
    travels under and whether or not it was flushed; every other Zone
    attribute and the whole System group are as before the assignment. *)
Theorem json_shows_assignment attr key depth v s :
  exists system zone,
    Device_json (fst (snd (zone_setter attr key depth v s))) =
      VDict (<["Zone" := VDict zone]> (<["System" := VDict system]> ∅)) /\
    zone !! attr = Some v /\
    (forall a, a <> attr -> zone !! a = _zone (fst s) !! a) /\
    system = _system (fst s).
Proof.
  destruct (zone_setter_stores attr key depth v s) as (_ & Hz & Hs).
  exists (_system (fst (snd (zone_setter attr key depth v s)))),
         (_zone (fst (snd (zone_setter attr key depth v s)))).
  split; [apply json_mirror|]. rewrite Hz, Hs. split; [|split].
  - apply lookup_insert_eq.
  - intros a Ha. apply lookup_insert_ne. congruence.
  - reflexivity.
Qed.
